(** * Mandy state synchronisation: the client observer, the directive editor
      and the control relay.

    A shallow embedding of
    - [types/mandy.ts] (the [MandyState] record and the control payload),
    - [pages/[domain]/[room].tsx] ([normalizeMandyState], the app-message
      handler, [sendMandyControl], [requestMandyStart], the initial fetch),
    - [components/MandyPanel.tsx] (the panel's event handlers),
    - [pages/api/mandy/start.ts], [control.ts] and [state.ts] (the relay),
    followed by the properties established about them.

    JavaScript values are modelled as far as the code looks at them: JSON
    data plus [undefined], numbers with [NaN] and the infinities, strings
    as code units, objects as finite maps from property names. *)

From Stdlib Require Import QArith Lia.
From stdpp Require Import base strings gmap list.

Set Warnings "-register-all".

(** ** JavaScript values *)

Module JS.

(** A JavaScript number.  The finite doubles are rationals, so [Finite]
    over-approximates them; the sign of zero is not tracked ([-0] and [0]
    compare equal and are both falsy). *)
Inductive jsnum : Type :=
| NaN
| NegInfinity
| Finite (q : Q)
| PosInfinity.

Definition zero : jsnum := Finite 0.

Definition of_Z (z : Z) : jsnum := Finite (inject_Z z).

(** [a >= b] on numbers: every comparison with [NaN] is false. *)
Definition num_ge (a b : jsnum) : bool :=
  match a, b with
  | NaN, _ | _, NaN => false
  | _, NegInfinity => true
  | PosInfinity, _ => true
  | NegInfinity, _ => false
  | Finite _, PosInfinity => false
  | Finite x, Finite y => Qle_bool y x
  end.

(** The number is an integer (as [Number.isInteger] decides it). *)
Definition is_integer (a : jsnum) : bool :=
  match a with
  | Finite q => Z.eqb (Z.rem (Qnum q) (Zpos (Qden q))) 0
  | _ => false
  end.

(** A string is its sequence of UTF-16 code units. *)
Definition jsstring : Type := list N.

Fixpoint str (s : string) : jsstring :=
  match s with
  | EmptyString => []
  | String a rest => Ascii.N_of_ascii a :: str rest
  end.

(** Strict equality [a === b] of two strings. *)
Definition str_eqb (a b : jsstring) : bool := bool_decide (a = b).

Inductive value : Type :=
| VUndefined
| VNull
| VBool (b : bool)
| VNumber (n : jsnum)
| VString (s : jsstring)
| VArray (items : list value)
| VObject (props : gmap string value).

(** [Boolean(v)], the test behind [!v], [if (v)], [a || b]. *)
Definition truthy (v : value) : bool :=
  match v with
  | VUndefined | VNull => false
  | VBool b => b
  | VNumber NaN => false
  | VNumber (Finite q) => negb (Qeq_bool q 0)
  | VNumber _ => true
  | VString s => match s with [] => false | _ => true end
  | VArray _ | VObject _ => true
  end.

(** [v?.k] for a property name [k] that is neither an index nor [length]:
    an own property of an object, [undefined] on everything else.  On a
    value that is neither [null] nor [undefined] this is also [v.k]. *)
Definition get_prop (v : value) (k : string) : value :=
  match v with
  | VObject props => default VUndefined (props !! k)
  | _ => VUndefined
  end.

(** [a || b] *)
Definition or_else (a b : value) : value := if truthy a then a else b.

(** [a ?? b] *)
Definition nullish (a b : value) : value :=
  match a with
  | VUndefined | VNull => b
  | _ => a
  end.

(** [v === "lit"] for a string literal. *)
Definition is_str (v : value) (lit : string) : bool :=
  match v with
  | VString s => str_eqb s (str lit)
  | _ => false
  end.

(** The object literal [{ k1: v1, ..., kn: vn }]. *)
Definition object (fields : list (string * value)) : value :=
  VObject (list_to_map fields).

(** White space and line terminators of ECMAScript, the code units that
    [String.prototype.trim] strips. *)
Definition is_white_space (c : N) : bool :=
  (N.leb 9 c && N.leb c 13) || N.eqb c 32 || N.eqb c 160 || N.eqb c 5760
  || (N.leb 8192 c && N.leb c 8202) || N.eqb c 8232 || N.eqb c 8233
  || N.eqb c 8239 || N.eqb c 8287 || N.eqb c 12288 || N.eqb c 65279.

Fixpoint trimStart (s : jsstring) : jsstring :=
  match s with
  | c :: rest => if is_white_space c then trimStart rest else s
  | [] => []
  end.

Definition trimEnd (s : jsstring) : jsstring := rev (trimStart (rev s)).

Definition trim (s : jsstring) : jsstring := trimEnd (trimStart s).

(** [s.replace(/\/$/, "")]: drop one trailing slash. *)
Definition strip_trailing_slash (s : jsstring) : jsstring :=
  match rev s with
  | 47%N :: rest => rev rest
  | _ => s
  end.

(** What [await fetch(...)] and then [await response.json()] can do: the
    fetch rejects, or it resolves to a response with a status whose body
    parses as JSON or makes [json()] reject. *)
Inductive JsonResult : Type :=
| Parsed (payload : value)
| ParseRejected (err : value).

Record Response : Type := mkResponse {
  status : nat;
  json : JsonResult;
}.

(** [response.ok]: the status is in the range 200-299. *)
Definition ok (r : Response) : bool :=
  Nat.leb 200 (status r) && Nat.leb (status r) 299.

Inductive FetchResult : Type :=
| Rejects (err : value)
| Resolves (response : Response).

End JS.

Import JS.

(** ** [types/mandy.ts] (src/unnamed/part_004) *)

Module Mandy.

Inductive MandyMode : Type := silent | prompted | active.

Inductive MandyStatus : Type :=
| disconnected | connecting | online | degraded | error.

Record MandyState : Type := mkMandyState {
  version : jsnum;
  mode : MandyMode;
  muted : bool;
  directive : jsstring;
  lockedBy : option jsstring;
  updatedBy : option jsstring;
  updatedAt : option jsstring;
  status : MandyStatus;
  pendingReason : option jsstring;
}.

Definition DEFAULT_MANDY_STATE : MandyState := {|
  version := zero;
  mode := silent;
  muted := true;
  directive := str "";
  status := disconnected;
  lockedBy := None;
  updatedBy := None;
  updatedAt := None;
  pendingReason := None;
|}.

(** [{ ...s, pendingReason: r }] *)
Definition with_pendingReason (s : MandyState) (r : option jsstring)
  : MandyState :=
  {| version := version s; mode := mode s; muted := muted s;
     directive := directive s; lockedBy := lockedBy s;
     updatedBy := updatedBy s; updatedAt := updatedAt s;
     status := status s; pendingReason := r |}.

Inductive MandyAction : Type :=
| mandy_start | mandy_stop | mandy_set_mode | mandy_mute | mandy_unmute
| mandy_update_directive | mandy_lock_mode | mandy_unlock_mode.

Definition action_name (a : MandyAction) : jsstring :=
  match a with
  | mandy_start => str "mandy:start"
  | mandy_stop => str "mandy:stop"
  | mandy_set_mode => str "mandy:set_mode"
  | mandy_mute => str "mandy:mute"
  | mandy_unmute => str "mandy:unmute"
  | mandy_update_directive => str "mandy:update_directive"
  | mandy_lock_mode => str "mandy:lock_mode"
  | mandy_unlock_mode => str "mandy:unlock_mode"
  end.

Definition mode_name (m : MandyMode) : jsstring :=
  match m with
  | silent => str "silent"
  | prompted => str "prompted"
  | active => str "active"
  end.

Definition status_name (s : MandyStatus) : jsstring :=
  match s with
  | disconnected => str "disconnected"
  | connecting => str "connecting"
  | online => str "online"
  | degraded => str "degraded"
  | error => str "error"
  end.

(** The fields of [MandyControlPayload]; the optional ones are [None] when
    the object literal leaves them out. *)
Module Payload.
Record MandyControlPayload : Type := mkPayload {
  action : MandyAction;
  mode : option MandyMode;
  directive : option jsstring;
  reason : option jsstring;
  requestedBy : option jsstring;
  version : option jsnum;
}.
End Payload.

(** A [MandyState] as the object it is at run time (what
    [JSON.stringify] sends and what a caller passes back in). *)
Definition nullable (o : option jsstring) : value :=
  match o with
  | Some s => VString s
  | None => VNull
  end.

Definition state_value (s : MandyState) : value :=
  object [
    ("version", VNumber (version s));
    ("mode", VString (mode_name (mode s)));
    ("muted", VBool (muted s));
    ("directive", VString (directive s));
    ("status", VString (status_name (status s)));
    ("lockedBy", nullable (lockedBy s));
    ("updatedBy", nullable (updatedBy s));
    ("updatedAt", nullable (updatedAt s));
    ("pendingReason", nullable (pendingReason s))
  ].

End Mandy.

Import Mandy.

(** ** [pages/[domain]/[room].tsx] (src/pages/[domain]/[room].tsx) *)

Module Room.

Definition VALID_MANDY_MODES : list MandyMode := [silent; prompted; active].

Definition VALID_MANDY_STATUS : list MandyStatus :=
  [disconnected; connecting; online; degraded; error].

(** [list.includes(v) ? (v as T) : fallback], where [name] spells the
    members of [list]: the member whose spelling [v] is, if any. *)
Definition member_or {T : Type} (name : T -> jsstring) (list : list T)
    (v : value) (fallback : T) : T :=
  match v with
  | VString s =>
      match find (fun m => str_eqb (name m) s) list with
      | Some m => m
      | None => fallback
      end
  | _ => fallback
  end.

(** [typeof v === "number" ? v : fallback] and its siblings. *)
Definition number_or (v : value) (fallback : jsnum) : jsnum :=
  match v with VNumber n => n | _ => fallback end.

Definition boolean_or (v : value) (fallback : bool) : bool :=
  match v with VBool b => b | _ => fallback end.

Definition string_or (v : value) (fallback : jsstring) : jsstring :=
  match v with VString s => s | _ => fallback end.

Definition string_or_null (v : value) (fallback : option jsstring)
  : option jsstring :=
  match v with VString s => Some s | _ => fallback end.

Definition normalizeMandyState (raw : value) : MandyState :=
  if negb (truthy raw) then DEFAULT_MANDY_STATE
  else
    let mode := member_or mode_name VALID_MANDY_MODES
                  (get_prop raw "mode") silent in
    let status := member_or status_name VALID_MANDY_STATUS
                    (get_prop raw "status") disconnected in
    {| version := number_or (get_prop raw "version") zero;
       mode := mode;
       status := status;
       muted := boolean_or (get_prop raw "muted")
                  (muted DEFAULT_MANDY_STATE);
       directive := string_or (get_prop raw "directive")
                      (directive DEFAULT_MANDY_STATE);
       lockedBy := string_or_null (get_prop raw "lockedBy")
                     (lockedBy DEFAULT_MANDY_STATE);
       updatedBy := string_or_null (get_prop raw "updatedBy")
                      (updatedBy DEFAULT_MANDY_STATE);
       updatedAt := string_or_null (get_prop raw "updatedAt")
                      (updatedAt DEFAULT_MANDY_STATE);
       pendingReason := None |}.

(** The Mandy part of the page's React state. *)
Record RoomState : Type := mkRoomState {
  mandyState : MandyState;
  mandyStarting : bool;
  mandyError : value;
  localUserName : jsstring;
}.

Definition initial_state : RoomState := {|
  mandyState := DEFAULT_MANDY_STATE;
  mandyStarting := false;
  mandyError := VNull;
  localUserName := str "You";
|}.

Definition setMandyState (f : MandyState -> MandyState) (st : RoomState)
  : RoomState :=
  {| mandyState := f (mandyState st); mandyStarting := mandyStarting st;
     mandyError := mandyError st; localUserName := localUserName st |}.

Definition setMandyError (e : value) (st : RoomState) : RoomState :=
  {| mandyState := mandyState st; mandyStarting := mandyStarting st;
     mandyError := e; localUserName := localUserName st |}.

Definition setMandyStarting (b : bool) (st : RoomState) : RoomState :=
  {| mandyState := mandyState st; mandyStarting := b;
     mandyError := mandyError st; localUserName := localUserName st |}.

(** The updater passed to [setMandyState] in the [mandy/state] branch.
    [prev] is a [MandyState], so [prev?.version ?? 0] is [prev.version]. *)
Definition adopt (incomingState : value) (prev : MandyState) : MandyState :=
  let normalized := normalizeMandyState incomingState in
  if num_ge (version normalized) (version prev) then normalized else prev.

(** The ["app-message"] listener.  Its last branch (a final transcription
    line) sets the transcript message and the transcribing flag only. *)
Definition on_app_message (msg : value) (st : RoomState) : RoomState :=
  let data := get_prop msg "data" in
  if is_str (get_prop data "type") "mandy/state" then
    let incomingState := get_prop data "state" in
    if truthy incomingState then setMandyState (adopt incomingState) st
    else st
  else if is_str (get_prop data "type") "mandy/error" then
    setMandyError
      (nullish (get_prop data "message")
         (VString (str "Mandy encountered an error."))) st
  else st.

(** The JSON body of a control request:
    [{ domain, room, ...payload, requestedBy: payload.requestedBy ?? localUserName }]. *)
Definition set_optional (k : string) (v : option value)
    (m : gmap string value) : gmap string value :=
  match v with
  | Some x => <[k := x]> m
  | None => m
  end.

Definition control_body (domainSlug roomSlug : jsstring)
    (payload : Payload.MandyControlPayload) (localUserName : jsstring)
  : value :=
  VObject
    (<["requestedBy" :=
         VString (default localUserName (Payload.requestedBy payload))]>
     (set_optional "version" (VNumber <$> Payload.version payload)
     (set_optional "reason" (VString <$> Payload.reason payload)
     (set_optional "directive" (VString <$> Payload.directive payload)
     (set_optional "mode"
        ((fun m => VString (mode_name m)) <$> Payload.mode payload)
     (<["action" := VString (action_name (Payload.action payload))]>
     (<["room" := VString roomSlug]>
     (<["domain" := VString domainSlug]> ∅)))))))).

(** A request the page sends to the relay. *)
Record ApiCall : Type := mkApiCall {
  call_url : jsstring;
  call_method : jsstring;
  call_body : value;
}.

Definition is_empty (s : jsstring) : bool :=
  match s with [] => true | _ => false end.

(** [sendMandyControl] up to its [await fetch(...)]. *)
Definition sendMandyControl_begin (domainSlug roomSlug : jsstring)
    (payload : Payload.MandyControlPayload) (st : RoomState)
  : RoomState * option ApiCall :=
  if is_empty domainSlug || is_empty roomSlug then
    (setMandyError
       (VString (str "Missing room information for Mandy control.")) st,
     None)
  else
    (setMandyState
       (fun prev =>
          with_pendingReason prev
            (Some (action_name (Payload.action payload)))) st,
     Some {| call_url := str "/api/mandy/control";
             call_method := str "POST";
             call_body := control_body domainSlug roomSlug payload
                            (localUserName st) |}).

Section Errors.

(** [String(v)] for a value that is not a string, as [new Error(v)] applies
    it to its argument; left open, no property below depends on it. *)
Variable ToString : value -> jsstring.

(** [new Error(message)] *)
Definition new_Error (message : value) : value :=
  object [("message",
           VString (match message with
                    | VString s => s
                    | _ => ToString message
                    end))].

(** The [catch] block of [sendMandyControl]. *)
Definition sendMandyControl_catch (err : value) (st : RoomState)
  : RoomState :=
  setMandyState (fun prev => with_pendingReason prev None)
    (setMandyError
       (or_else (get_prop err "message")
          (VString (str "Failed to update Mandy."))) st).

(** [sendMandyControl] from the point where its fetch settles. *)
Definition sendMandyControl_settle (outcome : FetchResult) (st : RoomState)
  : RoomState :=
  match outcome with
  | Rejects err => sendMandyControl_catch err st
  | Resolves response =>
      match json response with
      | ParseRejected err => sendMandyControl_catch err st
      | Parsed payloadJson =>
          if negb (ok response) then
            sendMandyControl_catch
              (new_Error
                 (or_else (get_prop payloadJson "error")
                    (VString (str "Failed to update Mandy's state."))))
              st
          else if truthy (get_prop payloadJson "state") then
            setMandyError VNull
              (setMandyState
                 (fun _ => normalizeMandyState (get_prop payloadJson "state"))
                 st)
          else setMandyState (fun prev => with_pendingReason prev None) st
      end
  end.

(** [requestMandyStart] up to its [await fetch(...)]. *)
Definition requestMandyStart_begin (domainSlug roomSlug : jsstring)
    (tokenSlug : option jsstring) (st : RoomState)
  : RoomState * option ApiCall :=
  if mandyStarting st then (st, None)
  else if is_empty domainSlug || is_empty roomSlug then
    (setMandyStarting false
       (setMandyError (VString (str "Missing room information for Mandy."))
          (setMandyStarting true st)),
     None)
  else
    (setMandyStarting true st,
     Some {| call_url := str "/api/mandy/start";
             call_method := str "POST";
             call_body :=
               object [("domain", VString domainSlug);
                       ("room", VString roomSlug);
                       ("token", nullable tokenSlug);
                       ("directive",
                        VString (directive (mandyState st)))] |}).

(** The [catch] block of [requestMandyStart]: [inviteError.message] is read
    without [?.], so a [null] or [undefined] rejection throws again and
    leaves the error as it was. *)
Definition requestMandyStart_catch (inviteError : value) (st : RoomState)
  : RoomState :=
  match inviteError with
  | VUndefined | VNull => st
  | _ => setMandyError (get_prop inviteError "message") st
  end.

(** [requestMandyStart] from the point where its fetch settles; a body that
    does not parse counts as [{}]. *)
Definition requestMandyStart_settle (outcome : FetchResult) (st : RoomState)
  : RoomState :=
  setMandyStarting false
    match outcome with
    | Rejects err => requestMandyStart_catch err st
    | Resolves response =>
        let payload :=
          match json response with
          | Parsed p => p
          | ParseRejected _ => object []
          end in
        if negb (ok response) then
          requestMandyStart_catch
            (new_Error
               (or_else (get_prop payload "error")
                  (VString (str "Failed to invite Mandy."))))
            st
        else
          setMandyError VNull
            (if truthy (get_prop payload "state") then
               setMandyState
                 (fun _ => normalizeMandyState (get_prop payload "state")) st
             else st)
    end.

(** [fetchInitialState] from the point where its fetch settles. *)
Definition fetchInitialState_settle (cancelled : bool)
    (outcome : FetchResult) (st : RoomState) : RoomState :=
  let catch err :=
    if cancelled then st
    else setMandyError
           (or_else (get_prop err "message")
              (VString (str "Unable to load Mandy's state."))) st in
  match outcome with
  | Rejects err => catch err
  | Resolves response =>
      if negb (ok response) then st
      else
        match json response with
        | ParseRejected err => catch err
        | Parsed payload =>
            if negb cancelled && truthy (get_prop payload "state") then
              setMandyState
                (fun _ => normalizeMandyState (get_prop payload "state")) st
            else st
        end
  end.

(** What can happen to the page, as far as Mandy's state goes. *)
Inductive Event : Type :=
| AppMessage (msg : value)
| SendMandyControl (payload : Payload.MandyControlPayload)
| ControlSettled (outcome : FetchResult)
| RequestMandyStart
| StartSettled (outcome : FetchResult)
| InitialStateSettled (cancelled : bool) (outcome : FetchResult)
| ClearMandyError.

Section Page.

(** [router.query], fixed while the page is shown. *)
Variables (domainSlug roomSlug : jsstring) (tokenSlug : option jsstring).

Definition step (st : RoomState) (ev : Event) : RoomState :=
  match ev with
  | AppMessage msg => on_app_message msg st
  | SendMandyControl payload =>
      fst (sendMandyControl_begin domainSlug roomSlug payload st)
  | ControlSettled outcome => sendMandyControl_settle outcome st
  | RequestMandyStart =>
      fst (requestMandyStart_begin domainSlug roomSlug tokenSlug st)
  | StartSettled outcome => requestMandyStart_settle outcome st
  | InitialStateSettled cancelled outcome =>
      fetchInitialState_settle cancelled outcome st
  | ClearMandyError => setMandyError VNull st
  end.

Definition run (st : RoomState) (evs : list Event) : RoomState :=
  fold_left step evs st.

End Page.

End Errors.

(** [requestMandyStop]: the payload it hands to [sendMandyControl]. *)
Definition requestMandyStop (st : RoomState) : Payload.MandyControlPayload :=
  {| Payload.action := mandy_stop;
     Payload.mode := None;
     Payload.directive := None;
     Payload.reason := None;
     Payload.requestedBy := Some (localUserName st);
     Payload.version := Some (version (mandyState st)) |}.

(** The app-message a [mandy/state] broadcast arrives as. *)
Definition state_message (state : value) : value :=
  object [("fromId", VString (str "mandy"));
          ("data", object [("type", VString (str "mandy/state"));
                           ("state", state)])].

Definition error_message (message : value) : value :=
  object [("data", object [("type", VString (str "mandy/error"));
                           ("message", message)])].

(** Delivering broadcast candidates one after the other. *)
Definition deliver (candidates : list value) (st : RoomState) : RoomState :=
  fold_left (fun st c => on_app_message (state_message c) st) candidates st.

End Room.

Import Room.

(** ** [components/MandyPanel.tsx] (src/unnamed/part_000) *)

Module MandyPanel.

Record Props : Type := mkProps {
  state : MandyState;
  localUserName : jsstring;
  isOwner : bool;
}.

(** Each handler returns the payload it passes to [onSendControl], if it
    calls it; [handleDirectiveSave] also returns the draft it leaves. *)
Definition handleDirectiveSave (props : Props) (directiveDraft : jsstring)
  : option Payload.MandyControlPayload * jsstring :=
  let trimmed := trim directiveDraft in
  if is_empty trimmed || str_eqb trimmed (directive (state props)) then
    (None, directiveDraft)
  else
    (Some {| Payload.action := mandy_update_directive;
             Payload.mode := None;
             Payload.directive := Some trimmed;
             Payload.reason := None;
             Payload.requestedBy := Some (localUserName props);
             Payload.version := Some (version (state props)) |},
     trimmed).

Definition handleModeChange (props : Props) (mode : MandyMode)
  : option Payload.MandyControlPayload :=
  if str_eqb (mode_name mode) (mode_name (Mandy.mode (state props))) then None
  else
    Some {| Payload.action := mandy_set_mode;
            Payload.mode := Some mode;
            Payload.directive := None;
            Payload.reason := None;
            Payload.requestedBy := Some (localUserName props);
            Payload.version := Some (version (state props)) |}.

Definition handleToggleMute (props : Props)
  : option Payload.MandyControlPayload :=
  Some {| Payload.action :=
            if muted (state props) then mandy_unmute else mandy_mute;
          Payload.mode := None;
          Payload.directive := None;
          Payload.reason := None;
          Payload.requestedBy := Some (localUserName props);
          Payload.version := Some (version (state props)) |}.

Definition handleLockToggle (props : Props)
  : option Payload.MandyControlPayload :=
  if negb (isOwner props) then None
  else
    let locked := truthy (nullable (lockedBy (state props))) in
    Some {| Payload.action :=
              if locked then mandy_unlock_mode else mandy_lock_mode;
            Payload.mode := None;
            Payload.directive := None;
            Payload.reason :=
              Some (if locked then str "Unlocking Mandy controls"
                    else str "Owner lock enabled");
            Payload.requestedBy := Some (localUserName props);
            Payload.version := Some (version (state props)) |}.

(** The controls of the panel that can reach [onSendControl]: the directive
    box (blur or its button), the mode select, the mute and lock buttons,
    and the dismiss button, which goes through the page's
    [requestMandyStop]. *)
Inductive Control : Type :=
| SaveDirective
| SelectMode (mode : MandyMode)
| MuteButton
| LockButton
| DismissButton.

Definition onSendControl (props : Props) (directiveDraft : jsstring)
    (c : Control) : option Payload.MandyControlPayload :=
  match c with
  | SaveDirective => fst (handleDirectiveSave props directiveDraft)
  | SelectMode mode => handleModeChange props mode
  | MuteButton => handleToggleMute props
  | LockButton => handleLockToggle props
  | DismissButton =>
      Some (requestMandyStop
              {| mandyState := state props; mandyStarting := false;
                 mandyError := VNull;
                 Room.localUserName := localUserName props |})
  end.

End MandyPanel.

(** ** [pages/api/mandy/start.ts] (src/pages/api/mandy/start.ts),
       [control.ts] (src/unnamed/part_002), [state.ts] (src/unnamed/part_003) *)

Module Relay.

Record NextApiRequest : Type := mkRequest {
  method : jsstring;
  body : value;
  query : value;
}.

(** What the handler answers: the [Allow] header if it set one, the status
    and the JSON body. *)
Record NextApiResponse : Type := mkApiResponse {
  allow : option jsstring;
  res_status : nat;
  res_json : value;
}.

(** A request to the backend.  The body is the object handed to
    [JSON.stringify]; the query parameters of [state.ts] are kept apart
    from the path instead of percent-encoded into it. *)
Record Forwarded : Type := mkForwarded {
  fwd_url : jsstring;
  fwd_method : jsstring;
  fwd_query : list (string * jsstring);
  fwd_body : option value;
}.

(** [res.status(code).json({ error: message })] *)
Definition error_response (code : nat) (message : value) : NextApiResponse :=
  {| allow := None; res_status := code;
     res_json := object [("error", message)] |}.

Definition method_not_allowed (allowed : string) : NextApiResponse :=
  {| allow := Some (str allowed); res_status := 405;
     res_json := object [("error", VString (str "Method not allowed"))] |}.

Definition not_configured : NextApiResponse :=
  error_response 500
    (VString (str "MANDY_SERVICE_URL is not configured on the server.")).

(** [!serviceUrl] for [process.env.MANDY_SERVICE_URL]. *)
Definition unset (serviceUrl : option jsstring) : bool :=
  match serviceUrl with
  | Some (_ :: _) => false
  | _ => true
  end.

(** The message relayed for a response that is not [ok]. *)
Definition upstream_message (payload : value) (fallback : string) : value :=
  match get_prop payload "detail" with
  | VString detail => VString detail
  | _ => or_else (get_prop payload "error") (VString (str fallback))
  end.

(** The three handlers end alike: from [await fetch(...)] on, they differ in
    the fallback message only. *)
Definition respond (fallback : string) (outcome : FetchResult)
  : NextApiResponse :=
  let catch err :=
    error_response 500
      (or_else (get_prop err "message")
         (VString (str "Unexpected error reaching Mandy service."))) in
  match outcome with
  | Rejects err => catch err
  | Resolves response =>
      match json response with
      | ParseRejected err => catch err
      | Parsed payload =>
          if negb (ok response) then
            error_response (JS.status response)
              (upstream_message payload fallback)
          else {| allow := None; res_status := 200; res_json := payload |}
      end
  end.

Section Handlers.

(** [process.env.MANDY_SERVICE_URL] and the backend behind [fetch]. *)
Variable serviceUrl : option jsstring.
Variable backend : Forwarded -> FetchResult.

Definition base_url : jsstring :=
  strip_trailing_slash (default [] serviceUrl).

(** Each handler returns its answer and the requests it sent on. *)
Definition start_handler (req : NextApiRequest)
  : NextApiResponse * list Forwarded :=
  if negb (str_eqb (method req) (str "POST")) then
    (method_not_allowed "POST", [])
  else
    let b := nullish (body req) (object []) in
    let domain := get_prop b "domain" in
    let room := get_prop b "room" in
    let token := get_prop b "token" in
    let directive := get_prop b "directive" in
    if negb (truthy domain) || negb (truthy room) then
      (error_response 400
         (VString
            (str "Both domain and room are required to invite Mandy.")),
       [])
    else if unset serviceUrl then (not_configured, [])
    else
      let fwd :=
        {| fwd_url := base_url ++ str "/api/start";
           fwd_method := str "POST";
           fwd_query := [];
           fwd_body :=
             Some (object [("domain", domain); ("room", room);
                           ("token", token); ("directive", directive)]) |} in
      (respond "Failed to start Mandy." (backend fwd), [fwd]).

(** [const { domain, room, ...rest } = req.body ?? {}] *)
Definition rest_of (b : value) : gmap string value :=
  match b with
  | VObject props => delete "room" (delete "domain" props)
  | _ => ∅
  end.

Definition control_handler (req : NextApiRequest)
  : NextApiResponse * list Forwarded :=
  if negb (str_eqb (method req) (str "POST")) then
    (method_not_allowed "POST", [])
  else if unset serviceUrl then (not_configured, [])
  else
    let b := nullish (body req) (object []) in
    let domain := get_prop b "domain" in
    let room := get_prop b "room" in
    let rest := rest_of b in
    if negb (truthy domain) || negb (truthy room) then
      (error_response 400
         (VString
            (str "Both domain and room are required to control Mandy.")),
       [])
    else
      let fwd :=
        {| fwd_url := base_url ++ str "/api/control";
           fwd_method := str "POST";
           fwd_query := [];
           fwd_body :=
             Some (VObject (<["domain" := domain]> (<["room" := room]> rest)))
        |} in
      (respond "Failed to update Mandy." (backend fwd), [fwd]).

Definition state_handler (req : NextApiRequest)
  : NextApiResponse * list Forwarded :=
  if negb (str_eqb (method req) (str "GET")) then
    (method_not_allowed "GET", [])
  else if unset serviceUrl then (not_configured, [])
  else
    match get_prop (query req) "domain", get_prop (query req) "room" with
    | VString domain, VString room =>
        let fwd :=
          {| fwd_url := base_url ++ str "/api/state";
             fwd_method := str "GET";
             fwd_query := [("domain", domain); ("room", room)];
             fwd_body := None |} in
        (respond "Failed to fetch Mandy state." (backend fwd), [fwd])
    | _, _ =>
        (error_response 400
           (VString
              (str "Both domain and room must be provided as query parameters.")),
         [])
    end.

(** The endpoints of the relay. *)
Inductive Endpoint : Type := Start | Control | State.

Definition handler (ep : Endpoint) : NextApiRequest
  -> NextApiResponse * list Forwarded :=
  match ep with
  | Start => start_handler
  | Control => control_handler
  | State => state_handler
  end.

End Handlers.

(** The method an endpoint accepts. *)
Definition accepted (ep : Endpoint) : jsstring :=
  match ep with
  | Start | Control => str "POST"
  | State => str "GET"
  end.

(** The room address is missing from the request: the test each handler
    makes on [domain] and [room]. *)
Definition address_missing (ep : Endpoint) (req : NextApiRequest) : bool :=
  match ep with
  | Start | Control =>
      let b := nullish (body req) (object []) in
      negb (truthy (get_prop b "domain")) || negb (truthy (get_prop b "room"))
  | State =>
      match get_prop (query req) "domain", get_prop (query req) "room" with
      | VString _, VString _ => false
      | _, _ => true
      end
  end.

(** The answer for a missing room address. *)
Definition validation_error (ep : Endpoint) : NextApiResponse :=
  error_response 400
    (VString
       (str match ep with
            | Start => "Both domain and room are required to invite Mandy."
            | Control => "Both domain and room are required to control Mandy."
            | State =>
                "Both domain and room must be provided as query parameters."
            end)).

(** The fallback message of an endpoint. *)
Definition fallback (ep : Endpoint) : string :=
  match ep with
  | Start => "Failed to start Mandy."
  | Control => "Failed to update Mandy."
  | State => "Failed to fetch Mandy state."
  end.

End Relay.

(** ** Vocabulary of the properties *)

Module Spec.

(** The data model's bound on [version]: a non-negative integer. *)
Definition non_negative_integer (n : jsnum) : bool :=
  num_ge n zero && is_integer n.

(** Two states agree on every field but the local [pendingReason]. *)
Definition same_but_pending (s s' : MandyState) : Prop :=
  with_pendingReason s None = with_pendingReason s' None.

(** A broadcast candidate as the data model has it: an object whose
    [version] is a number that is not negative. *)
Definition candidate (c : value) : Prop :=
  exists props v,
    c = VObject props /\ props !! "version" = Some (VNumber v)
    /\ num_ge v zero = true.

(** The version a candidate bears. *)
Definition version_of (c : value) : jsnum :=
  number_or (get_prop c "version") zero.

(** The rule for one field of the normalised state: where the input's
    value [v] is a well-typed [inj x], the field [got] is [keep x]; where
    [v] is absent or anything else, the field is its default [dflt]. *)
Definition field_rule {T U : Type} (v : value) (inj : T -> value)
    (keep : T -> U) (got dflt : U) : Prop :=
  (forall x, v = inj x -> got = keep x)
  /\ ((forall x, v <> inj x) -> got = dflt).

(** A control request that failed: its fetch rejected, its body did not
    parse, or its status is not a success. *)
Definition control_failed (outcome : FetchResult) : bool :=
  match outcome with
  | Rejects _ => true
  | Resolves response =>
      match json response with
      | ParseRejected _ => true
      | Parsed _ => negb (ok response)
      end
  end.

(** The events that report a failure to the page: a control request that
    cannot be sent for want of a room, one that failed, and a
    [mandy/error] broadcast. *)
Definition failure (domainSlug roomSlug : jsstring) (ev : Event) : bool :=
  match ev with
  | AppMessage msg => is_str (get_prop (get_prop msg "data") "type") "mandy/error"
  | SendMandyControl _ => is_empty domainSlug || is_empty roomSlug
  | ControlSettled outcome => control_failed outcome
  | _ => false
  end.

(** A string that is empty or white space only. *)
Definition blank (s : jsstring) : bool := forallb is_white_space s.

End Spec.

Import Spec.

(** ** JSON on the wire *)

Module Json.

(** [JSON.parse(JSON.stringify(v))]: a property whose value is [undefined]
    is left out, [NaN] and the infinities become [null], and so does an
    [undefined] array element. *)
Definition defined (v : value) : bool :=
  match v with VUndefined => false | _ => true end.

Fixpoint json_clone (v : value) : value :=
  match v with
  | VNumber (Finite _) => v
  | VNumber _ => VNull
  | VArray items =>
      VArray (map (fun x => match x with
                            | VUndefined => VNull
                            | _ => json_clone x
                            end) items)
  | VObject props =>
      VObject (filter (fun kv => defined kv.2 = true) (json_clone <$> props))
  | _ => v
  end.

End Json.

Import Json.

(** ** What [MandyPanel] renders (src/unnamed/part_000, the JSX) *)

Module PanelView.

Record View : Type := mkView {
  props : MandyPanel.Props;
  isInMeeting : bool;
  isStarting : bool;
  lastError : value;
  directiveDraft : jsstring;
}.

Definition isConnected (p : MandyPanel.Props) : bool :=
  match status (MandyPanel.state p) with
  | online | degraded => true
  | _ => false
  end.

(** The [disabled] attributes and the conditions of the conditional
    elements. *)
Definition invite_shown (v : View) : bool := negb (isConnected (props v)).

Definition invite_disabled (v : View) : bool :=
  negb (isInMeeting v) || isStarting v.

Definition dismiss_shown (v : View) : bool := isConnected (props v).

Definition dismiss_disabled (v : View) : bool := isStarting v.

Definition mode_disabled (v : View) : bool :=
  negb (isConnected (props v))
  || truthy (nullable (lockedBy (MandyPanel.state (props v)))).

Definition mute_disabled (v : View) : bool := negb (isConnected (props v)).

Definition lock_shown (v : View) : bool := MandyPanel.isOwner (props v).

Definition lock_disabled (v : View) : bool := negb (isConnected (props v)).

Definition textarea_disabled (v : View) : bool :=
  negb (isConnected (props v)) && Nat.eqb (length (directiveDraft v)) 0.

Definition update_shown (v : View) : bool :=
  negb (is_empty (trim (directiveDraft v)))
  && negb (str_eqb (trim (directiveDraft v))
             (directive (MandyPanel.state (props v)))).

Definition banner_shown (v : View) : bool := truthy (lastError v).

(** A control the user can operate: it is rendered and not disabled. The
    directive is saved by leaving the text area or by its button. *)
Definition operable (v : View) (c : MandyPanel.Control) : bool :=
  match c with
  | MandyPanel.SaveDirective => negb (textarea_disabled v) || update_shown v
  | MandyPanel.SelectMode _ => negb (mode_disabled v)
  | MandyPanel.MuteButton => negb (mute_disabled v)
  | MandyPanel.LockButton => lock_shown v && negb (lock_disabled v)
  | MandyPanel.DismissButton => dismiss_shown v && negb (dismiss_disabled v)
  end.

(** What a command asks for, against the state the panel shows: a value
    other than the one the state has. *)
Definition asks_for_change (s : MandyState)
    (p : Payload.MandyControlPayload) : Prop :=
  match Payload.action p with
  | mandy_update_directive =>
      exists d, Payload.directive p = Some d /\ d <> directive s
  | mandy_set_mode => exists m, Payload.mode p = Some m /\ m <> mode s
  | mandy_mute => muted s = false
  | mandy_unmute => muted s = true
  | mandy_lock_mode => truthy (nullable (lockedBy s)) = false
  | mandy_unlock_mode => truthy (nullable (lockedBy s)) = true
  | mandy_stop => True
  | mandy_start => False
  end.

End PanelView.

(** ** [pages/api/create-room.ts]
       (src/pages/[domain]/[room].tsx, second document, lines 411-512) *)

Module CreateRoom.

(** A statement that completes or throws. *)
Inductive completion (T : Type) : Type :=
| Threw (err : value)
| Returned (x : T).

Arguments Threw {T} err.
Arguments Returned {T} x.

Definition bind {T U : Type} (c : completion T) (k : T -> completion U)
  : completion U :=
  match c with
  | Threw err => Threw err
  | Returned x => k x
  end.

(** [await fetch(...)] and [await response.json()]. *)
Definition await_fetch (r : FetchResult) : completion Response :=
  match r with
  | Rejects err => Threw err
  | Resolves response => Returned response
  end.

Definition await_json (response : Response) : completion value :=
  match json response with
  | ParseRejected err => Threw err
  | Parsed payload => Returned payload
  end.

(** A call to the Daily REST API. *)
Record DailyRequest : Type := mkDailyRequest {
  daily_url : jsstring;
  daily_method : jsstring;
  authorization : jsstring;
  daily_body : value;
}.

Section Handler.

(** The [TypeError] the engine throws for [v.k] on [null] or [undefined];
    its text differs between engines. *)
Variable TypeError : value -> string -> value.

(** [v.k], without [?.]. *)
Definition read (v : value) (k : string) : completion value :=
  match v with
  | VUndefined | VNull => Threw (TypeError v k)
  | _ => Returned (get_prop v k)
  end.

(** [process.env.DAILY_API_KEY], [process.env.DAILY_DOMAIN], the seven
    characters cut from [Math.random().toString(36)] (fewer when the
    expansion is short), and the Daily API behind [fetch]. *)
Variable apiKey : option jsstring.
Variable domain : option jsstring.
Variable suffix : jsstring.
Variable daily : DailyRequest -> FetchResult.

Definition roomName : jsstring := str "room-" ++ suffix.

Definition bearer : jsstring := str "Bearer " ++ default [] apiKey.

Definition create_request : DailyRequest :=
  {| daily_url := str "https://api.daily.co/v1/rooms";
     daily_method := str "POST";
     authorization := bearer;
     daily_body :=
       object [("name", VString roomName);
               ("privacy", VString (str "public"));
               ("properties",
                object [("enable_chat", VBool true);
                        ("enable_screenshare", VBool true);
                        ("enable_recording", VString (str "cloud"))])] |}.

Definition token_request : DailyRequest :=
  {| daily_url := str "https://api.daily.co/v1/meeting-tokens";
     daily_method := str "POST";
     authorization := bearer;
     daily_body :=
       object [("properties",
                object [("room_name", VString roomName);
                        ("is_owner", VBool true);
                        ("enable_recording", VString (str "cloud"))])] |}.

(** The [try] block from the second fetch on, [data] being the room. *)
Definition mint_token (data : value)
  : completion Relay.NextApiResponse :=
  bind (await_fetch (daily token_request)) (fun tokenResponse =>
  if negb (ok tokenResponse) then
    bind (await_json tokenResponse) (fun errorData =>
    bind (read data "url") (fun url =>
    bind (read data "name") (fun name =>
    Returned {| Relay.allow := None; Relay.res_status := 200;
                Relay.res_json := object [("url", url); ("name", name)] |})))
  else
    bind (await_json tokenResponse) (fun tokenData =>
    bind (read data "url") (fun url =>
    bind (read data "name") (fun name =>
    bind (read tokenData "token") (fun token =>
    Returned {| Relay.allow := None; Relay.res_status := 200;
                Relay.res_json :=
                  object [("url", url); ("name", name);
                          ("token", token)] |}))))).

(** The [try] block, with the calls it has made. *)
Definition try_block : completion Relay.NextApiResponse * list DailyRequest :=
  match daily create_request with
  | Rejects err => (Threw err, [create_request])
  | Resolves response =>
      if negb (ok response) then
        (bind (await_json response) (fun errorData =>
         bind (read errorData "error") (fun message =>
         Returned
           (Relay.error_response (JS.status response)
              (or_else message (VString (str "Failed to create room")))))),
         [create_request])
      else
        match await_json response with
        | Threw err => (Threw err, [create_request])
        | Returned data => (mint_token data, [create_request; token_request])
        end
  end.

(** The handler: its answer, [None] when the [catch] block itself throws
    (on [error.message] for a [null] or [undefined] error), and the calls
    made to Daily. *)
Definition handler (method : jsstring)
  : option Relay.NextApiResponse * list DailyRequest :=
  if negb (str_eqb method (str "POST")) then
    (Some (Relay.error_response 405 (VString (str "Method not allowed"))), [])
  else if Relay.unset apiKey then
    (Some (Relay.error_response 500
             (VString
                (str "DAILY_API_KEY not configured. Please add it to .env.local"))),
     [])
  else if Relay.unset domain then
    (Some (Relay.error_response 500
             (VString
                (str "DAILY_DOMAIN not configured. Please add it to .env.local"))),
     [])
  else
    match try_block with
    | (Returned res, calls) => (Some res, calls)
    | (Threw caught, calls) =>
        (match read caught "message" with
         | Threw _ => None
         | Returned message =>
             Some (Relay.error_response 500
                     (or_else message
                        (VString
                           (str "An error occurred while creating the room"))))
         end,
         calls)
    end.

End Handler.

End CreateRoom.

(** ** [pages/index.tsx], the [Form] component
       (src/unnamed/part_003, second document) *)

Module Home.

Record FormState : Type := mkFormState {
  isCreating : bool;
  isCreated : bool;
  link : jsstring;
  error : value;
  userName : jsstring;
}.

Definition handleNameChange (name : jsstring) (st : FormState) : FormState :=
  {| isCreating := isCreating st; isCreated := isCreated st;
     link := link st; error := error st; userName := name |}.

Definition resetForm (st : FormState) : FormState :=
  {| isCreating := isCreating st; isCreated := false; link := [];
     error := VString []; userName := userName st |}.

(** [createRoom] up to its [await fetch(...)]. *)
Definition createRoom_begin (st : FormState) : FormState :=
  {| isCreating := true; isCreated := isCreated st; link := link st;
     error := VString []; userName := userName st |}.

Section CreateRoom.

Variable ToString : value -> jsstring.
Variable TypeError : value -> string -> value.

(** [window.location.origin] and [process.env.NEXT_PUBLIC_DAILY_DOMAIN]. *)
Variable origin : jsstring.
Variable publicDomain : option jsstring.

(** [`${v}`] *)
Definition interpolate (v : value) : jsstring :=
  match v with
  | VString s => s
  | _ => ToString v
  end.

(** The [try] block of [createRoom] after the fetch: the link it sets. *)
Definition createRoom_try (outcome : FetchResult)
  : CreateRoom.completion jsstring :=
  CreateRoom.bind (CreateRoom.await_fetch outcome) (fun response =>
  CreateRoom.bind (CreateRoom.await_json response) (fun data =>
  if negb (ok response) then
    CreateRoom.bind (CreateRoom.read TypeError data "error") (fun message =>
    CreateRoom.Threw
      (new_Error ToString
         (or_else message (VString (str "Failed to create room")))))
  else
    CreateRoom.bind (CreateRoom.read TypeError data "name") (fun name =>
    let roomUrl :=
      origin ++ str "/"
      ++ (if Relay.unset publicDomain then str "misfits"
          else default [] publicDomain)
      ++ str "/" ++ interpolate name in
    CreateRoom.bind (CreateRoom.read TypeError data "token") (fun token =>
    CreateRoom.Returned
      (if truthy token then roomUrl ++ str "?t=" ++ interpolate token
       else roomUrl))))).

(** [createRoom] from the point where its fetch settles, [try], [catch]
    and [finally]. *)
Definition createRoom_settle (outcome : FetchResult) (st : FormState)
  : FormState :=
  let after :=
    match createRoom_try outcome with
    | CreateRoom.Returned roomUrl =>
        {| isCreating := isCreating st; isCreated := true; link := roomUrl;
           error := error st; userName := userName st |}
    | CreateRoom.Threw err =>
        match CreateRoom.read TypeError err "message" with
        | CreateRoom.Threw _ => st
        | CreateRoom.Returned message =>
            {| isCreating := isCreating st; isCreated := isCreated st;
               link := link st; error := message; userName := userName st |}
        end
    end in
  {| isCreating := false; isCreated := isCreated after; link := link after;
     error := error after; userName := userName after |}.

End CreateRoom.

End Home.

(** ** The page and the relay, end to end *)

Module Wire.

(** The route of a request of the page, by the file the handler lives in. *)
Definition route (url : jsstring) : option Relay.Endpoint :=
  if str_eqb url (str "/api/mandy/start") then Some Relay.Start
  else if str_eqb url (str "/api/mandy/control") then Some Relay.Control
  else None.

(** The request as the handler receives it: the body went through
    [JSON.stringify] and the body parser. *)
Definition request_of (call : ApiCall) : Relay.NextApiRequest :=
  {| Relay.method := call_method call;
     Relay.body := json_clone (call_body call);
     Relay.query := object [] |}.

(** What the page's [fetch] resolves to for an answer of the handler. *)
Definition response_of (res : Relay.NextApiResponse) : FetchResult :=
  Resolves {| JS.status := Relay.res_status res;
              json := Parsed (json_clone (Relay.res_json res)) |}.

Section RoundTrip.

Variable ToString : value -> jsstring.
Variable serviceUrl : option jsstring.
Variable backend : Relay.Forwarded -> FetchResult.

(** A request of the page answered by the relay. *)
Definition serve (call : ApiCall)
  : option (FetchResult * list Relay.Forwarded) :=
  match route (call_url call) with
  | Some ep =>
      let '(res, sent) :=
        Relay.handler serviceUrl backend ep (request_of call) in
      Some (response_of res, sent)
  | None => None
  end.

(** [sendMandyControl] from end to end, nothing else happening meanwhile:
    the page's state afterwards and what reached the backend. *)
Definition control_round_trip (domainSlug roomSlug : jsstring)
    (payload : Payload.MandyControlPayload) (st : RoomState)
  : option (RoomState * list Relay.Forwarded) :=
  match sendMandyControl_begin domainSlug roomSlug payload st with
  | (st1, None) => Some (st1, [])
  | (st1, Some call) =>
      match serve call with
      | Some (outcome, sent) =>
          Some (sendMandyControl_settle ToString outcome st1, sent)
      | None => None
      end
  end.

(** [requestMandyStart] from end to end. *)
Definition start_round_trip (domainSlug roomSlug : jsstring)
    (tokenSlug : option jsstring) (st : RoomState)
  : option (RoomState * list Relay.Forwarded) :=
  match requestMandyStart_begin domainSlug roomSlug tokenSlug st with
  | (st1, None) => Some (st1, [])
  | (st1, Some call) =>
      match serve call with
      | Some (outcome, sent) =>
          Some (requestMandyStart_settle ToString outcome st1, sent)
      | None => None
      end
  end.

End RoundTrip.

End Wire.

(** ** The authority's directive command (spec, section 4.2) *)

Module Authority.

(** Modelled from the spec: the version an accepted, state-changing
    command leaves. The backend that applies the commands is not among the
    sources; section 4.2 has every such command increment [version] by at
    least 1, which is taken as 1 here. *)
Definition increment (n : jsnum) : jsnum :=
  match n with
  | Finite q => Finite (q + 1)
  | _ => n
  end.

(** Modelled from the spec: the backend's handling of
    [mandy:update_directive], which is not among the sources. Section 4.2:
    it replaces [directive] and records [updatedBy]; it is a no-op if the
    directive is identical to the current value, and a no-op must not bump
    [version]; an accepted, state-changing command increments [version] and
    stamps [updatedBy] and [updatedAt]. *)
Definition update_directive (s : MandyState)
    (directive requestedBy now : jsstring) : MandyState :=
  if str_eqb directive (Mandy.directive s) then s
  else
    {| version := increment (version s);
       mode := mode s;
       muted := muted s;
       directive := directive;
       lockedBy := lockedBy s;
       updatedBy := Some requestedBy;
       updatedAt := Some now;
       status := status s;
       pendingReason := pendingReason s |}.

End Authority.

(** ** Renders: what a callback and the JSX see
       (src/pages/[domain]/[room].tsx 275-322, src/unnamed/part_000 58, 136) *)

Module Render.

(** [requestMandyStart] as the callback of one render. Its guard and the
    directive it sends are the values that render saw ([rendered]: the
    callback is rebuilt when [mandyStarting] or [mandyState.directive]
    change); its setters act on the state at the time of the call. *)
Definition requestMandyStart_call (domainSlug roomSlug : jsstring)
    (tokenSlug : option jsstring) (rendered st : RoomState)
  : RoomState * option ApiCall :=
  if mandyStarting rendered then (st, None)
  else if is_empty domainSlug || is_empty roomSlug then
    (setMandyStarting false
       (setMandyError (VString (str "Missing room information for Mandy."))
          (setMandyStarting true st)),
     None)
  else
    (setMandyStarting true st,
     Some {| call_url := str "/api/mandy/start";
             call_method := str "POST";
             call_body :=
               object [("domain", VString domainSlug);
                       ("room", VString roomSlug);
                       ("token", nullable tokenSlug);
                       ("directive",
                        VString (directive (mandyState rendered)))] |}).

(** The panel's [activeTab]. *)
Inductive Tab : Type := mandy | transcript.

(** The "Update directive" button is inside the part rendered for
    [activeTab === "mandy"]. *)
Definition update_rendered (activeTab : Tab) (v : PanelView.View) : bool :=
  match activeTab with
  | mandy => PanelView.update_shown v
  | transcript => false
  end.

End Render.

(** ** Vocabulary of the further properties *)

Module More.

(** An event that brings a state with it: a [mandy/state] broadcast with a
    payload, or a successful answer whose body has a [state]. *)
Definition answer_has_state (outcome : FetchResult) : bool :=
  match outcome with
  | Rejects _ => false
  | Resolves response =>
      match json response with
      | ParseRejected _ => false
      | Parsed payload => ok response && truthy (get_prop payload "state")
      end
  end.

Definition carries_state (ev : Event) : bool :=
  match ev with
  | AppMessage msg =>
      is_str (get_prop (get_prop msg "data") "type") "mandy/state"
      && truthy (get_prop (get_prop msg "data") "state")
  | ControlSettled outcome | StartSettled outcome => answer_has_state outcome
  | InitialStateSettled cancelled outcome =>
      negb cancelled && answer_has_state outcome
  | _ => false
  end.

(** Two versions that compare equal. *)
Definition same_version (a b : jsnum) : Prop :=
  num_ge a b = true /\ num_ge b a = true.

(** The names [normalizeMandyState] reads. *)
Definition state_fields : list string :=
  ["version"; "mode"; "status"; "muted"; "directive"; "lockedBy";
   "updatedBy"; "updatedAt"].

(** An answer to [createRoom] that lets it build a link: a success whose
    body is JSON other than [null]. *)
Definition room_created (outcome : FetchResult) : bool :=
  match outcome with
  | Rejects _ => false
  | Resolves response =>
      ok response
      && match json response with
         | Parsed VNull | Parsed VUndefined | ParseRejected _ => false
         | Parsed _ => true
         end
  end.

(** A value the error banner shows as a text: a string that is not
    empty. *)
Definition error_text (e : value) : Prop :=
  exists m, e = VString m /\ m <> [].

(** A string ends with a slash. *)
Definition ends_with_slash (s : jsstring) : bool :=
  match rev s with
  | 47%N :: _ => true
  | _ => false
  end.

End More.

Import More.

(** ** Normalisation *)

Lemma member_or_mode (m fallback : MandyMode) :
  member_or mode_name VALID_MANDY_MODES (VString (mode_name m)) fallback = m.
Proof. destruct m; reflexivity. Qed.

Lemma member_or_status (s fallback : MandyStatus) :
  member_or status_name VALID_MANDY_STATUS (VString (status_name s)) fallback
  = s.
Proof. destruct s; reflexivity. Qed.

Lemma member_or_mode_other (v : value) :
  (forall m, v <> VString (mode_name m)) ->
  member_or mode_name VALID_MANDY_MODES v silent = silent.
Proof.
  intros H. destruct v as [| | | |s| |]; try reflexivity.
  unfold member_or.
  destruct (find _ _) as [m|] eqn:E; [|reflexivity].
  apply find_some in E as [_ E]. unfold str_eqb in E.
  apply bool_decide_eq_true in E. exfalso. apply (H m). now rewrite E.
Qed.

Lemma member_or_status_other (v : value) :
  (forall s, v <> VString (status_name s)) ->
  member_or status_name VALID_MANDY_STATUS v disconnected = disconnected.
Proof.
  intros H. destruct v as [| | | |s| |]; try reflexivity.
  unfold member_or.
  destruct (find _ _) as [m|] eqn:E; [|reflexivity].
  apply find_some in E as [_ E]. unfold str_eqb in E.
  apply bool_decide_eq_true in E. exfalso. apply (H m). now rewrite E.
Qed.

(** No property of a falsy value is defined: it is not an object. *)
Lemma get_prop_falsy (raw : value) (k : string) :
  truthy raw = false -> get_prop raw k = VUndefined.
Proof. destruct raw; simpl; congruence. Qed.

(** Field by field, what [normalizeMandyState] returns. *)
Lemma normalize_fields (raw : value) :
  normalizeMandyState raw =
  {| version := number_or (get_prop raw "version") zero;
     mode := member_or mode_name VALID_MANDY_MODES (get_prop raw "mode") silent;
     status := member_or status_name VALID_MANDY_STATUS
                 (get_prop raw "status") disconnected;
     muted := boolean_or (get_prop raw "muted") true;
     directive := string_or (get_prop raw "directive") [];
     lockedBy := string_or_null (get_prop raw "lockedBy") None;
     updatedBy := string_or_null (get_prop raw "updatedBy") None;
     updatedAt := string_or_null (get_prop raw "updatedAt") None;
     pendingReason := None |}.
Proof.
  unfold normalizeMandyState.
  destruct (truthy raw) eqn:T; [reflexivity|].
  simpl. now rewrite !(get_prop_falsy raw) by exact T.
Qed.

(** Sending a state back in gives the state, less its pending marker. *)
Lemma normalize_state_value (s : MandyState) :
  normalizeMandyState (state_value s) = with_pendingReason s None.
Proof.
  destruct s as [v m mu d lb ub ua st pr].
  rewrite normalize_fields. unfold with_pendingReason. simpl.
  f_equal.
  - apply member_or_mode.
  - now destruct lb.
  - now destruct ub.
  - now destruct ua.
  - apply member_or_status.
Qed.

Lemma number_or_rule (v : value) (dflt : jsnum) :
  field_rule v VNumber id (number_or v dflt) dflt.
Proof.
  split.
  - now intros x ->.
  - intros H. destruct v; try reflexivity. now destruct (H n).
Qed.

Lemma boolean_or_rule (v : value) (dflt : bool) :
  field_rule v VBool id (boolean_or v dflt) dflt.
Proof.
  split.
  - now intros x ->.
  - intros H. destruct v; try reflexivity. now destruct (H b).
Qed.

Lemma string_or_rule (v : value) (dflt : jsstring) :
  field_rule v VString id (string_or v dflt) dflt.
Proof.
  split.
  - now intros x ->.
  - intros H. destruct v; try reflexivity. now destruct (H s).
Qed.

Lemma string_or_null_rule (v : value) (dflt : option jsstring) :
  field_rule v VString Some (string_or_null v dflt) dflt.
Proof.
  split.
  - now intros x ->.
  - intros H. destruct v; try reflexivity. now destruct (H s).
Qed.

(** C3. [normalizeMandyState] is a total function on every JavaScript value
    (null, undefined, the empty object, wrong-typed fields and out-of-enum
    strings included) and returns a [MandyState] in which [version],
    [muted], [directive], [lockedBy], [updatedBy] and [updatedAt] are the
    input's whenever the input's are present and well-typed, [mode] and
    [status] are the input's whenever they are members of their
    enumerations, every other field is its default, and [pendingReason] is
    always reset to none. *)
Theorem normalize_total_defaults (raw : value) :
  let s := normalizeMandyState raw in
  let d := DEFAULT_MANDY_STATE in
  field_rule (get_prop raw "version") VNumber id (version s) (version d)
  /\ field_rule (get_prop raw "muted") VBool id (muted s) (muted d)
  /\ field_rule (get_prop raw "directive") VString id
       (directive s) (directive d)
  /\ field_rule (get_prop raw "lockedBy") VString Some
       (lockedBy s) (lockedBy d)
  /\ field_rule (get_prop raw "updatedBy") VString Some
       (updatedBy s) (updatedBy d)
  /\ field_rule (get_prop raw "updatedAt") VString Some
       (updatedAt s) (updatedAt d)
  /\ field_rule (get_prop raw "mode") (fun m => VString (mode_name m)) id
       (mode s) (mode d)
  /\ field_rule (get_prop raw "status") (fun x => VString (status_name x)) id
       (status s) (status d)
  /\ pendingReason s = None.
Proof.
  cbv zeta. rewrite normalize_fields. cbn [version muted directive lockedBy
    updatedBy updatedAt mode status pendingReason DEFAULT_MANDY_STATE].
  repeat split;
    try apply number_or_rule; try apply boolean_or_rule;
    try apply string_or_rule; try apply string_or_null_rule.
  - intros m ->. apply member_or_mode.
  - apply member_or_mode_other.
  - intros x ->. apply member_or_status.
  - apply member_or_status_other.
Qed.

(** The rule at work: a lock holder is kept, a numeric [muted] is not. *)
Lemma normalize_total_defaults_witness :
  lockedBy (normalizeMandyState
              (object [("lockedBy", VString (str "ann"));
                       ("muted", VNumber (of_Z 1))])) = Some (str "ann")
  /\ muted (normalizeMandyState
              (object [("lockedBy", VString (str "ann"));
                       ("muted", VNumber (of_Z 1))])) = true.
Proof.
  pose proof (normalize_total_defaults
                (object [("lockedBy", VString (str "ann"));
                         ("muted", VNumber (of_Z 1))])) as H.
  cbv zeta in H.
  destruct H as (_ & [_ Hm] & _ & [Hl _] & _).
  split.
  - apply Hl. reflexivity.
  - apply Hm. intros b. vm_compute. discriminate.
Defined.

(** C4. Normalising a normalised state gives it back:
    [normalize (normalize x) = normalize x] for every [x]. *)
Theorem normalize_idempotent (x : value) :
  normalizeMandyState (state_value (normalizeMandyState x))
  = normalizeMandyState x.
Proof.
  rewrite normalize_state_value. now rewrite normalize_fields.
Qed.

(** C5, as the claim has it, fails: a negative or fractional [version] is a
    number and is kept as it is. *)
Lemma negative_version_kept :
  non_negative_integer
    (version (normalizeMandyState (object [("version", VNumber (of_Z (-1)))])))
  = false
  /\ non_negative_integer
       (version (normalizeMandyState
                   (object [("version", VNumber (Finite (3 # 2)))])))
     = false.
Proof. split; reflexivity. Qed.

(** C5, amended. The normalised [version] is the input's [version] when
    that is a number and 0 otherwise; so it is a non-negative integer
    exactly when the input's [version] is absent, not a number, or itself a
    non-negative integer. *)
Theorem normalize_version (raw : value) :
  version (normalizeMandyState raw) = number_or (get_prop raw "version") zero
  /\ (non_negative_integer (version (normalizeMandyState raw)) = true
      <-> (forall n, get_prop raw "version" = VNumber n
                     -> non_negative_integer n = true)).
Proof.
  rewrite normalize_fields. cbn [version]. split; [reflexivity|].
  destruct (get_prop raw "version") eqn:E; cbn [number_or]; split;
    try (intros _ n0; discriminate); try (intros _; reflexivity).
  - intros H n0 [= <-]. exact H.
  - intros H. now apply H.
Qed.

(** ** The order on versions *)

Lemma num_ge_trans (a b c : jsnum) :
  num_ge a b = true -> num_ge b c = true -> num_ge a c = true.
Proof.
  destruct a as [| |x|], b as [| |y|], c as [| |z|]; simpl;
    try congruence.
  rewrite !Qle_bool_iff. intros H1 H2. now apply Qle_trans with y.
Qed.

Lemma num_ge_total (a b : jsnum) :
  a <> NaN -> b <> NaN -> num_ge a b = true \/ num_ge b a = true.
Proof.
  destruct a as [| |x|], b as [| |y|]; simpl; try congruence; auto.
  intros _ _. rewrite !Qle_bool_iff.
  destruct (Qlt_le_dec x y) as [H|H]; [right|left]; auto using Qlt_le_weak.
Qed.

Lemma num_ge_not_NaN (a b : jsnum) : num_ge a b = true -> a <> NaN.
Proof. now destruct a. Qed.

(** Below one bound and not below another: the second exceeds the first. *)
Lemma num_ge_below (a b c : jsnum) :
  a <> NaN -> b <> NaN ->
  num_ge a b = false -> num_ge c b = true -> num_ge c a = true.
Proof.
  intros Ha Hb Hab Hcb.
  destruct (num_ge_total a b Ha Hb) as [H|H]; [congruence|].
  now apply num_ge_trans with b.
Qed.

(** ** Reconciliation of broadcast states *)

Lemma version_normalize (c : value) :
  version (normalizeMandyState c) = version_of c.
Proof. now rewrite normalize_fields. Qed.

Lemma candidate_truthy (c : value) : candidate c -> truthy c = true.
Proof. now intros (props & v & -> & _). Qed.

Lemma candidate_version (c : value) :
  candidate c -> num_ge (version_of c) zero = true.
Proof.
  intros (props & v & -> & Hv & Hge).
  unfold version_of, get_prop. now rewrite Hv.
Qed.

(** The rule of the [mandy/state] branch, for a payload that is there. *)
Lemma on_state_message (c : value) (st : RoomState) :
  truthy c = true ->
  mandyState (on_app_message (state_message c) st)
  = if num_ge (version_of c) (version (mandyState st))
    then normalizeMandyState c else mandyState st.
Proof.
  intros T. unfold on_app_message, state_message.
  change (get_prop (get_prop _ "data") "type")
    with (VString (str "mandy/state")).
  change (is_str (VString (str "mandy/state")) "mandy/state") with true.
  cbv iota.
  change (get_prop (get_prop _ "data") "state") with c.
  rewrite T. cbn [mandyState setMandyState]. unfold adopt.
  now rewrite version_normalize.
Qed.

Lemma deliver_snoc (l : list value) (c : value) (st : RoomState) :
  deliver (l ++ [c]) st = on_app_message (state_message c) (deliver l st).
Proof. unfold deliver. now rewrite fold_left_app. Qed.

(** Where a run of broadcasts leaves the observer: where it was, every
    candidate being older than its state, or at the last of the newest
    candidates. *)
Lemma deliver_last_newest (l : list value) (st : RoomState) :
  version (mandyState st) <> NaN ->
  Forall candidate l ->
  (mandyState (deliver l st) = mandyState st
   /\ Forall (fun c => num_ge (version_of c) (version (mandyState st)) = false)
        l)
  \/ (exists before c after,
        l = before ++ c :: after
        /\ mandyState (deliver l st) = normalizeMandyState c
        /\ num_ge (version_of c) (version (mandyState st)) = true
        /\ Forall (fun c' => num_ge (version_of c) (version_of c') = true)
             before
        /\ Forall (fun c' => num_ge (version_of c') (version_of c) = false)
             after).
Proof.
  intros Hst. induction l as [|x l IH] using rev_ind; intros Hl.
  - left. split; [reflexivity|constructor].
  - apply Forall_app in Hl as [Hl Hx].
    apply Forall_inv in Hx.
    pose proof (candidate_version x Hx) as Hx0.
    pose proof (num_ge_not_NaN _ _ Hx0) as HxN.
    rewrite deliver_snoc, on_state_message by now apply candidate_truthy.
    destruct (IH Hl) as [[E Hold]|(before & c & after & -> & E & Hc & Hb & Ha)];
      rewrite E.
    + destruct (num_ge (version_of x) (version (mandyState st))) eqn:G.
      * right. exists l, x, []. repeat split; auto.
        rewrite Forall_forall in *. intros c' Hin.
        pose proof (Hl c' Hin) as Hc'.
        apply num_ge_below with (version (mandyState st)); auto.
        eapply num_ge_not_NaN, candidate_version, Hc'.
      * left. split; [reflexivity|].
        apply Forall_app. split; [exact Hold|]. now constructor.
    + rewrite version_normalize.
      apply Forall_app in Hl as [Hlb Hla].
      pose proof (Forall_inv Hla) as Hcc. apply Forall_inv_tail in Hla.
      pose proof (num_ge_not_NaN _ _ (candidate_version c Hcc)) as HcN.
      destruct (num_ge (version_of x) (version_of c)) eqn:G.
      * right. exists (before ++ c :: after), x, [].
        repeat split; auto.
        -- now apply num_ge_trans with (version_of c).
        -- apply Forall_app. split; [|constructor; [exact G|]].
           ++ eapply Forall_impl; [exact Hb|]. intros c' H. cbv beta in H.
              now apply num_ge_trans with (version_of c).
           ++ rewrite Forall_forall in *. intros c' Hin.
              apply num_ge_below with (version_of c); auto.
              eapply num_ge_not_NaN, candidate_version, Hla, Hin.
      * right. exists before, c, (after ++ [x]).
        repeat split; auto.
        -- now rewrite <- app_assoc.
        -- apply Forall_app. split; [exact Ha|]. now constructor.
Qed.

(** On the broadcast path the rule converges: whatever broadcast
    candidates reach an observer, in whatever order and however often, it
    ends at the last-delivered of the candidates of greatest version; its
    state is the normalisation of that candidate and its version is the
    maximum of all versions delivered. *)
Theorem monotonic_adoption (candidates : list value) :
  candidates <> [] ->
  Forall candidate candidates ->
  exists before c after,
    candidates = before ++ c :: after
    /\ mandyState (deliver candidates initial_state) = normalizeMandyState c
    /\ version (mandyState (deliver candidates initial_state)) = version_of c
    /\ Forall (fun c' => num_ge (version_of c) (version_of c') = true)
         candidates
    /\ Forall (fun c' => num_ge (version_of c') (version_of c) = false) after.
Proof.
  intros Hne Hall.
  destruct (deliver_last_newest candidates initial_state) as
    [[_ Hold]|(before & c & after & -> & E & _ & Hb & Ha)];
    [discriminate|exact Hall| |].
  - destruct candidates as [|x l]; [contradiction|].
    apply Forall_inv in Hold, Hall. apply candidate_version in Hall.
    change (version (mandyState initial_state)) with zero in Hold.
    congruence.
  - exists before, c, after. rewrite E, version_normalize.
    repeat split; auto.
    apply Forall_app in Hall as [_ Hca].
    pose proof (Forall_inv Hca) as Hc. apply Forall_inv_tail in Hca.
    pose proof (num_ge_not_NaN _ _ (candidate_version c Hc)) as HcN.
    apply Forall_app. split; [exact Hb|]. constructor.
    + now destruct (num_ge_total _ _ HcN HcN).
    + rewrite Forall_forall in *. intros c' Hin.
      pose proof (num_ge_not_NaN _ _ (candidate_version c' (Hca c' Hin))).
      destruct (num_ge_total (version_of c') (version_of c)); auto.
      rewrite Ha in *; [discriminate|exact Hin].
Qed.

(** Version 2 twice, around version 1: the second version 2 stands. *)
Lemma monotonic_adoption_witness :
  exists before c after,
    [object [("version", VNumber (of_Z 2)); ("mode", VString (str "active"))];
     object [("version", VNumber (of_Z 1))];
     object [("version", VNumber (of_Z 2)); ("mode", VString (str "prompted"))];
     object [("version", VNumber (of_Z 0))]]
    = before ++ c :: after
    /\ mode (normalizeMandyState c) = prompted.
Proof.
  destruct (monotonic_adoption
    [object [("version", VNumber (of_Z 2)); ("mode", VString (str "active"))];
     object [("version", VNumber (of_Z 1))];
     object [("version", VNumber (of_Z 2)); ("mode", VString (str "prompted"))];
     object [("version", VNumber (of_Z 0))]])
    as (before & c & after & E & S & _).
  - discriminate.
  - repeat constructor; eexists _, _; repeat split; reflexivity.
  - exists before, c, after. split; [exact E|]. now rewrite <- S.
Defined.

(** On the broadcast path nothing older than the observer's state gets in:
    its version never goes down. *)
Lemma broadcast_no_regression (msg : value) (st : RoomState) :
  version (mandyState st) <> NaN ->
  num_ge (version (mandyState (on_app_message msg st)))
    (version (mandyState st)) = true.
Proof.
  intros Hst.
  assert (R : num_ge (version (mandyState st)) (version (mandyState st)) = true)
    by now destruct (num_ge_total _ _ Hst Hst).
  unfold on_app_message.
  destruct (is_str (get_prop (get_prop msg "data") "type") "mandy/state").
  - destruct (truthy _); [|exact R].
    cbn [mandyState setMandyState]. unfold adopt.
    destruct (num_ge (version (normalizeMandyState _))
                (version (mandyState st))) eqn:G; [exact G|exact R].
  - now destruct (is_str _ _).
Qed.

(** A successful control response that carries a state is taken as it is,
    whatever version the observer holds. *)
Lemma control_response_adopted (ToString : value -> jsstring)
    (response : Response) (payloadJson : value) (st : RoomState) :
  ok response = true ->
  json response = Parsed payloadJson ->
  truthy (get_prop payloadJson "state") = true ->
  mandyState (sendMandyControl_settle ToString (Resolves response) st)
  = normalizeMandyState (get_prop payloadJson "state").
Proof.
  intros O J T. unfold sendMandyControl_settle. now rewrite J, O, T.
Qed.

(** C1, on the code. An observer at version 2 discards a broadcast of
    version 1, but takes the same state when it comes back as the response
    of a control request, of the start request or of the state fetch: the
    HTTP paths adopt without comparing versions. *)
Theorem stale_relay_response_adopted (ToString : value -> jsstring) :
  let newer :=
    object [("version", VNumber (of_Z 2)); ("mode", VString (str "active"));
            ("status", VString (str "online"))] in
  let older :=
    object [("version", VNumber (of_Z 1)); ("mode", VString (str "silent"));
            ("status", VString (str "online"))] in
  let st := deliver [newer] initial_state in
  let response :=
    Resolves {| JS.status := 200;
                json := Parsed (object [("state", older)]) |} in
  mandyState st = normalizeMandyState newer
  /\ num_ge (version_of older) (version (mandyState st)) = false
  /\ mandyState (on_app_message (state_message older) st)
     = normalizeMandyState newer
  /\ mandyState (sendMandyControl_settle ToString response st)
     = normalizeMandyState older
  /\ mandyState (requestMandyStart_settle ToString response st)
     = normalizeMandyState older
  /\ mandyState (fetchInitialState_settle false response st)
     = normalizeMandyState older.
Proof. repeat split; reflexivity. Qed.

(** C2, on the code. The observer ends at the maximum of the versions
    delivered only while every candidate comes as a broadcast: a candidate
    that comes as the answer of a control request is taken whatever its
    version. After a broadcast of version 2 and an answer that carries
    version 1 the observer is at version 1, below the maximum delivered,
    where the same two candidates, both broadcast, leave it at version 2. *)
Theorem http_candidate_below_maximum (ToString : value -> jsstring) :
  let newer :=
    object [("version", VNumber (of_Z 2)); ("mode", VString (str "active"));
            ("status", VString (str "online"))] in
  let older :=
    object [("version", VNumber (of_Z 1)); ("mode", VString (str "silent"));
            ("status", VString (str "online"))] in
  let answer :=
    Resolves {| JS.status := 200;
                json := Parsed (object [("state", older)]) |} in
  let st :=
    run ToString (str "demo") (str "room-1") None initial_state
      [AppMessage (state_message newer); ControlSettled answer] in
  candidate newer /\ candidate older
  /\ mandyState st = normalizeMandyState older
  /\ version (mandyState st) = of_Z 1
  /\ num_ge (version (mandyState st)) (version_of newer) = false
  /\ version (mandyState (deliver [newer; older] initial_state)) = of_Z 2.
Proof.
  cbv zeta. split; [|split].
  - eexists _, _. repeat split; reflexivity.
  - eexists _, _. repeat split; reflexivity.
  - repeat split; reflexivity.
Qed.

(** ** Failures on the page *)

Lemma or_else_string (a : value) (s : jsstring) :
  or_else a (VString s) <> VNull /\ or_else a (VString s) <> VUndefined.
Proof.
  unfold or_else. destruct (truthy a) eqn:T; split; try discriminate;
    intros ->; discriminate T.
Qed.

Lemma nullish_string (a : value) (s : jsstring) :
  nullish a (VString s) <> VNull /\ nullish a (VString s) <> VUndefined.
Proof. destruct a; simpl; auto. Qed.

(** [same_but_pending], field by field. *)
Lemma same_but_pending_fields (s s' : MandyState) :
  same_but_pending s s'
  <-> version s = version s' /\ mode s = mode s' /\ muted s = muted s'
      /\ directive s = directive s' /\ lockedBy s = lockedBy s'
      /\ updatedBy s = updatedBy s' /\ updatedAt s = updatedAt s'
      /\ status s = status s'.
Proof.
  unfold same_but_pending, with_pendingReason. split.
  - intros [= -> -> -> -> -> -> -> ->]. repeat split.
  - intros (-> & -> & -> & -> & -> & -> & -> & ->). reflexivity.
Qed.

Lemma same_but_pending_reset (s : MandyState) (r : option jsstring) :
  same_but_pending s (with_pendingReason s r).
Proof. reflexivity. Qed.

Lemma catch_keeps_state (err : value) (st : RoomState) :
  let st' := sendMandyControl_catch err st in
  same_but_pending (mandyState st) (mandyState st')
  /\ mandyStarting st' = mandyStarting st
  /\ mandyError st' <> VNull /\ mandyError st' <> VUndefined.
Proof.
  cbv zeta. unfold sendMandyControl_catch.
  cbn [mandyState mandyStarting mandyError setMandyState setMandyError].
  repeat split; apply or_else_string.
Qed.

(** What every failure leaves alone, and that it sets an error. *)
Lemma failure_frame (ToString : value -> jsstring)
    (domainSlug roomSlug : jsstring) (tokenSlug : option jsstring)
    (st : RoomState) (ev : Event) :
  failure domainSlug roomSlug ev = true ->
  let st' := step ToString domainSlug roomSlug tokenSlug st ev in
  let st'' := step ToString domainSlug roomSlug tokenSlug st' ClearMandyError in
  same_but_pending (mandyState st) (mandyState st')
  /\ mandyStarting st' = mandyStarting st
  /\ mandyError st' <> VNull /\ mandyError st' <> VUndefined
  /\ mandyState st'' = mandyState st' /\ mandyError st'' = VNull.
Proof.
  intros F. cbv zeta.
  assert (D : forall x : RoomState,
             mandyState (setMandyError VNull x) = mandyState x
             /\ mandyError (setMandyError VNull x) = VNull) by (now split).
  cut (let st' := step ToString domainSlug roomSlug tokenSlug st ev in
       same_but_pending (mandyState st) (mandyState st')
       /\ mandyStarting st' = mandyStarting st
       /\ mandyError st' <> VNull /\ mandyError st' <> VUndefined).
  { cbv zeta. cbn [step]. intros (A & B & C & E).
    repeat split; auto. }
  destruct ev as [msg|payload|outcome| |outcome|cancelled outcome|];
    try discriminate F; cbn [step failure] in *.
  - unfold on_app_message.
    destruct (get_prop (get_prop msg "data") "type") as [| | | |ty| |] eqn:T;
      try discriminate F.
    unfold is_str in *. unfold str_eqb in F.
    apply bool_decide_eq_true in F. subst ty.
    change (str_eqb (str "mandy/error") (str "mandy/state")) with false.
    change (str_eqb (str "mandy/error") (str "mandy/error")) with true.
    cbv iota zeta.
    cbn [mandyState mandyStarting mandyError setMandyError].
    repeat split; apply nullish_string.
  - unfold sendMandyControl_begin. rewrite F. cbn [fst].
    cbn [mandyState mandyStarting mandyError setMandyError].
    repeat split; discriminate.
  - unfold sendMandyControl_settle.
    destruct outcome as [err|response]; [apply catch_keeps_state|].
    cbn [control_failed] in F.
    destruct (json response) as [payloadJson|err];
      [|apply catch_keeps_state].
    rewrite F. apply catch_keeps_state.
Qed.

Lemma new_Error_message (ToString : value -> jsstring) (v : value) :
  exists m, get_prop (new_Error ToString v) "message" = VString m
            /\ (forall x, v = VString x -> m = x).
Proof.
  unfold new_Error. eexists. split; [reflexivity|]. now intros x ->.
Qed.

Lemma or_else_text (a : value) (fb : jsstring) :
  fb <> [] ->
  truthy (or_else a (VString fb)) = true
  /\ (truthy a = false \/ (exists m, a = VString m) ->
      error_text (or_else a (VString fb))).
Proof.
  intros F. unfold or_else.
  destruct (truthy a) eqn:T.
  - split; [exact T|]. intros [H|[m ->]]; [discriminate H|].
    exists m. split; [reflexivity|]. now destruct m.
  - split; [now destruct fb|]. intros _. now exists fb.
Qed.

Lemma nullish_text (message : value) (fb : jsstring) :
  fb <> [] ->
  error_text (nullish message (VString fb))
  <-> message = VNull \/ message = VUndefined \/ error_text message.
Proof.
  intros F. destruct message; cbn [nullish]; split; auto;
    try (intros _; now exists fb);
    try (intros [H|[H|H]]; try discriminate H; exact H).
Qed.

(** C8, as the claim has it, fails: a [mandy/error] broadcast whose
    message is the empty string leaves the state alone, but what it sets
    as error is the empty string, for which the panel renders no banner:
    nothing is surfaced. *)
Lemma empty_error_broadcast_shows_nothing :
  let ev := AppMessage (error_message (VString [])) in
  let st' :=
    step (fun _ => []) (str "demo") (str "room-1") None initial_state ev in
  failure (str "demo") (str "room-1") ev = true
  /\ mandyState st' = mandyState initial_state
  /\ mandyError st' = VString []
  /\ PanelView.banner_shown
       {| PanelView.props :=
            {| MandyPanel.state := mandyState st';
               MandyPanel.localUserName := localUserName st';
               MandyPanel.isOwner := false |};
          PanelView.isInMeeting := true;
          PanelView.isStarting := mandyStarting st';
          PanelView.lastError := mandyError st';
          PanelView.directiveDraft := [] |} = false.
Proof. repeat split; reflexivity. Qed.

(** C8, amended. A control request that fails (it cannot be sent, its
    fetch or its body fails, or the answer is an error response, whatever
    that carries) and a [mandy/error] broadcast leave the page's
    [MandyState] as it was in every field but the local [pendingReason],
    and dismissing the error clears it without touching the state. A
    failed control request sets a text the banner shows: the fixed text
    for a missing room, the answer's [error] when that is a non-empty
    string and always some non-empty text for an error response, the
    thrown error's message or the fallback text for a fetch or body that
    failed. A [mandy/error] broadcast sets its [message], or the default
    text when that is [null] or [undefined]: what it sets is a non-empty
    text exactly when the message is absent or a non-empty string. *)
Theorem failed_control_keeps_state (ToString : value -> jsstring)
    (domainSlug roomSlug : jsstring) (tokenSlug : option jsstring)
    (st : RoomState) (ev : Event) :
  failure domainSlug roomSlug ev = true ->
  let st' := step ToString domainSlug roomSlug tokenSlug st ev in
  let st'' := step ToString domainSlug roomSlug tokenSlug st' ClearMandyError in
  same_but_pending (mandyState st) (mandyState st')
  /\ mandyStarting st' = mandyStarting st
  /\ mandyError st' <> VNull /\ mandyError st' <> VUndefined
  /\ mandyState st'' = mandyState st' /\ mandyError st'' = VNull
  /\ (forall payload,
        ev = SendMandyControl payload ->
        mandyError st'
        = VString (str "Missing room information for Mandy control."))
  /\ (forall response payloadJson,
        ev = ControlSettled (Resolves response) ->
        json response = Parsed payloadJson ->
        error_text (mandyError st')
        /\ (forall m, get_prop payloadJson "error" = VString m -> m <> [] ->
                      mandyError st' = VString m))
  /\ (forall err,
        ev = ControlSettled (Rejects err)
        \/ (exists response,
              ev = ControlSettled (Resolves response)
              /\ json response = ParseRejected err) ->
        truthy (mandyError st') = true
        /\ (forall m, get_prop err "message" = VString m -> m <> [] ->
                      mandyError st' = VString m)
        /\ (truthy (get_prop err "message") = false
            \/ (exists m, get_prop err "message" = VString m) ->
            error_text (mandyError st')))
  /\ (forall msg,
        ev = AppMessage msg ->
        let message := get_prop (get_prop msg "data") "message" in
        mandyError st'
        = nullish message (VString (str "Mandy encountered an error."))
        /\ (error_text (mandyError st')
            <-> message = VNull \/ message = VUndefined
                \/ error_text message)).
Proof.
  intros F.
  destruct (failure_frame ToString domainSlug roomSlug tokenSlug st ev F)
    as (A & B & C & D & E & G).
  cbv zeta.
  split; [exact A|]. split; [exact B|]. split; [exact C|].
  split; [exact D|]. split; [exact E|]. split; [exact G|].
  assert (caught : forall err s,
            mandyError (sendMandyControl_catch err s)
            = or_else (get_prop err "message")
                (VString (str "Failed to update Mandy."))) by reflexivity.
  assert (kept : forall (a : value) (m fb : jsstring),
            a = VString m -> m <> [] -> or_else a (VString fb) = VString m).
  { intros a m fb -> Hm. unfold or_else. now destruct m. }
  split; [|split; [|split]].
  - intros payload ->. cbn [step failure] in *.
    unfold sendMandyControl_begin. now rewrite F.
  - intros response payloadJson -> J. cbn [step failure control_failed] in *.
    unfold sendMandyControl_settle. rewrite J in *. rewrite F.
    rewrite caught.
    destruct (new_Error_message ToString
                (or_else (get_prop payloadJson "error")
                   (VString (str "Failed to update Mandy's state."))))
      as (m0 & -> & Hm0).
    split.
    + apply or_else_text; [discriminate|]. right. now exists m0.
    + intros m Em Hm.
      rewrite (Hm0 m) by (now apply kept). now apply kept.
  - intros err He.
    assert (Er : mandyError
                   (step ToString domainSlug roomSlug tokenSlug st ev)
                 = or_else (get_prop err "message")
                     (VString (str "Failed to update Mandy."))).
    { destruct He as [->|(response & -> & J)]; cbn [step];
        unfold sendMandyControl_settle; [|rewrite J]; apply caught. }
    rewrite Er.
    destruct (or_else_text (get_prop err "message")
                (str "Failed to update Mandy.")) as [T X]; [discriminate|].
    split; [exact T|]. split; [|exact X].
    intros m Em Hm. now apply kept.
  - intros msg ->. cbn [step failure] in *. cbv zeta.
    assert (Em : mandyError (on_app_message msg st)
                 = nullish (get_prop (get_prop msg "data") "message")
                     (VString (str "Mandy encountered an error."))).
    { unfold on_app_message.
      destruct (get_prop (get_prop msg "data") "type") as [| | | |ty| |];
        try discriminate F.
      unfold is_str in *. unfold str_eqb in F.
      apply bool_decide_eq_true in F. subst ty.
      change (str_eqb (str "mandy/error") (str "mandy/state")) with false.
      change (str_eqb (str "mandy/error") (str "mandy/error")) with true.
      reflexivity. }
    rewrite Em. split; [reflexivity|]. apply nullish_text. discriminate.
Qed.

(** An answer 409 that carries a state of its own and the relay's error
    text: the state is not taken, the text is what the banner shows. *)
Lemma failed_control_keeps_state_witness :
  same_but_pending
    (mandyState (deliver [object [("version", VNumber (of_Z 2))]] initial_state))
    (mandyState
       (step (fun _ => str "[object Object]") (str "demo") (str "room-1") None
          (deliver [object [("version", VNumber (of_Z 2))]] initial_state)
          (ControlSettled
             (Resolves
                {| JS.status := 409;
                   json :=
                     Parsed
                       (object
                          [("error", VString (str "Mandy is locked"));
                           ("state",
                            object [("version", VNumber (of_Z 9))])]) |}))))
  /\ mandyError
       (step (fun _ => str "[object Object]") (str "demo") (str "room-1") None
          (deliver [object [("version", VNumber (of_Z 2))]] initial_state)
          (ControlSettled
             (Resolves
                {| JS.status := 409;
                   json :=
                     Parsed
                       (object
                          [("error", VString (str "Mandy is locked"));
                           ("state",
                            object [("version", VNumber (of_Z 9))])]) |})))
     = VString (str "Mandy is locked").
Proof.
  destruct (failed_control_keeps_state (fun _ => str "[object Object]")
              (str "demo") (str "room-1") None
              (deliver [object [("version", VNumber (of_Z 2))]] initial_state)
              (ControlSettled
                 (Resolves
                    {| JS.status := 409;
                       json :=
                         Parsed
                           (object
                              [("error", VString (str "Mandy is locked"));
                               ("state",
                                object [("version", VNumber (of_Z 9))])]) |}))
              eq_refl) as (A & _ & _ & _ & _ & _ & _ & R & _).
  split; [exact A|].
  destruct (R _ _ eq_refl eq_refl) as [_ M].
  apply M; [reflexivity|discriminate].
Defined.

(** ** The directive editor *)

Lemma blank_app (s t : jsstring) : blank (s ++ t) = blank s && blank t.
Proof. apply forallb_app. Qed.

Lemma blank_rev (s : jsstring) : blank (rev s) = blank s.
Proof.
  induction s as [|c s IH]; [reflexivity|].
  simpl rev. rewrite blank_app, IH. simpl. now destruct (is_white_space c), (blank s).
Qed.

Lemma trimStart_blank (s : jsstring) : blank s = true -> trimStart s = [].
Proof.
  induction s as [|c s IH]; [reflexivity|]. simpl.
  destruct (is_white_space c); [exact IH|discriminate].
Qed.

Lemma trimStart_not_blank (s : jsstring) :
  trimStart s <> [] -> blank (trimStart s) = false.
Proof.
  induction s as [|c s IH]; [contradiction|]. simpl.
  destruct (is_white_space c) eqn:W; [exact IH|]. intros _. simpl.
  now rewrite W.
Qed.

Lemma trim_blank (s : jsstring) : blank s = true -> trim s = [].
Proof.
  intros B. unfold trim, trimEnd. now rewrite (trimStart_blank s B).
Qed.

Lemma trim_not_blank (s : jsstring) : trim s <> [] -> blank (trim s) = false.
Proof.
  unfold trim, trimEnd. intros H. rewrite blank_rev.
  apply trimStart_not_blank. intros E. apply H. now rewrite E.
Qed.

Lemma is_empty_false (s : jsstring) : is_empty s = false -> s <> [].
Proof. now destruct s. Qed.

(** Saving a draft that, once trimmed, is the current directive sends
    nothing: [handleDirectiveSave] returns without calling [onSendControl]
    and leaves the draft alone. *)
Theorem unchanged_directive_sends_nothing (props : MandyPanel.Props)
    (directiveDraft : jsstring) :
  trim directiveDraft = directive (MandyPanel.state props) ->
  MandyPanel.handleDirectiveSave props directiveDraft = (None, directiveDraft)
  /\ MandyPanel.onSendControl props directiveDraft MandyPanel.SaveDirective
     = None.
Proof.
  intros E. unfold MandyPanel.onSendControl, MandyPanel.handleDirectiveSave.
  rewrite E. unfold str_eqb. rewrite bool_decide_eq_true_2 by reflexivity.
  now rewrite orb_true_r.
Qed.

(** The directive with blanks typed around it. *)
Lemma unchanged_directive_sends_nothing_witness :
  MandyPanel.handleDirectiveSave
    {| MandyPanel.state :=
         normalizeMandyState
           (object [("version", VNumber (of_Z 4));
                    ("directive", VString (str "Track decisions"))]);
       MandyPanel.localUserName := str "ann";
       MandyPanel.isOwner := false |}
    (str "  Track decisions ")
  = (None, str "  Track decisions ").
Proof.
  apply (unchanged_directive_sends_nothing
           {| MandyPanel.state :=
                normalizeMandyState
                  (object [("version", VNumber (of_Z 4));
                           ("directive", VString (str "Track decisions"))]);
              MandyPanel.localUserName := str "ann";
              MandyPanel.isOwner := false |}
           (str "  Track decisions ")).
  reflexivity.
Defined.

(** C9. A [mandy:update_directive] whose directive is identical to the
    current one is a no-op at the authority: the state comes back as it
    was, its version not incremented, whereas a different directive is
    taken with the version incremented and the requester recorded. In
    particular the panel sends no such command when the trimmed draft is
    the directive it shows; and where it does send the same directive
    twice (a save repeated before the new state has arrived), the second
    command finds the directive in place and changes nothing. *)
Theorem identical_directive_is_noop :
  (forall s requestedBy now,
     Authority.update_directive s (directive s) requestedBy now = s)
  /\ (forall s d requestedBy now,
        d <> directive s ->
        let s' := Authority.update_directive s d requestedBy now in
        version s' = Authority.increment (version s)
        /\ directive s' = d /\ updatedBy s' = Some requestedBy)
  /\ (forall props directiveDraft,
        trim directiveDraft = directive (MandyPanel.state props) ->
        MandyPanel.handleDirectiveSave props directiveDraft
        = (None, directiveDraft))
  /\ (forall props directiveDraft p draft' s r t r' t',
        MandyPanel.handleDirectiveSave props directiveDraft
        = (Some p, draft') ->
        Payload.directive p = Some draft'
        /\ Authority.update_directive
             (Authority.update_directive s draft' r t) draft' r' t'
           = Authority.update_directive s draft' r t).
Proof.
  assert (same : forall d : jsstring, str_eqb d d = true)
    by (intros d; unfold str_eqb; now rewrite bool_decide_eq_true_2).
  split; [|split; [|split]].
  - intros s r t. unfold Authority.update_directive. now rewrite same.
  - intros s d r t Hd. cbv zeta. unfold Authority.update_directive.
    unfold str_eqb. rewrite bool_decide_eq_false_2 by exact Hd.
    repeat split.
  - intros props directiveDraft E. unfold MandyPanel.handleDirectiveSave.
    rewrite E, same. now rewrite orb_true_r.
  - intros props directiveDraft p draft' s r t r' t'.
    unfold MandyPanel.handleDirectiveSave.
    destruct (is_empty _ || str_eqb _ _); [discriminate|].
    intros [= <- <-]. split; [reflexivity|].
    unfold Authority.update_directive at 2 3.
    destruct (str_eqb (trim directiveDraft) (directive s)) eqn:E.
    + unfold Authority.update_directive. now rewrite E.
    + unfold Authority.update_directive. cbn [directive]. now rewrite same.
Qed.

(** The authority at version 4 with the directive "Track decisions": the
    same directive again leaves it at version 4, and the panel that shows
    it sends nothing for a draft with blanks around the same words. *)
Lemma identical_directive_is_noop_witness :
  version
    (Authority.update_directive
       (normalizeMandyState
          (object [("version", VNumber (of_Z 4));
                   ("directive", VString (str "Track decisions"))]))
       (str "Track decisions") (str "ann") (str "2026-01-01T00:00:00Z"))
  = of_Z 4
  /\ MandyPanel.handleDirectiveSave
       {| MandyPanel.state :=
            normalizeMandyState
              (object [("version", VNumber (of_Z 4));
                       ("directive", VString (str "Track decisions"))]);
          MandyPanel.localUserName := str "ann";
          MandyPanel.isOwner := false |}
       (str "  Track decisions ")
     = (None, str "  Track decisions ").
Proof.
  destruct identical_directive_is_noop as (A & _ & C & _). split.
  - change (str "Track decisions")
      with (directive
              (normalizeMandyState
                 (object [("version", VNumber (of_Z 4));
                          ("directive", VString (str "Track decisions"))])))
      at 2.
    now rewrite A.
  - apply C. reflexivity.
Defined.

(** C10. The panel never sends an empty or white-space-only directive: a
    blank draft makes [handleDirectiveSave] return without sending, the
    directive of a [mandy:update_directive] it does send is the trimmed
    draft, which is not blank, and no other control of the panel sends
    a directive at all. So the panel cannot clear a directive. *)
Theorem panel_never_sends_blank_directive (props : MandyPanel.Props)
    (directiveDraft : jsstring) :
  (blank directiveDraft = true ->
   MandyPanel.handleDirectiveSave props directiveDraft
   = (None, directiveDraft))
  /\ (forall c p,
        MandyPanel.onSendControl props directiveDraft c = Some p ->
        (Payload.action p = mandy_update_directive
         <-> c = MandyPanel.SaveDirective)
        /\ (forall d, Payload.directive p = Some d ->
                      c = MandyPanel.SaveDirective
                      /\ d = trim directiveDraft
                      /\ d <> [] /\ blank d = false)).
Proof.
  split.
  - intros B. unfold MandyPanel.handleDirectiveSave.
    now rewrite (trim_blank _ B).
  - intros c p H. destruct c; cbn [MandyPanel.onSendControl] in H.
    + unfold MandyPanel.handleDirectiveSave in H.
      destruct (is_empty (trim directiveDraft)) eqn:Em; [discriminate H|].
      destruct (str_eqb _ _); [discriminate H|].
      cbn in H. injection H as <-. cbn.
      apply is_empty_false in Em.
      split; [tauto|]. intros d [= <-].
      repeat split; auto using trim_not_blank.
    + unfold MandyPanel.handleModeChange in H.
      destruct (str_eqb _ _); [discriminate H|]. injection H as <-. cbn.
      split; [split; discriminate|discriminate].
    + unfold MandyPanel.handleToggleMute in H. injection H as <-. cbn.
      split; [|discriminate].
      destruct (muted _); split; discriminate.
    + unfold MandyPanel.handleLockToggle in H.
      destruct (negb _); [discriminate H|]. injection H as <-. cbn.
      split; [|discriminate].
      destruct (truthy _); split; discriminate.
    + injection H as <-. cbn. split; [split; discriminate|discriminate].
Qed.

(** Blanks and line breaks only: nothing is sent. *)
Lemma panel_never_sends_blank_directive_witness :
  MandyPanel.handleDirectiveSave
    {| MandyPanel.state :=
         normalizeMandyState
           (object [("directive", VString (str "Track decisions"))]);
       MandyPanel.localUserName := str "ann";
       MandyPanel.isOwner := true |}
    [32; 9; 10; 160; 8202]%N
  = (None, [32; 9; 10; 160; 8202]%N).
Proof.
  apply (panel_never_sends_blank_directive
           {| MandyPanel.state :=
                normalizeMandyState
                  (object [("directive", VString (str "Track decisions"))]);
              MandyPanel.localUserName := str "ann";
              MandyPanel.isOwner := true |}
           [32; 9; 10; 160; 8202]%N).
  reflexivity.
Defined.

(** ** The relay *)

(** A handler sends on at most one request, and answers it with what
    [respond] makes of the backend's reaction. *)
Lemma handler_forwards (serviceUrl : option jsstring)
    (backend : Relay.Forwarded -> FetchResult) (ep : Relay.Endpoint)
    (req : Relay.NextApiRequest) :
  Relay.handler serviceUrl backend ep req
  = (if negb (str_eqb (Relay.method req) (Relay.accepted ep))
     then Relay.method_not_allowed
            match ep with Relay.State => "GET" | _ => "POST" end
     else
       match ep with
       | Relay.Start =>
           if Relay.address_missing ep req then Relay.validation_error ep
           else Relay.not_configured
       | _ =>
           if Relay.unset serviceUrl then Relay.not_configured
           else Relay.validation_error ep
       end,
     [])
  \/ (str_eqb (Relay.method req) (Relay.accepted ep) = true
      /\ Relay.address_missing ep req = false
      /\ Relay.unset serviceUrl = false
      /\ exists fwd,
           Relay.handler serviceUrl backend ep req
           = (Relay.respond (Relay.fallback ep) (backend fwd), [fwd])).
Proof.
  destruct ep; cbn [Relay.handler Relay.accepted Relay.address_missing
                    Relay.validation_error Relay.fallback].
  - unfold Relay.start_handler.
    destruct (str_eqb _ _); cbn [negb]; [|now left].
    destruct (negb (truthy _) || negb (truthy _)); [now left|].
    destruct (Relay.unset serviceUrl); [now left|].
    right. repeat split. eexists. reflexivity.
  - unfold Relay.control_handler.
    destruct (str_eqb _ _); cbn [negb]; [|now left].
    destruct (Relay.unset serviceUrl); [now left|].
    destruct (negb (truthy _) || negb (truthy _)) eqn:M.
    + left. reflexivity.
    + right. repeat split. eexists. reflexivity.
  - unfold Relay.state_handler.
    destruct (str_eqb _ _); cbn [negb]; [|now left].
    destruct (Relay.unset serviceUrl); [now left|].
    destruct (get_prop (Relay.query req) "domain");
      try (left; reflexivity).
    destruct (get_prop (Relay.query req) "room");
      try (left; reflexivity).
    right. repeat split. eexists. reflexivity.
Qed.

(** C6, as the claim has it, fails: on [control] a request without a room
    address is answered 500 when the backend address is not configured,
    and a request with the wrong method is answered 405 whatever it
    lacks. *)
Lemma missing_address_not_always_400 :
  let backend := fun _ : Relay.Forwarded => Rejects VUndefined in
  let post := {| Relay.method := str "POST"; Relay.body := object [];
                 Relay.query := object [] |} in
  let get := {| Relay.method := str "GET"; Relay.body := object [];
                Relay.query := object [] |} in
  Relay.address_missing Relay.Control post = true
  /\ Relay.res_status (fst (Relay.handler None backend Relay.Control post))
     = 500
  /\ Relay.address_missing Relay.Start get = true
  /\ Relay.res_status (fst (Relay.handler None backend Relay.Start get))
     = 405.
Proof. repeat split; reflexivity. Qed.

(** C6, amended. A request with the endpoint's method that lacks the room
    address, or that arrives while the backend address is not configured,
    is answered without anything being sent on: with the 400 validation
    error for a missing address and the 500 not-configured error for a
    missing backend address, where [start] tests the room address first
    and [control] and [state] test the backend address first. *)
Theorem relay_rejects_before_forwarding (serviceUrl : option jsstring)
    (backend : Relay.Forwarded -> FetchResult) (ep : Relay.Endpoint)
    (req : Relay.NextApiRequest) :
  Relay.method req = Relay.accepted ep ->
  Relay.address_missing ep req = true \/ Relay.unset serviceUrl = true ->
  snd (Relay.handler serviceUrl backend ep req) = []
  /\ fst (Relay.handler serviceUrl backend ep req)
     = match ep with
       | Relay.Start =>
           if Relay.address_missing ep req then Relay.validation_error ep
           else Relay.not_configured
       | _ =>
           if Relay.unset serviceUrl then Relay.not_configured
           else Relay.validation_error ep
       end
  /\ (Relay.address_missing ep req = true ->
      Relay.unset serviceUrl = false ->
      fst (Relay.handler serviceUrl backend ep req)
      = Relay.validation_error ep)
  /\ (Relay.unset serviceUrl = true ->
      Relay.address_missing ep req = false ->
      fst (Relay.handler serviceUrl backend ep req) = Relay.not_configured).
Proof.
  intros Hm Hbad.
  destruct (handler_forwards serviceUrl backend ep req)
    as [E|(_ & A & U & _)].
  - rewrite E. cbn [fst snd]. unfold str_eqb.
    rewrite bool_decide_eq_true_2 by exact Hm. cbn [negb].
    repeat split.
    + intros A U. rewrite A, U. now destruct ep.
    + intros U A. rewrite A, U. now destruct ep.
  - destruct Hbad; congruence.
Qed.

(** A control request with no room, the backend address being set. *)
Lemma relay_rejects_before_forwarding_witness :
  snd (Relay.handler (Some (str "http://localhost:8000"))
         (fun _ => Rejects VUndefined) Relay.Control
         {| Relay.method := str "POST";
            Relay.body := object [("domain", VString (str "demo"))];
            Relay.query := object [] |}) = []
  /\ Relay.res_status
       (fst (Relay.handler (Some (str "http://localhost:8000"))
               (fun _ => Rejects VUndefined) Relay.Control
               {| Relay.method := str "POST";
                  Relay.body := object [("domain", VString (str "demo"))];
                  Relay.query := object [] |})) = 400.
Proof.
  destruct (relay_rejects_before_forwarding
              (Some (str "http://localhost:8000"))
              (fun _ => Rejects VUndefined) Relay.Control
              {| Relay.method := str "POST";
                 Relay.body := object [("domain", VString (str "demo"))];
                 Relay.query := object [] |}) as (S & F & _).
  - reflexivity.
  - left. reflexivity.
  - split; [exact S|]. now rewrite F.
Defined.

(** C7, as the claim has it, fails: an error response whose body is not
    JSON is answered 500 with the parse error's message, not at the
    backend's status; a success whose body is not JSON is answered 500
    too; and a [detail] that is not a string (a list of validation
    errors) is replaced by the fallback message. *)
Lemma upstream_error_not_always_relayed :
  let req := {| Relay.method := str "POST";
                Relay.body := object [("domain", VString (str "demo"));
                                      ("room", VString (str "room-1"));
                                      ("action", VString (str "mandy:mute"))];
                Relay.query := object [] |} in
  let url := Some (str "http://localhost:8000/") in
  let syntax_error :=
    object [("message", VString (str "Unexpected token < in JSON"))] in
  let bad_gateway := fun _ : Relay.Forwarded =>
    Resolves {| JS.status := 502; json := ParseRejected syntax_error |} in
  let end_of_input :=
    object [("message", VString (str "Unexpected end of JSON input"))] in
  let no_content := fun _ : Relay.Forwarded =>
    Resolves {| JS.status := 204; json := ParseRejected end_of_input |} in
  let errors := VArray [object [("msg", VString (str "field required"))]] in
  let unprocessable := fun _ : Relay.Forwarded =>
    Resolves {| JS.status := 422;
                json := Parsed (object [("detail", errors)]) |} in
  length (snd (Relay.handler url bad_gateway Relay.Control req)) = 1
  /\ fst (Relay.handler url bad_gateway Relay.Control req)
     = Relay.error_response 500 (VString (str "Unexpected token < in JSON"))
  /\ fst (Relay.handler url no_content Relay.Control req)
     = Relay.error_response 500 (VString (str "Unexpected end of JSON input"))
  /\ fst (Relay.handler url unprocessable Relay.Control req)
     = Relay.error_response 422 (VString (str "Failed to update Mandy.")).
Proof. repeat split; reflexivity. Qed.

(** C7, amended. For every command sent on to which the backend answers
    with a JSON body: when the status is not a success, the relay answers
    at that status with [{ error: message }], the message being the
    backend's [detail] if that is a string, else its [error] if that is
    truthy, else the endpoint's fallback text; when the status is a
    success, the relay answers 200 with the backend's body unchanged. *)
Theorem relay_answers_with_backend_payload (serviceUrl : option jsstring)
    (backend : Relay.Forwarded -> FetchResult) (ep : Relay.Endpoint)
    (req : Relay.NextApiRequest) (fwd : Relay.Forwarded)
    (response : Response) (payload : value) :
  snd (Relay.handler serviceUrl backend ep req) = [fwd] ->
  backend fwd = Resolves response ->
  json response = Parsed payload ->
  let res := fst (Relay.handler serviceUrl backend ep req) in
  (ok response = true ->
   res = {| Relay.allow := None; Relay.res_status := 200;
            Relay.res_json := payload |})
  /\ (ok response = false ->
      Relay.res_status res = JS.status response
      /\ exists message,
           Relay.res_json res = object [("error", message)]
           /\ (forall detail, get_prop payload "detail" = VString detail ->
                              message = VString detail)
           /\ ((forall detail, get_prop payload "detail" <> VString detail) ->
               truthy (get_prop payload "error") = true ->
               message = get_prop payload "error")
           /\ ((forall detail, get_prop payload "detail" <> VString detail) ->
               truthy (get_prop payload "error") = false ->
               message = VString (str (Relay.fallback ep)))).
Proof.
  intros S B J.
  destruct (handler_forwards serviceUrl backend ep req)
    as [E|(_ & _ & _ & fwd' & E)]; rewrite E in *; [discriminate S|].
  cbn [snd fst] in *. injection S as ->. cbv zeta.
  unfold Relay.respond. rewrite B, J.
  split; intros O; rewrite O; cbn [negb]; [reflexivity|].
  split; [reflexivity|].
  exists (Relay.upstream_message payload (Relay.fallback ep)).
  split; [reflexivity|]. unfold Relay.upstream_message.
  repeat split.
  - now intros detail ->.
  - intros N T. unfold or_else. rewrite T.
    destruct (get_prop payload "detail"); try reflexivity.
    now destruct (N s).
  - intros N T. unfold or_else. rewrite T.
    destruct (get_prop payload "detail"); try reflexivity.
    now destruct (N s).
Qed.

(** A lock conflict reported by the backend with a [detail]. *)
Lemma relay_answers_with_backend_payload_witness :
  Relay.res_status
    (fst (Relay.handler (Some (str "http://localhost:8000"))
            (fun _ =>
               Resolves
                 {| JS.status := 409;
                    json :=
                      Parsed
                        (object
                           [("detail", VString (str "Mode is locked"))]) |})
            Relay.Control
            {| Relay.method := str "POST";
               Relay.body := object [("domain", VString (str "demo"));
                                     ("room", VString (str "room-1"))];
               Relay.query := object [] |})) = 409.
Proof.
  edestruct (relay_answers_with_backend_payload
               (Some (str "http://localhost:8000"))
               (fun _ =>
                  Resolves
                    {| JS.status := 409;
                       json :=
                         Parsed
                           (object
                              [("detail", VString (str "Mode is locked"))]) |})
               Relay.Control
               {| Relay.method := str "POST";
                  Relay.body := object [("domain", VString (str "demo"));
                                        ("room", VString (str "room-1"))];
                  Relay.query := object [] |}) as [_ H];
    [reflexivity..|].
  destruct (H eq_refl) as [S _]. exact S.
Defined.

(** ** Checks on concrete inputs *)

Example normalize_full :
  normalizeMandyState
    (object [("version", VNumber (of_Z 3)); ("mode", VString (str "active"));
             ("muted", VBool false); ("status", VString (str "online"));
             ("directive", VString (str "take notes"));
             ("lockedBy", VString (str "ann"));
             ("pendingReason", VString (str "mandy:mute"))])
  = {| version := of_Z 3; mode := active; muted := false;
       directive := str "take notes"; lockedBy := Some (str "ann");
       updatedBy := None; updatedAt := None; status := online;
       pendingReason := None |}.
Proof. reflexivity. Qed.

Example normalize_junk :
  normalizeMandyState
    (object [("version", VString (str "7")); ("mode", VString (str "loud"));
             ("muted", VNumber (of_Z 1)); ("status", VNull)])
  = DEFAULT_MANDY_STATE
  /\ normalizeMandyState VNull = DEFAULT_MANDY_STATE
  /\ normalizeMandyState VUndefined = DEFAULT_MANDY_STATE
  /\ normalizeMandyState (object []) = DEFAULT_MANDY_STATE
  /\ normalizeMandyState (VArray []) = DEFAULT_MANDY_STATE.
Proof. repeat split; reflexivity. Qed.

Example trim_inner_spaces :
  trim (str "  keep  voice minimal ") = str "keep  voice minimal".
Proof. reflexivity. Qed.

Example save_sends_trimmed :
  MandyPanel.handleDirectiveSave
    {| MandyPanel.state := DEFAULT_MANDY_STATE;
       MandyPanel.localUserName := str "ann";
       MandyPanel.isOwner := false |}
    (str " Track decisions ")
  = (Some {| Payload.action := mandy_update_directive;
             Payload.mode := None;
             Payload.directive := Some (str "Track decisions");
             Payload.reason := None;
             Payload.requestedBy := Some (str "ann");
             Payload.version := Some zero |},
     str "Track decisions").
Proof. reflexivity. Qed.

Example control_forwards_body :
  snd (Relay.handler (Some (str "http://localhost:8000/"))
         (fun _ => Rejects VUndefined) Relay.Control
         {| Relay.method := str "POST";
            Relay.body := object [("domain", VString (str "demo"));
                                  ("room", VString (str "room-1"));
                                  ("action", VString (str "mandy:mute"))];
            Relay.query := VUndefined |})
  = [{| Relay.fwd_url := str "http://localhost:8000/api/control";
        Relay.fwd_method := str "POST";
        Relay.fwd_query := [];
        Relay.fwd_body :=
          Some (object [("domain", VString (str "demo"));
                        ("room", VString (str "room-1"));
                        ("action", VString (str "mandy:mute"))]) |}].
Proof. reflexivity. Qed.

(** The scenario of the protocol: start, then a mode change, then the
    broadcast of the first answer arriving late. *)
Example late_broadcast_discarded :
  mode (mandyState
          (deliver
             [object [("version", VNumber (of_Z 1));
                      ("status", VString (str "online"));
                      ("mode", VString (str "silent")); ("muted", VBool true)];
              object [("version", VNumber (of_Z 2));
                      ("mode", VString (str "active"))];
              object [("version", VNumber (of_Z 1));
                      ("status", VString (str "online"));
                      ("mode", VString (str "silent")); ("muted", VBool true)]]
             initial_state))
  = active.
Proof. reflexivity. Qed.

(** A command in flight, an error broadcast, the command failing, and the
    banner dismissed: the state adopted before is still there. *)
Example failure_then_dismiss (ToString : value -> jsstring) :
  let joined := object [("version", VNumber (of_Z 1));
                        ("status", VString (str "online"))] in
  let st :=
    run ToString (str "demo") (str "room-1") None initial_state
      [AppMessage (state_message joined);
       SendMandyControl (requestMandyStop initial_state);
       AppMessage (error_message (VString (str "Mandy crashed")));
       ControlSettled
         (Rejects (object [("message", VString (str "Failed to fetch"))]));
       ClearMandyError] in
  mandyState st = normalizeMandyState joined /\ mandyError st = VNull.
Proof. split; reflexivity. Qed.

(** ** Further properties: the observer *)

Lemma num_ge_refl (a b : jsnum) : num_ge a b = true -> num_ge a a = true.
Proof.
  intros H. pose proof (num_ge_not_NaN _ _ H) as N.
  now destruct (num_ge_total a a N N).
Qed.

Lemma adopt_twice (c : value) (prev : MandyState) :
  adopt c (adopt c prev) = adopt c prev.
Proof.
  unfold adopt.
  destruct (num_ge (version (normalizeMandyState c)) (version prev)) eqn:G.
  - now rewrite (num_ge_refl _ _ G).
  - now rewrite G.
Qed.

(** X1. A message delivered twice in a row does what it does delivered once:
    duplicates of a broadcast are harmless. *)
Theorem broadcast_duplicate_tolerant (msg : value) (st : RoomState) :
  on_app_message msg (on_app_message msg st) = on_app_message msg st.
Proof.
  unfold on_app_message.
  destruct (is_str (get_prop (get_prop msg "data") "type") "mandy/state").
  - destruct (truthy _); [|reflexivity].
    unfold setMandyState. cbn [mandyState mandyStarting mandyError localUserName].
    now rewrite adopt_twice.
  - now destruct (is_str _ _).
Qed.

(** The version a run of broadcasts ends at: not below where the observer
    was, not below any candidate, and either where it was or the version of
    one of them. *)
Lemma deliver_bounds (l : list value) (st : RoomState) :
  version (mandyState st) <> NaN ->
  Forall candidate l ->
  let f := version (mandyState (deliver l st)) in
  num_ge f (version (mandyState st)) = true
  /\ Forall (fun c => num_ge f (version_of c) = true) l
  /\ (f = version (mandyState st) \/ exists c, c ∈ l /\ f = version_of c).
Proof.
  intros Hst Hl. cbv zeta.
  assert (R : num_ge (version (mandyState st)) (version (mandyState st)) = true)
    by now destruct (num_ge_total _ _ Hst Hst).
  destruct (deliver_last_newest l st Hst Hl)
    as [[E Hold]|(before & c & after & -> & E & Hc & Hb & Ha)]; rewrite E.
  - repeat split; auto.
    rewrite Forall_forall in *. intros c Hin.
    pose proof (num_ge_not_NaN _ _ (candidate_version c (Hl c Hin))) as N.
    destruct (num_ge_total (version (mandyState st)) (version_of c)); auto.
    rewrite Hold in *; [discriminate|exact Hin].
  - rewrite version_normalize.
    apply Forall_app in Hl as [_ Hca].
    pose proof (Forall_inv Hca) as Hcc. apply Forall_inv_tail in Hca.
    pose proof (num_ge_not_NaN _ _ (candidate_version c Hcc)) as N.
    repeat split; auto.
    + apply Forall_app. split; [exact Hb|]. constructor.
      * now destruct (num_ge_total _ _ N N).
      * rewrite Forall_forall in *. intros c' Hin.
        pose proof (num_ge_not_NaN _ _ (candidate_version c' (Hca c' Hin))).
        destruct (num_ge_total (version_of c') (version_of c)); auto.
        rewrite Ha in *; [discriminate|exact Hin].
    + right. exists c. split; [|reflexivity].
      apply elem_of_app. right. apply elem_of_cons. now left.
Qed.

(** X2. The order in which broadcasts arrive does not matter for the version
    the observer ends at: two arrangements of the same candidates lead to
    versions that compare equal. *)
Theorem broadcast_order_independent (l l' : list value) (st : RoomState) :
  Permutation l l' ->
  Forall candidate l ->
  version (mandyState st) <> NaN ->
  same_version (version (mandyState (deliver l st)))
    (version (mandyState (deliver l' st))).
Proof.
  intros HP Hl Hst.
  assert (Hl' : Forall candidate l') by now rewrite <- HP.
  assert (half : forall a b : list value,
             Permutation a b -> Forall candidate a -> Forall candidate b ->
             num_ge (version (mandyState (deliver b st)))
               (version (mandyState (deliver a st))) = true).
  { intros a b Hab Ha Hb.
    destruct (deliver_bounds a st Hst Ha) as (_ & _ & [E|(c & Hin & E)]);
      destruct (deliver_bounds b st Hst Hb) as (Hs & Hall & _); rewrite E.
    - exact Hs.
    - rewrite Forall_forall in Hall. apply Hall. now rewrite <- Hab. }
  split; [apply half with (a := l') (b := l)|apply half]; auto.
  now symmetry.
Qed.

(** The same three broadcasts, in two orders. *)
Lemma broadcast_order_independent_witness :
  same_version
    (version (mandyState
       (deliver [object [("version", VNumber (of_Z 1))];
                 object [("version", VNumber (of_Z 3))];
                 object [("version", VNumber (of_Z 2))]] initial_state)))
    (version (mandyState
       (deliver [object [("version", VNumber (of_Z 3))];
                 object [("version", VNumber (of_Z 2))];
                 object [("version", VNumber (of_Z 1))]] initial_state))).
Proof.
  apply broadcast_order_independent.
  - apply perm_trans with
      [object [("version", VNumber (of_Z 3))];
       object [("version", VNumber (of_Z 1))];
       object [("version", VNumber (of_Z 2))]].
    + apply perm_swap.
    + apply perm_skip, perm_swap.
  - repeat constructor; eexists _, _; repeat split; reflexivity.
  - discriminate.
Defined.

Lemma start_catch_keeps_state (err : value) (st : RoomState) :
  mandyState (requestMandyStart_catch err st) = mandyState st.
Proof. now destruct err. Qed.

(** X3. Only an event that brings a state can change what the page knows of
    Mandy: after any other event (a command sent, a failure, an answer
    without a state, a cancelled fetch, a dismissed banner, any other app
    message) every field but [pendingReason] is as before. *)
Theorem state_changes_only_with_state (ToString : value -> jsstring)
    (domainSlug roomSlug : jsstring) (tokenSlug : option jsstring)
    (st : RoomState) (ev : Event) :
  carries_state ev = false ->
  same_but_pending (mandyState st)
    (mandyState (step ToString domainSlug roomSlug tokenSlug st ev)).
Proof.
  intros C.
  destruct ev as [msg|payload|outcome| |outcome|cancelled outcome|];
    cbn [step carries_state] in *.
  - unfold on_app_message.
    destruct (is_str (get_prop (get_prop msg "data") "type") "mandy/state").
    + cbn [andb] in C. now rewrite C.
    + now destruct (is_str _ _).
  - unfold sendMandyControl_begin.
    now destruct (is_empty domainSlug || is_empty roomSlug).
  - unfold sendMandyControl_settle.
    destruct outcome as [err|response]; [apply catch_keeps_state|].
    cbn [answer_has_state] in C.
    destruct (json response) as [payloadJson|err];
      [|apply catch_keeps_state].
    destruct (ok response); cbn [negb andb] in *;
      [|apply catch_keeps_state].
    now rewrite C.
  - unfold requestMandyStart_begin.
    destruct (mandyStarting st); [reflexivity|].
    now destruct (is_empty domainSlug || is_empty roomSlug).
  - unfold requestMandyStart_settle. cbn [mandyState setMandyStarting].
    destruct outcome as [err|response];
      [now rewrite start_catch_keeps_state|].
    cbn [answer_has_state] in C.
    destruct (ok response); cbn [negb andb] in *.
    + destruct (json response) as [p|err]; cbn [mandyState setMandyError].
      * now rewrite C.
      * reflexivity.
    + now rewrite start_catch_keeps_state.
  - unfold fetchInitialState_settle.
    destruct outcome as [err|response]; [now destruct cancelled|].
    cbn [answer_has_state] in C.
    destruct (ok response); cbn [negb andb] in *; [|reflexivity].
    destruct (json response) as [p|err]; [|now destruct cancelled].
    destruct cancelled; cbn [negb andb] in *; [reflexivity|].
    now rewrite C.
  - reflexivity.
Qed.

(** A successful answer without a [state]: the version held stays. *)
Lemma state_changes_only_with_state_witness :
  same_but_pending
    (mandyState (deliver [object [("version", VNumber (of_Z 2))]] initial_state))
    (mandyState
       (step (fun _ => []) (str "demo") (str "room-1") None
          (deliver [object [("version", VNumber (of_Z 2))]] initial_state)
          (ControlSettled
             (Resolves {| JS.status := 200;
                          json := Parsed (object [("ok", VBool true)]) |})))).
Proof.
  apply (state_changes_only_with_state (fun _ => []) (str "demo")
           (str "room-1") None
           (deliver [object [("version", VNumber (of_Z 2))]] initial_state)
           (ControlSettled
              (Resolves {| JS.status := 200;
                           json := Parsed (object [("ok", VBool true)]) |}))).
  reflexivity.
Defined.

Lemma normalize_pending (raw : value) :
  pendingReason (normalizeMandyState raw) = None.
Proof. now rewrite normalize_fields. Qed.

(** X4. The pending marker lives from the sending of a command to the first
    answer: sending sets it to the action's name, every settled control
    request clears it (also when another command is still under way), and
    no other event sets it. *)
Theorem pending_marker_lifetime (ToString : value -> jsstring)
    (domainSlug roomSlug : jsstring) (tokenSlug : option jsstring)
    (st : RoomState) :
  (forall payload,
     is_empty domainSlug || is_empty roomSlug = false ->
     pendingReason
       (mandyState (step ToString domainSlug roomSlug tokenSlug st
                      (SendMandyControl payload)))
     = Some (action_name (Payload.action payload)))
  /\ (forall outcome,
        pendingReason
          (mandyState (step ToString domainSlug roomSlug tokenSlug st
                         (ControlSettled outcome))) = None)
  /\ (forall ev,
        (forall payload, ev <> SendMandyControl payload) ->
        pendingReason (mandyState st) = None ->
        pendingReason
          (mandyState (step ToString domainSlug roomSlug tokenSlug st ev))
        = None).
Proof.
  assert (settled : forall outcome s,
             pendingReason (mandyState (sendMandyControl_settle ToString outcome s))
             = None).
  { intros outcome s. unfold sendMandyControl_settle, sendMandyControl_catch.
    destruct outcome as [err|response]; [reflexivity|].
    destruct (json response); [|reflexivity].
    destruct (negb (ok response)); [reflexivity|].
    destruct (truthy _); [|reflexivity].
    cbn [mandyState setMandyState setMandyError]. apply normalize_pending. }
  repeat split.
  - intros payload S. cbn [step]. unfold sendMandyControl_begin.
    now rewrite S.
  - intros outcome. apply settled.
  - intros ev Hev P.
    destruct ev as [msg|payload|outcome| |outcome|cancelled outcome|];
      cbn [step].
    + unfold on_app_message.
      destruct (is_str _ "mandy/state").
      * destruct (truthy _); [|exact P].
        cbn [mandyState setMandyState]. unfold adopt.
        destruct (num_ge _ _); [apply normalize_pending|exact P].
      * now destruct (is_str _ _).
    + now destruct (Hev payload).
    + apply settled.
    + unfold requestMandyStart_begin.
      destruct (mandyStarting st); [exact P|].
      now destruct (is_empty domainSlug || is_empty roomSlug).
    + unfold requestMandyStart_settle. cbn [mandyState setMandyStarting].
      destruct outcome as [err|response];
        [now rewrite start_catch_keeps_state|].
      destruct (negb (ok response));
        [now rewrite start_catch_keeps_state|].
      cbn [mandyState setMandyError].
      destruct (truthy _); [|exact P].
      cbn [mandyState setMandyState]. apply normalize_pending.
    + unfold fetchInitialState_settle.
      destruct outcome as [err|response]; [now destruct cancelled|].
      destruct (negb (ok response)); [exact P|].
      destruct (json response); [|now destruct cancelled].
      destruct (negb cancelled && truthy _); [|exact P].
      cbn [mandyState setMandyState]. apply normalize_pending.
    + exact P.
Qed.

(** A mute sent from a page with a room: the marker names the action. *)
Lemma pending_marker_lifetime_witness :
  pendingReason
    (mandyState
       (step (fun _ => []) (str "demo") (str "room-1") None initial_state
          (SendMandyControl
             {| Payload.action := mandy_mute; Payload.mode := None;
                Payload.directive := None; Payload.reason := None;
                Payload.requestedBy := None; Payload.version := None |})))
  = Some (str "mandy:mute").
Proof.
  apply (pending_marker_lifetime (fun _ => []) (str "demo") (str "room-1")
           None initial_state).
  reflexivity.
Defined.

(** X5. The guard of [requestMandyStart] is the [mandyStarting] its render
    saw. A callback of a render that saw the flag up does nothing and
    sends nothing. A callback of a render that saw it down sends a request
    on every call: a second call before the next render is not refused
    and sends the same request again. Whatever the answer, the flag is
    down after the request has settled. *)
Theorem start_guard_per_render (ToString : value -> jsstring)
    (domainSlug roomSlug : jsstring) (tokenSlug : option jsstring)
    (rendered st : RoomState) :
  (mandyStarting rendered = true ->
   Render.requestMandyStart_call domainSlug roomSlug tokenSlug rendered st
   = (st, None))
  /\ (mandyStarting rendered = false ->
      is_empty domainSlug || is_empty roomSlug = false ->
      exists call,
        Render.requestMandyStart_call domainSlug roomSlug tokenSlug
          rendered st = (setMandyStarting true st, Some call)
        /\ Render.requestMandyStart_call domainSlug roomSlug tokenSlug
             rendered (setMandyStarting true st)
           = (setMandyStarting true st, Some call)
        /\ get_prop (call_body call) "directive"
           = VString (directive (mandyState rendered)))
  /\ (forall outcome,
        mandyStarting (requestMandyStart_settle ToString outcome st) = false).
Proof.
  unfold Render.requestMandyStart_call. split; [|split].
  - now intros ->.
  - intros -> ->. eexists. repeat split.
  - reflexivity.
Qed.

(** Two clicks on "Invite Mandy" before the page renders again. *)
Lemma start_guard_per_render_witness :
  exists call,
    Render.requestMandyStart_call (str "demo") (str "room-1") None
      initial_state initial_state
    = (setMandyStarting true initial_state, Some call)
    /\ Render.requestMandyStart_call (str "demo") (str "room-1") None
         initial_state (setMandyStarting true initial_state)
       = (setMandyStarting true initial_state, Some call).
Proof.
  destruct (start_guard_per_render (fun _ => []) (str "demo") (str "room-1")
              None initial_state initial_state) as (_ & B & _).
  destruct (B eq_refl eq_refl) as (call & E1 & E2 & _).
  now exists call.
Defined.

(** X6. The first fetch of the state is silent about refusals: an answer that
    is not a success, and any answer after the effect was cancelled, leave
    the page exactly as it was, without an error message. *)
Theorem initial_fetch_silent (cancelled : bool) (outcome : FetchResult)
    (st : RoomState) :
  cancelled = true
  \/ (exists response, outcome = Resolves response /\ ok response = false) ->
  fetchInitialState_settle cancelled outcome st = st.
Proof.
  intros [->|(response & -> & O)]; unfold fetchInitialState_settle.
  - destruct outcome as [err|response]; [reflexivity|].
    destruct (negb (ok response)); [reflexivity|].
    now destruct (json response).
  - now rewrite O.
Qed.

(** A 404 from the relay's state endpoint. *)
Lemma initial_fetch_silent_witness :
  fetchInitialState_settle false
    (Resolves {| JS.status := 404;
                 json := Parsed (object [("error", VString (str "no room"))]) |})
    initial_state
  = initial_state.
Proof.
  apply initial_fetch_silent. right. eexists. split; reflexivity.
Defined.

(** ** Further properties: states on the wire *)

Lemma json_clone_object (props : gmap string value) :
  json_clone (VObject props)
  = VObject (filter (fun kv => defined kv.2 = true) (json_clone <$> props)).
Proof. reflexivity. Qed.

(** Reading a property commutes with the passage through JSON. *)
Lemma get_prop_json_clone (v : value) (k : string) :
  get_prop (json_clone v) k = json_clone (get_prop v k).
Proof.
  destruct v as [| | |n| | |props]; try reflexivity.
  - now destruct n.
  - rewrite json_clone_object. unfold get_prop.
    rewrite map_lookup_filter, lookup_fmap.
    destruct (props !! k) as [x|]; [|reflexivity]. cbn.
    destruct (json_clone x) eqn:E; reflexivity.
Qed.

Lemma json_clone_string (v : value) (s : jsstring) :
  v = VString s -> json_clone v = VString s.
Proof. now intros ->. Qed.

(** X7. A state with a finite version survives the wire: serialised, parsed
    and normalised it is the state itself, less its pending marker. A
    version that is not finite arrives as [null] and is read as 0. *)
Theorem state_survives_json (s : MandyState) :
  (forall q, version s = Finite q ->
             normalizeMandyState (json_clone (state_value s))
             = with_pendingReason s None)
  /\ ((forall q, version s <> Finite q) ->
      version (normalizeMandyState (json_clone (state_value s))) = zero).
Proof.
  split.
  - intros q V. rewrite <- normalize_state_value, !normalize_fields.
    rewrite !get_prop_json_clone.
    destruct s as [v m mu d lb ub ua st pr]. cbn [version] in V. subst v.
    cbn. now destruct lb, ub, ua.
  - intros V. rewrite normalize_fields. cbn [version].
    rewrite get_prop_json_clone.
    destruct s as [v m mu d lb ub ua st pr]. cbn [version] in V. cbn.
    destruct v; try reflexivity. now destruct (V q).
Qed.

(** A locked, muted state at version 7. *)
Lemma state_survives_json_witness :
  normalizeMandyState
    (json_clone
       (state_value
          {| version := of_Z 7; mode := prompted; muted := true;
             directive := str "Track decisions"; lockedBy := Some (str "ann");
             updatedBy := Some (str "bob"); updatedAt := None;
             status := degraded; pendingReason := None |}))
  = {| version := of_Z 7; mode := prompted; muted := true;
       directive := str "Track decisions"; lockedBy := Some (str "ann");
       updatedBy := Some (str "bob"); updatedAt := None;
       status := degraded; pendingReason := None |}.
Proof.
  apply (state_survives_json
           {| version := of_Z 7; mode := prompted; muted := true;
              directive := str "Track decisions"; lockedBy := Some (str "ann");
              updatedBy := Some (str "bob"); updatedAt := None;
              status := degraded; pendingReason := None |}) with (7 # 1).
  reflexivity.
Defined.

(** X8. [normalizeMandyState] reads eight properties and nothing else: setting
    or changing any other property of the input, [pendingReason] among
    them, does not change the result. *)
Theorem normalize_ignores_other_fields (props : gmap string value)
    (k : string) (v : value) :
  k ∉ state_fields ->
  normalizeMandyState (VObject (<[k := v]> props))
  = normalizeMandyState (VObject props).
Proof.
  intros Hk. rewrite !normalize_fields. unfold get_prop.
  unfold state_fields in Hk.
  repeat (rewrite lookup_insert_ne;
          [|intros ->; apply Hk; repeat (try (left; reflexivity); right)]).
  reflexivity.
Qed.

(** A pending marker and a stray field on a broadcast are of no effect. *)
Lemma normalize_ignores_other_fields_witness :
  normalizeMandyState
    (VObject (<["pendingReason" := VString (str "mandy:mute")]>
                (list_to_map [("version", VNumber (of_Z 2))])))
  = normalizeMandyState
      (VObject (list_to_map [("version", VNumber (of_Z 2))])).
Proof.
  apply normalize_ignores_other_fields.
  unfold state_fields. intros H.
  repeat (apply elem_of_cons in H as [H|H]; [discriminate H|]).
  now apply elem_of_nil in H.
Defined.

(** ** Further properties: the panel *)

Lemma trimStart_head (s : jsstring) (c : N) (r : jsstring) :
  trimStart s = c :: r -> is_white_space c = false.
Proof.
  induction s as [|x s IH]; [discriminate|]. simpl.
  destruct (is_white_space x) eqn:W; [exact IH|]. now intros [= <- _].
Qed.

Lemma trimStart_fixed (c : N) (r : jsstring) :
  is_white_space c = false -> trimStart (c :: r) = c :: r.
Proof. intros W. simpl. now rewrite W. Qed.

Lemma trimStart_idem (s : jsstring) : trimStart (trimStart s) = trimStart s.
Proof.
  destruct (trimStart s) as [|c r] eqn:E; [reflexivity|].
  apply trimStart_fixed. now apply trimStart_head with s r.
Qed.

Lemma trimStart_suffix (s : jsstring) : exists p, s = p ++ trimStart s.
Proof.
  induction s as [|c s [p IH]]; [now exists []|]. simpl.
  destruct (is_white_space c).
  - exists (c :: p). simpl. now rewrite <- IH.
  - now exists [].
Qed.

(** Trimming twice is trimming once. *)
Lemma trim_idem (s : jsstring) : trim (trim s) = trim s.
Proof.
  unfold trim, trimEnd.
  destruct (trimStart s) as [|c r] eqn:T; [reflexivity|].
  pose proof (trimStart_head s c r T) as W.
  destruct (trimStart_suffix (rev (c :: r))) as [p Hp].
  set (u := trimStart (rev (c :: r))) in *.
  assert (Hu : trimStart u = u) by apply trimStart_idem.
  destruct u as [|d u'] eqn:U; [reflexivity|].
  assert (Hrev : c :: r = rev (d :: u') ++ rev p).
  { rewrite <- rev_app_distr, <- Hp. now rewrite rev_involutive. }
  assert (Hhead : exists w, rev (d :: u') = c :: w).
  { destruct (rev (d :: u')) as [|x w] eqn:R.
    - apply (f_equal (@rev N)) in R. rewrite rev_involutive in R.
      discriminate R.
    - simpl in Hrev. injection Hrev as -> _. now exists w. }
  destruct Hhead as [w Hw].
  rewrite Hw, (trimStart_fixed c w W), <- Hw, rev_involutive.
  now rewrite Hu.
Qed.

(** X9. On the Mandy tab the "Update directive" button is rendered exactly
    when saving would send a command for the draft; on the Transcript tab
    it is not rendered, whatever the draft. *)
Theorem update_button_iff_save_sends (activeTab : Render.Tab)
    (v : PanelView.View) :
  Render.update_rendered activeTab v = true
  <-> activeTab = Render.mandy
      /\ exists p,
           fst (MandyPanel.handleDirectiveSave (PanelView.props v)
                  (PanelView.directiveDraft v)) = Some p.
Proof.
  unfold Render.update_rendered, PanelView.update_shown,
    MandyPanel.handleDirectiveSave.
  destruct activeTab.
  - destruct (is_empty _), (str_eqb _ _); cbn; split;
      try discriminate; try (intros [_ [p H]]; discriminate H); eauto.
  - split; [discriminate|]. now intros [H _].
Qed.

(** X10. While Mandy is not connected, the only command the controls of the
    panel can send is a new directive. *)
Theorem disconnected_panel_only_saves_directive (v : PanelView.View)
    (c : MandyPanel.Control) (p : Payload.MandyControlPayload) :
  PanelView.isConnected (PanelView.props v) = false ->
  PanelView.operable v c = true ->
  MandyPanel.onSendControl (PanelView.props v) (PanelView.directiveDraft v) c
  = Some p ->
  c = MandyPanel.SaveDirective
  /\ Payload.action p = mandy_update_directive.
Proof.
  intros D O S.
  destruct c; cbn [PanelView.operable] in O;
    unfold PanelView.mode_disabled, PanelView.mute_disabled,
      PanelView.lock_disabled, PanelView.dismiss_shown in O;
    rewrite ?D in O; cbn in O; rewrite ?andb_false_r in O;
    try discriminate O.
  split; [reflexivity|].
  cbn [MandyPanel.onSendControl] in S.
  unfold MandyPanel.handleDirectiveSave in S.
  destruct (is_empty _ || str_eqb _ _); [discriminate S|].
  now injection S as <-.
Qed.

(** A draft typed while Mandy is still disconnected. *)
Lemma disconnected_panel_only_saves_directive_witness :
  MandyPanel.SaveDirective = MandyPanel.SaveDirective
  /\ Payload.action
       {| Payload.action := mandy_update_directive; Payload.mode := None;
          Payload.directive := Some (str "Track decisions");
          Payload.reason := None; Payload.requestedBy := Some (str "ann");
          Payload.version := Some zero |} = mandy_update_directive.
Proof.
  apply (disconnected_panel_only_saves_directive
           {| PanelView.props :=
                {| MandyPanel.state := DEFAULT_MANDY_STATE;
                   MandyPanel.localUserName := str "ann";
                   MandyPanel.isOwner := true |};
              PanelView.isInMeeting := true;
              PanelView.isStarting := false;
              PanelView.lastError := VNull;
              PanelView.directiveDraft := str "Track decisions" |});
    reflexivity.
Defined.

(** X11. While the controls are locked, by whomever, the panel sends no change
    of mode: the select is disabled for everyone, the holder of the lock
    included. *)
Theorem locked_panel_sends_no_mode (v : PanelView.View)
    (c : MandyPanel.Control) (p : Payload.MandyControlPayload) :
  truthy (nullable (lockedBy (MandyPanel.state (PanelView.props v)))) = true ->
  PanelView.operable v c = true ->
  MandyPanel.onSendControl (PanelView.props v) (PanelView.directiveDraft v) c
  = Some p ->
  Payload.action p <> mandy_set_mode.
Proof.
  intros L O S.
  destruct c; cbn [PanelView.operable MandyPanel.onSendControl] in *.
  - unfold MandyPanel.handleDirectiveSave in S.
    destruct (is_empty _ || str_eqb _ _); [discriminate S|].
    now injection S as <-.
  - unfold PanelView.mode_disabled in O. rewrite L, orb_true_r in O.
    discriminate O.
  - unfold MandyPanel.handleToggleMute in S. injection S as <-. cbn.
    now destruct (muted _).
  - unfold MandyPanel.handleLockToggle in S.
    destruct (negb (MandyPanel.isOwner _)); [discriminate S|].
    injection S as <-. cbn.
    now destruct (truthy _).
  - now injection S as <-.
Qed.

(** The lock holder's own panel, muting. *)
Lemma locked_panel_sends_no_mode_witness :
  Payload.action
    {| Payload.action := mandy_mute; Payload.mode := None;
       Payload.directive := None; Payload.reason := None;
       Payload.requestedBy := Some (str "ann");
       Payload.version := Some (of_Z 3) |} <> mandy_set_mode.
Proof.
  apply (locked_panel_sends_no_mode
           {| PanelView.props :=
                {| MandyPanel.state :=
                     normalizeMandyState
                       (object [("version", VNumber (of_Z 3));
                                ("status", VString (str "online"));
                                ("muted", VBool false);
                                ("lockedBy", VString (str "ann"))]);
                   MandyPanel.localUserName := str "ann";
                   MandyPanel.isOwner := true |};
              PanelView.isInMeeting := true;
              PanelView.isStarting := false;
              PanelView.lastError := VNull;
              PanelView.directiveDraft := [] |}
           MandyPanel.MuteButton); reflexivity.
Defined.

Lemma mode_name_inj (m m' : MandyMode) :
  str_eqb (mode_name m) (mode_name m') = false -> m <> m'.
Proof. intros E ->. now destruct m'. Qed.

(** X12. Every command the panel sends asks for something the state it shows
    does not have: another directive, another mode, the opposite of the
    mute flag, the opposite of the lock. The panel never repeats the
    state back as a command. *)
Theorem panel_commands_ask_for_change (props : MandyPanel.Props)
    (directiveDraft : jsstring) (c : MandyPanel.Control)
    (p : Payload.MandyControlPayload) :
  MandyPanel.onSendControl props directiveDraft c = Some p ->
  PanelView.asks_for_change (MandyPanel.state props) p.
Proof.
  intros S. unfold PanelView.asks_for_change.
  destruct c; cbn [MandyPanel.onSendControl] in S.
  - unfold MandyPanel.handleDirectiveSave in S.
    destruct (is_empty _); [discriminate S|].
    destruct (str_eqb _ _) eqn:E; [discriminate S|].
    cbn in S. injection S as <-. cbn.
    eexists. split; [reflexivity|].
    unfold str_eqb in E. now apply bool_decide_eq_false in E.
  - unfold MandyPanel.handleModeChange in S.
    destruct (str_eqb _ _) eqn:E; [discriminate S|]. injection S as <-. cbn.
    eexists. split; [reflexivity|]. now apply mode_name_inj.
  - unfold MandyPanel.handleToggleMute in S. injection S as <-. cbn.
    now destruct (muted _).
  - unfold MandyPanel.handleLockToggle in S.
    destruct (negb _); [discriminate S|]. injection S as <-. cbn.
    now destruct (truthy _).
  - now injection S as <-.
Qed.

(** Unmuting a muted Mandy. *)
Lemma panel_commands_ask_for_change_witness :
  PanelView.asks_for_change DEFAULT_MANDY_STATE
    {| Payload.action := mandy_unmute; Payload.mode := None;
       Payload.directive := None; Payload.reason := None;
       Payload.requestedBy := Some (str "ann");
       Payload.version := Some zero |}.
Proof.
  apply (panel_commands_ask_for_change
           {| MandyPanel.state := DEFAULT_MANDY_STATE;
              MandyPanel.localUserName := str "ann";
              MandyPanel.isOwner := false |} [] MandyPanel.MuteButton).
  reflexivity.
Defined.

(** X13. Every command of the panel names the local user as requester and
    carries the version of the state shown; locking and unlocking come
    from owners only, with a reason, and only a change of mode carries a
    mode. *)
Theorem panel_commands_carry_requester_and_version
    (props : MandyPanel.Props) (directiveDraft : jsstring)
    (c : MandyPanel.Control) (p : Payload.MandyControlPayload) :
  MandyPanel.onSendControl props directiveDraft c = Some p ->
  Payload.requestedBy p = Some (MandyPanel.localUserName props)
  /\ Payload.version p = Some (version (MandyPanel.state props))
  /\ (Payload.action p = mandy_lock_mode
      \/ Payload.action p = mandy_unlock_mode
      <-> Payload.reason p <> None)
  /\ (Payload.reason p <> None -> MandyPanel.isOwner props = true)
  /\ (Payload.action p = mandy_set_mode <-> Payload.mode p <> None).
Proof.
  intros S. destruct c; cbn [MandyPanel.onSendControl] in S.
  - unfold MandyPanel.handleDirectiveSave in S.
    destruct (is_empty _ || str_eqb _ _); [discriminate S|].
    cbn in S. injection S as <-. cbn.
    repeat split; try tauto; try discriminate; intros [|]; discriminate.
  - unfold MandyPanel.handleModeChange in S.
    destruct (str_eqb _ _); [discriminate S|]. injection S as <-. cbn.
    repeat split; try tauto; try discriminate; intros [|]; discriminate.
  - unfold MandyPanel.handleToggleMute in S. injection S as <-. cbn.
    repeat split; try tauto; try discriminate;
      destruct (muted _); try discriminate; intros [|]; discriminate.
  - unfold MandyPanel.handleLockToggle in S.
    destruct (negb (MandyPanel.isOwner props)) eqn:O; [discriminate S|].
    injection S as <-. cbn.
    apply negb_false_iff in O.
    repeat split; try tauto; try discriminate;
      destruct (truthy _); try discriminate; auto.
  - injection S as <-. cbn.
    repeat split; try tauto; try discriminate; intros [|]; discriminate.
Qed.

(** The owner locking the controls. *)
Lemma panel_commands_carry_requester_and_version_witness :
  Payload.requestedBy
    {| Payload.action := mandy_lock_mode; Payload.mode := None;
       Payload.directive := None;
       Payload.reason := Some (str "Owner lock enabled");
       Payload.requestedBy := Some (str "ann");
       Payload.version := Some zero |} = Some (str "ann").
Proof.
  apply (panel_commands_carry_requester_and_version
           {| MandyPanel.state := DEFAULT_MANDY_STATE;
              MandyPanel.localUserName := str "ann";
              MandyPanel.isOwner := true |} [] MandyPanel.LockButton).
  reflexivity.
Defined.

(** X14. After a save the draft is the directive sent. Saving again before the
    state has caught up sends the same command again; once the state
    shows the directive sent, saving sends nothing. *)
Theorem saved_directive_settles (props : MandyPanel.Props)
    (directiveDraft draft' : jsstring) (p : Payload.MandyControlPayload) :
  MandyPanel.handleDirectiveSave props directiveDraft = (Some p, draft') ->
  Payload.directive p = Some draft'
  /\ MandyPanel.handleDirectiveSave props draft' = (Some p, draft')
  /\ (forall props',
        directive (MandyPanel.state props') = draft' ->
        MandyPanel.handleDirectiveSave props' draft' = (None, draft')).
Proof.
  unfold MandyPanel.handleDirectiveSave.
  destruct (is_empty (trim directiveDraft) ||
            str_eqb (trim directiveDraft) (directive (MandyPanel.state props)))
    eqn:E; [discriminate|].
  intros [= <- <-]. cbn. rewrite !trim_idem, E.
  repeat split.
  intros props' ->. unfold str_eqb.
  rewrite bool_decide_eq_true_2 by reflexivity. now rewrite orb_true_r.
Qed.

(** A directive typed with a blank at the end. *)
Lemma saved_directive_settles_witness :
  Payload.directive
    {| Payload.action := mandy_update_directive; Payload.mode := None;
       Payload.directive := Some (str "Track decisions");
       Payload.reason := None; Payload.requestedBy := Some (str "ann");
       Payload.version := Some zero |} = Some (str "Track decisions").
Proof.
  apply (saved_directive_settles
           {| MandyPanel.state := DEFAULT_MANDY_STATE;
              MandyPanel.localUserName := str "ann";
              MandyPanel.isOwner := false |}
           (str "Track decisions ") (str "Track decisions")).
  reflexivity.
Defined.

(** ** Further properties: the relay *)

(** What a handler does, by the three tests it makes. *)
Lemma handler_decides (serviceUrl : option jsstring)
    (backend : Relay.Forwarded -> FetchResult) (ep : Relay.Endpoint)
    (req : Relay.NextApiRequest) :
  let go := str_eqb (Relay.method req) (Relay.accepted ep)
            && negb (Relay.address_missing ep req)
            && negb (Relay.unset serviceUrl) in
  (go = true
   /\ exists fwd,
        Relay.handler serviceUrl backend ep req
        = (Relay.respond (Relay.fallback ep) (backend fwd), [fwd]))
  \/ (go = false
      /\ snd (Relay.handler serviceUrl backend ep req) = []
      /\ exists code m,
           fst (Relay.handler serviceUrl backend ep req)
           = {| Relay.allow :=
                  if str_eqb (Relay.method req) (Relay.accepted ep)
                  then None else Some (Relay.accepted ep);
                Relay.res_status := code;
                Relay.res_json := object [("error", m)] |}
           /\ (code = 400 \/ code = 405 \/ code = 500)
           /\ (code = 405
               <-> str_eqb (Relay.method req) (Relay.accepted ep) = false)).
Proof.
  cbv zeta.
  destruct ep; cbn [Relay.handler Relay.accepted Relay.address_missing
                    Relay.fallback].
  - unfold Relay.start_handler.
    destruct (str_eqb _ _); cbn [negb andb].
    2:{ right. repeat split. eexists 405, _. repeat split; auto. }
    destruct (negb (truthy _) || negb (truthy _)); cbn [negb andb].
    { right. repeat split. eexists 400, _. repeat split; auto; discriminate. }
    destruct (Relay.unset serviceUrl); cbn [negb].
    { right. repeat split. eexists 500, _. repeat split; auto; discriminate. }
    left. split; [reflexivity|]. eexists. reflexivity.
  - unfold Relay.control_handler.
    destruct (str_eqb _ _); cbn [negb andb].
    2:{ right. repeat split. eexists 405, _. repeat split; auto. }
    destruct (Relay.unset serviceUrl); cbn [negb]; rewrite ?andb_false_r.
    { right. repeat split. eexists 500, _. repeat split; auto; discriminate. }
    destruct (negb (truthy _) || negb (truthy _)); cbn [negb andb].
    { right. repeat split. eexists 400, _. repeat split; auto; discriminate. }
    left. split; [reflexivity|]. eexists. reflexivity.
  - unfold Relay.state_handler.
    destruct (str_eqb _ _); cbn [negb andb].
    2:{ right. repeat split. eexists 405, _. repeat split; auto. }
    destruct (Relay.unset serviceUrl); cbn [negb]; rewrite ?andb_false_r.
    { right. repeat split. eexists 500, _. repeat split; auto; discriminate. }
    destruct (get_prop (Relay.query req) "domain");
      try (right; repeat split; eexists 400, _; repeat split; auto;
           discriminate).
    destruct (get_prop (Relay.query req) "room");
      try (right; repeat split; eexists 400, _; repeat split; auto;
           discriminate).
    left. split; [reflexivity|]. eexists. reflexivity.
Qed.

(** X15. The state handler sends on the address of the query as it came:
    it forwards exactly when the method is GET, the backend address is set
    and the query's [domain] and [room] are both strings, empty strings
    included; the request it sends is a GET to the backend's [/api/state]
    with those two strings as parameters and no body. A parameter that is
    absent or given more than once is refused with 400. *)
Theorem state_forwards_query (serviceUrl : option jsstring)
    (backend : Relay.Forwarded -> FetchResult) (req : Relay.NextApiRequest) :
  let sent := snd (Relay.state_handler serviceUrl backend req) in
  (forall domain room,
     Relay.method req = str "GET" ->
     Relay.unset serviceUrl = false ->
     get_prop (Relay.query req) "domain" = VString domain ->
     get_prop (Relay.query req) "room" = VString room ->
     sent
     = [{| Relay.fwd_url :=
             strip_trailing_slash (default [] serviceUrl) ++ str "/api/state";
           Relay.fwd_method := str "GET";
           Relay.fwd_query := [("domain", domain); ("room", room)];
           Relay.fwd_body := None |}])
  /\ (sent <> [] ->
      Relay.method req = str "GET" /\ Relay.unset serviceUrl = false
      /\ exists domain room,
           get_prop (Relay.query req) "domain" = VString domain
           /\ get_prop (Relay.query req) "room" = VString room)
  /\ (Relay.method req = str "GET" ->
      Relay.unset serviceUrl = false ->
      (forall domain,
         get_prop (Relay.query req) "domain" <> VString domain)
      \/ (forall room, get_prop (Relay.query req) "room" <> VString room) ->
      Relay.res_status (fst (Relay.state_handler serviceUrl backend req))
      = 400).
Proof.
  cbv zeta. unfold Relay.state_handler, str_eqb. split; [|split].
  - intros domain room -> U -> ->.
    rewrite bool_decide_eq_true_2 by reflexivity. cbn [negb]. now rewrite U.
  - destruct (decide (Relay.method req = str "GET")) as [M|M].
    + rewrite bool_decide_eq_true_2 by exact M. cbn [negb].
      destruct (Relay.unset serviceUrl); [now intros H|].
      destruct (get_prop (Relay.query req) "domain"); try (now intros H).
      destruct (get_prop (Relay.query req) "room"); try (now intros H).
      intros _. repeat split; auto. now eexists _, _.
    + rewrite bool_decide_eq_false_2 by exact M. now intros H.
  - intros -> U H. rewrite bool_decide_eq_true_2 by reflexivity.
    cbn [negb]. rewrite U.
    destruct (get_prop (Relay.query req) "domain") as [| | | |d| |];
      try reflexivity.
    destruct (get_prop (Relay.query req) "room") as [| | | |r| |];
      try reflexivity.
    destruct H as [H|H]; [now destruct (H d)|now destruct (H r)].
Qed.

(** The query [?domain=&room=]: two empty strings are sent on. *)
Lemma state_forwards_query_witness :
  snd (Relay.state_handler (Some (str "http://localhost:8000"))
         (fun _ => Rejects VUndefined)
         {| Relay.method := str "GET"; Relay.body := VUndefined;
            Relay.query := object [("domain", VString []);
                                   ("room", VString [])] |})
  = [{| Relay.fwd_url := str "http://localhost:8000/api/state";
        Relay.fwd_method := str "GET";
        Relay.fwd_query := [("domain", []); ("room", [])];
        Relay.fwd_body := None |}].
Proof.
  apply (state_forwards_query (Some (str "http://localhost:8000"))
           (fun _ => Rejects VUndefined)
           {| Relay.method := str "GET"; Relay.body := VUndefined;
              Relay.query := object [("domain", VString []);
                                     ("room", VString [])] |});
    reflexivity.
Defined.

(** X16. The answer of a handler is a success (a status from 200 to 299)
    exactly when it sent the request on and the backend answered with a
    success and a JSON body, and it is then 200 with that body: such an
    answer of the backend always gives that answer of the handler. Every
    other answer is [{ error: ... }] with a status that is not a success;
    a refused method is answered 405 with an [Allow] header naming the
    endpoint's method, and no other answer has that header. *)
Theorem relay_answer_shape (serviceUrl : option jsstring)
    (backend : Relay.Forwarded -> FetchResult) (ep : Relay.Endpoint)
    (req : Relay.NextApiRequest) :
  let res := fst (Relay.handler serviceUrl backend ep req) in
  let sent := snd (Relay.handler serviceUrl backend ep req) in
  let succeeded :=
    ok {| JS.status := Relay.res_status res;
          json := Parsed (Relay.res_json res) |} in
  (forall fwd response payload,
     sent = [fwd] -> backend fwd = Resolves response ->
     ok response = true -> json response = Parsed payload ->
     res = {| Relay.allow := None; Relay.res_status := 200;
              Relay.res_json := payload |})
  /\ (succeeded = true
      <-> exists fwd response payload,
            sent = [fwd] /\ backend fwd = Resolves response
            /\ ok response = true /\ json response = Parsed payload)
  /\ (succeeded = false ->
      exists m,
        Relay.res_json res = object [("error", m)]
        /\ (Relay.method req <> Relay.accepted ep ->
            Relay.res_status res = 405
            /\ Relay.allow res = Some (Relay.accepted ep))
        /\ (Relay.method req = Relay.accepted ep -> Relay.allow res = None)).
Proof.
  cbv zeta.
  destruct (handler_decides serviceUrl backend ep req)
    as [[G (fwd & E)]|(G & S & code & m & E & C & C405)].
  - apply andb_true_iff in G as [G _]. apply andb_true_iff in G as [M _].
    unfold str_eqb in M. apply bool_decide_eq_true in M.
    rewrite E. cbn [fst snd]. unfold Relay.respond.
    split; [|split].
    + intros fwd' response payload [= <-] B O J. now rewrite B, J, O.
    + destruct (backend fwd) as [err|response] eqn:B.
      * split; [discriminate|]. intros (f & r & p & [= <-] & B' & _).
        congruence.
      * destruct (json response) as [payload|err] eqn:J.
        -- destruct (ok response) eqn:O; cbn [negb].
           ++ split; [|reflexivity]. intros _.
              now exists fwd, response, payload.
           ++ split.
              ** intros H. change (ok response = true) in H. congruence.
              ** intros (f & r & p & [= <-] & B' & O' & _). congruence.
        -- split; [discriminate|].
           intros (f & r & p & [= <-] & B' & _ & J'). congruence.
    + destruct (backend fwd) as [err|response] eqn:B.
      * intros _. eexists. cbn. repeat split; try discriminate; contradiction.
      * destruct (json response) as [payload|err] eqn:J.
        -- destruct (ok response) eqn:O; cbn [negb].
           ++ discriminate.
           ++ intros _. eexists. cbn. repeat split; contradiction.
        -- intros _. eexists. cbn.
           repeat split; try discriminate; contradiction.
  - rewrite E. rewrite S. cbn [fst]. split; [|split].
    + discriminate.
    + split.
      * cbn. destruct C as [->|[->| ->]]; discriminate.
      * intros (f & r & p & H & _). discriminate H.
    + intros _. exists m. cbn. unfold str_eqb in *. repeat split.
      * apply C405. now apply bool_decide_eq_false_2.
      * now rewrite bool_decide_eq_false_2.
      * intros M. now rewrite bool_decide_eq_true_2.
Qed.

(** The backend answers a state request with the state. *)
Lemma relay_answer_shape_witness :
  fst (Relay.handler (Some (str "http://localhost:8000"))
         (fun _ =>
            Resolves
              {| JS.status := 201;
                 json := Parsed (object [("state", object [])]) |})
         Relay.State
         {| Relay.method := str "GET"; Relay.body := VUndefined;
            Relay.query := object [("domain", VString (str "demo"));
                                   ("room", VString (str "room-1"))] |})
  = {| Relay.allow := None; Relay.res_status := 200;
       Relay.res_json := object [("state", object [])] |}.
Proof.
  eapply (relay_answer_shape (Some (str "http://localhost:8000"))
            (fun _ =>
               Resolves
                 {| JS.status := 201;
                    json := Parsed (object [("state", object [])]) |})
            Relay.State
            {| Relay.method := str "GET"; Relay.body := VUndefined;
               Relay.query := object [("domain", VString (str "demo"));
                                      ("room", VString (str "room-1"))] |});
    reflexivity.
Defined.

Lemma truthy_lookup (props : gmap string value) (k : string) :
  truthy (get_prop (VObject props) k) = true ->
  props !! k = Some (get_prop (VObject props) k).
Proof. unfold get_prop. now destruct (props !! k). Qed.

(** X17. The control handler sends the body on as it came: the object the
    backend receives has the properties of the request's body, all of
    them and no other, at the backend's [/api/control]. *)
Theorem control_forwards_body_verbatim (serviceUrl : option jsstring)
    (backend : Relay.Forwarded -> FetchResult) (req : Relay.NextApiRequest)
    (fwd : Relay.Forwarded) :
  snd (Relay.control_handler serviceUrl backend req) = [fwd] ->
  exists props,
    Relay.body req = VObject props
    /\ Relay.fwd_body fwd = Some (VObject props)
    /\ Relay.fwd_url fwd
       = strip_trailing_slash (default [] serviceUrl) ++ str "/api/control"
    /\ Relay.fwd_method fwd = str "POST".
Proof.
  unfold Relay.control_handler.
  destruct (negb (str_eqb _ _)); [discriminate|].
  destruct (Relay.unset serviceUrl); [discriminate|].
  destruct (negb (truthy _) || negb (truthy _)) eqn:M; [discriminate|].
  apply orb_false_iff in M as [D R]. apply negb_false_iff in D, R.
  destruct (Relay.body req) as [| | | | | |props] eqn:B;
    try discriminate D.
  cbn [nullish] in *. intros [= <-]. exists props.
  cbn [Relay.fwd_body Relay.fwd_url Relay.fwd_method Relay.rest_of].
  repeat split.
  apply truthy_lookup in D, R.
  rewrite insert_delete_eq.
  rewrite insert_insert_ne by discriminate.
  rewrite insert_delete_eq.
  rewrite (insert_id props "domain") by exact D.
  now rewrite insert_id by exact R.
Qed.

(** A mute with a field the relay knows nothing of. *)
Lemma control_forwards_body_verbatim_witness :
  exists props,
    object [("domain", VString (str "demo")); ("room", VString (str "room-1"));
            ("action", VString (str "mandy:mute"));
            ("traceId", VNumber (of_Z 17))] = VObject props
    /\ Some (object [("domain", VString (str "demo"));
                     ("room", VString (str "room-1"));
                     ("action", VString (str "mandy:mute"));
                     ("traceId", VNumber (of_Z 17))]) = Some (VObject props)
    /\ str "http://localhost:8000/api/control"
       = strip_trailing_slash (default [] (Some (str "http://localhost:8000")))
         ++ str "/api/control"
    /\ str "POST" = str "POST".
Proof.
  apply (control_forwards_body_verbatim (Some (str "http://localhost:8000"))
           (fun _ => Rejects VUndefined)
           {| Relay.method := str "POST";
              Relay.body :=
                object [("domain", VString (str "demo"));
                        ("room", VString (str "room-1"));
                        ("action", VString (str "mandy:mute"));
                        ("traceId", VNumber (of_Z 17))];
              Relay.query := VUndefined |}
           {| Relay.fwd_url := str "http://localhost:8000/api/control";
              Relay.fwd_method := str "POST";
              Relay.fwd_query := [];
              Relay.fwd_body :=
                Some (object [("domain", VString (str "demo"));
                              ("room", VString (str "room-1"));
                              ("action", VString (str "mandy:mute"));
                              ("traceId", VNumber (of_Z 17))]) |}).
  reflexivity.
Defined.

(** X18. The start handler sends on four properties of the body, [domain],
    [room], [token] and [directive], and drops every other one. *)
Theorem start_forwards_four_fields (serviceUrl : option jsstring)
    (backend : Relay.Forwarded -> FetchResult) (req : Relay.NextApiRequest)
    (fwd : Relay.Forwarded) :
  snd (Relay.start_handler serviceUrl backend req) = [fwd] ->
  exists b,
    Relay.fwd_body fwd = Some b
    /\ (forall k,
          get_prop b k
          = if bool_decide (k ∈ ["domain"; "room"; "token"; "directive"])
            then get_prop (Relay.body req) k
            else VUndefined)
    /\ Relay.fwd_url fwd
       = strip_trailing_slash (default [] serviceUrl) ++ str "/api/start".
Proof.
  unfold Relay.start_handler.
  destruct (negb (str_eqb _ _)); [discriminate|].
  destruct (negb (truthy _) || negb (truthy _)) eqn:M; [discriminate|].
  destruct (Relay.unset serviceUrl); [discriminate|].
  intros [= <-]. eexists. split; [reflexivity|]. split; [|reflexivity].
  apply orb_false_iff in M as [D _]. apply negb_false_iff in D.
  assert (N : nullish (Relay.body req) (object []) = Relay.body req)
    by (destruct (Relay.body req); try reflexivity; discriminate D).
  rewrite N. intros k.
  destruct (decide (k = "domain")) as [->|K1]; [reflexivity|].
  destruct (decide (k = "room")) as [->|K2]; [reflexivity|].
  destruct (decide (k = "token")) as [->|K3]; [reflexivity|].
  destruct (decide (k = "directive")) as [->|K4]; [reflexivity|].
  rewrite bool_decide_eq_false_2.
  - unfold object, get_prop. cbn [list_to_map foldr uncurry fst snd].
    now rewrite !lookup_insert_ne, lookup_empty by congruence.
  - intros H. repeat (apply elem_of_cons in H as [H|H]; [congruence|]).
    now apply elem_of_nil in H.
Qed.

(** An invitation with a stray [action]: it does not reach the backend. *)
Lemma start_forwards_four_fields_witness :
  exists b,
    Some (object [("domain", VString (str "demo"));
                  ("room", VString (str "room-1"));
                  ("token", VNull); ("directive", VString [])]) = Some b
    /\ get_prop b "action" = VUndefined.
Proof.
  destruct (start_forwards_four_fields (Some (str "http://localhost:8000"))
              (fun _ => Rejects VUndefined)
              {| Relay.method := str "POST";
                 Relay.body :=
                   object [("domain", VString (str "demo"));
                           ("room", VString (str "room-1"));
                           ("token", VNull); ("directive", VString []);
                           ("action", VString (str "mandy:mute"))];
                 Relay.query := VUndefined |}
              {| Relay.fwd_url := str "http://localhost:8000/api/start";
                 Relay.fwd_method := str "POST";
                 Relay.fwd_query := [];
                 Relay.fwd_body :=
                   Some (object [("domain", VString (str "demo"));
                                 ("room", VString (str "room-1"));
                                 ("token", VNull);
                                 ("directive", VString [])]) |})
    as (b & B & F & _).
  - reflexivity.
  - exists b. split; [exact B|]. now rewrite F.
Defined.

Lemma strip_added_slash (u : jsstring) :
  strip_trailing_slash (u ++ str "/") = u.
Proof.
  unfold strip_trailing_slash. change (str "/") with [47%N].
  rewrite rev_app_distr. cbn. apply rev_involutive.
Qed.

Lemma strip_without_slash (u : jsstring) :
  ends_with_slash u = false -> strip_trailing_slash u = u.
Proof.
  unfold ends_with_slash, strip_trailing_slash.
  destruct (rev u) as [|c r]; [reflexivity|].
  destruct c as [|p]; [reflexivity|].
  do 6 (destruct p as [p|p|]; try reflexivity). discriminate.
Qed.

(** X19. One slash at the end of the backend address makes no difference: with
    or without it the relay behaves the same and calls the same URLs. *)
Theorem relay_trailing_slash (u : jsstring)
    (backend : Relay.Forwarded -> FetchResult) (ep : Relay.Endpoint)
    (req : Relay.NextApiRequest) :
  u <> [] ->
  ends_with_slash u = false ->
  Relay.handler (Some (u ++ str "/")) backend ep req
  = Relay.handler (Some u) backend ep req.
Proof.
  intros Hne Hs.
  assert (U1 : Relay.unset (Some (u ++ str "/")) = false)
    by (destruct u; [contradiction|reflexivity]).
  assert (U2 : Relay.unset (Some u) = false)
    by (destruct u; [contradiction|reflexivity]).
  assert (B : Relay.base_url (Some (u ++ str "/")) = Relay.base_url (Some u)).
  { unfold Relay.base_url.
    change (default [] (Some (u ++ str "/"))) with (u ++ str "/").
    change (default [] (Some u)) with u.
    now rewrite strip_added_slash, strip_without_slash. }
  destruct ep; cbn [Relay.handler];
    unfold Relay.start_handler, Relay.control_handler, Relay.state_handler;
    now rewrite U1, U2, B.
Qed.

(** The address as the deployment notes give it, and with a slash. *)
Lemma relay_trailing_slash_witness :
  Relay.handler (Some (str "http://localhost:8000" ++ str "/"))
    (fun _ => Rejects VUndefined) Relay.Start
    {| Relay.method := str "POST";
       Relay.body := object [("domain", VString (str "demo"));
                             ("room", VString (str "room-1"))];
       Relay.query := VUndefined |}
  = Relay.handler (Some (str "http://localhost:8000"))
      (fun _ => Rejects VUndefined) Relay.Start
      {| Relay.method := str "POST";
         Relay.body := object [("domain", VString (str "demo"));
                               ("room", VString (str "room-1"))];
         Relay.query := VUndefined |}.
Proof.
  apply relay_trailing_slash; [discriminate|reflexivity].
Defined.

(** X20. A backend that cannot be reached, or whose answer is not JSON, gives
    the answer 500 with the message of the error, or with "Unexpected
    error reaching Mandy service." when the error has none. *)
Theorem relay_fetch_failure (serviceUrl : option jsstring)
    (backend : Relay.Forwarded -> FetchResult) (ep : Relay.Endpoint)
    (req : Relay.NextApiRequest) (fwd : Relay.Forwarded) (err : value) :
  snd (Relay.handler serviceUrl backend ep req) = [fwd] ->
  backend fwd = Rejects err
  \/ (exists response,
        backend fwd = Resolves response
        /\ json response = ParseRejected err) ->
  fst (Relay.handler serviceUrl backend ep req)
  = Relay.error_response 500
      (if truthy (get_prop err "message") then get_prop err "message"
       else VString (str "Unexpected error reaching Mandy service.")).
Proof.
  intros S F.
  destruct (handler_decides serviceUrl backend ep req)
    as [[_ (fwd' & E)]|(_ & S' & _)]; [|congruence].
  rewrite E in *. cbn [fst snd] in *. injection S as ->.
  unfold Relay.respond.
  destruct F as [->|(response & -> & ->)]; reflexivity.
Qed.

(** The backend is down: the connection is refused. *)
Lemma relay_fetch_failure_witness :
  fst (Relay.handler (Some (str "http://localhost:8000"))
         (fun _ => Rejects (object [("message", VString (str "fetch failed"))]))
         Relay.State
         {| Relay.method := str "GET"; Relay.body := VUndefined;
            Relay.query := object [("domain", VString (str "demo"));
                                   ("room", VString (str "room-1"))] |})
  = Relay.error_response 500 (VString (str "fetch failed")).
Proof.
  eapply (relay_fetch_failure (Some (str "http://localhost:8000"))
            (fun _ => Rejects (object [("message", VString (str "fetch failed"))]))
            Relay.State
            {| Relay.method := str "GET"; Relay.body := VUndefined;
               Relay.query := object [("domain", VString (str "demo"));
                                      ("room", VString (str "room-1"))] |}
            _ (object [("message", VString (str "fetch failed"))])).
  - reflexivity.
  - left. reflexivity.
Defined.

(** ** Further properties: creating a room *)

Section CreateRoomFacts.

Variable TypeError : value -> string -> value.
Variables apiKey domain : option jsstring.
Variable suffix : jsstring.
Variable daily : CreateRoom.DailyRequest -> FetchResult.

Local Abbreviation handler :=
  (CreateRoom.handler TypeError apiKey domain suffix daily).
Local Abbreviation try_block :=
  (CreateRoom.try_block TypeError apiKey suffix daily).
Local Abbreviation create_request := (CreateRoom.create_request apiKey suffix).
Local Abbreviation token_request := (CreateRoom.token_request apiKey suffix).

Lemma create_room_try (method : jsstring) :
  method = str "POST" ->
  Relay.unset apiKey = false -> Relay.unset domain = false ->
  snd (handler method) = snd try_block
  /\ (forall res, fst try_block = CreateRoom.Returned res ->
                  fst (handler method) = Some res)
  /\ (forall err, fst try_block = CreateRoom.Threw err ->
                  forall res, fst (handler method) = Some res ->
                              Relay.res_status res = 500).
Proof.
  intros -> A D. unfold CreateRoom.handler.
  change (negb (str_eqb (str "POST") (str "POST"))) with false.
  rewrite A, D. cbv iota.
  destruct try_block as [[err|res] calls]; cbn [fst snd];
    repeat split; try discriminate.
  - intros e _ res. destruct (CreateRoom.read TypeError err "message");
      [discriminate|]. now intros [= <-].
  - now intros res' [= ->].
Qed.

(** Which calls the [try] block makes. *)
Lemma try_block_calls :
  snd try_block
  = match daily create_request with
    | Resolves response =>
        match json response with
        | Parsed _ =>
            if ok response then [create_request; token_request]
            else [create_request]
        | ParseRejected _ => [create_request]
        end
    | Rejects _ => [create_request]
    end.
Proof.
  unfold CreateRoom.try_block.
  destruct (daily create_request) as [err|response]; [reflexivity|].
  unfold CreateRoom.await_json.
  destruct (ok response), (json response); reflexivity.
Qed.

(** The guards of the handler, in their order. *)
Lemma handler_guarded (method : jsstring) :
  (method <> str "POST" ->
   handler method
   = (Some (Relay.error_response 405 (VString (str "Method not allowed"))),
      []))
  /\ (method = str "POST" ->
      Relay.unset apiKey = true \/ Relay.unset domain = true ->
      snd (handler method) = []
      /\ exists m, fst (handler method) = Some (Relay.error_response 500 m)).
Proof.
  unfold CreateRoom.handler, str_eqb. split.
  - intros M. now rewrite bool_decide_eq_false_2.
  - intros -> U. rewrite bool_decide_eq_true_2 by reflexivity. cbn [negb].
    destruct (Relay.unset apiKey); [split; [reflexivity|eauto]|].
    destruct U as [U|U]; [discriminate U|]. rewrite U.
    split; [reflexivity|eauto].
Qed.

(** X21. Without the method POST, the API key and the domain, the handler
    calls nothing: it answers [{ error: ... }] with 405 for another
    method and with 500 when either variable is not set, [DAILY_DOMAIN]
    included although no call uses it. *)
Theorem create_room_guards (method : jsstring) :
  method <> str "POST"
  \/ Relay.unset apiKey = true \/ Relay.unset domain = true ->
  snd (handler method) = []
  /\ exists code m,
       fst (handler method) = Some (Relay.error_response code m)
       /\ (code = 405 \/ code = 500)
       /\ (code = 405 <-> method <> str "POST").
Proof.
  intros G. destruct (handler_guarded method) as [G1 G2].
  destruct (decide (method = str "POST")) as [M|M].
  - destruct G as [G|G]; [contradiction|].
    destruct (G2 M G) as (S & m & E).
    split; [exact S|]. exists 500, m. rewrite E.
    split; [reflexivity|]. split; [now right|].
    split; [discriminate|contradiction].
  - rewrite (G1 M). split; [reflexivity|]. eexists 405, _.
    split; [reflexivity|]. split; [now left|]. now split.
Qed.

(** X22. The handler calls Daily once or twice: first to create the room, then,
    only if that was answered with a success and a JSON body, to mint the
    token. *)
Theorem create_room_calls (method : jsstring) :
  method = str "POST" ->
  Relay.unset apiKey = false -> Relay.unset domain = false ->
  (snd (handler method) = [create_request]
   \/ snd (handler method) = [create_request; token_request])
  /\ (snd (handler method) = [create_request; token_request]
      <-> exists response data,
            daily create_request = Resolves response
            /\ ok response = true /\ json response = Parsed data).
Proof.
  intros M A D.
  destruct (create_room_try method M A D) as (-> & _).
  rewrite try_block_calls.
  destruct (daily create_request) as [err|response].
  { split; [now left|]. split; [discriminate|].
    intros (r & d & E & _). discriminate E. }
  destruct (json response) as [data|err] eqn:J.
  - destruct (ok response) eqn:O.
    + split; [now right|]. split; [|reflexivity].
      intros _. now exists response, data.
    + split; [now left|]. split; [discriminate|].
      intros (r & d & [= <-] & O' & _). congruence.
  - split; [now left|]. split; [discriminate|].
    intros (r & d & [= <-] & _ & J'). congruence.
Qed.


Lemma read_returned (v : value) (k : string) (x : value) :
  CreateRoom.read TypeError v k = CreateRoom.Returned x ->
  x = get_prop v k /\ v <> VNull /\ v <> VUndefined.
Proof. destruct v; cbn; intros [= <-]; repeat split; discriminate. Qed.

(** What [mint_token] can return: 200 with the room's [url] and [name]. *)
Lemma mint_token_returned (data : value) (res : Relay.NextApiResponse) :
  CreateRoom.mint_token TypeError apiKey suffix daily data
  = CreateRoom.Returned res ->
  Relay.res_status res = 200
  /\ get_prop (Relay.res_json res) "url" = get_prop data "url"
  /\ get_prop (Relay.res_json res) "name" = get_prop data "name".
Proof.
  unfold CreateRoom.mint_token, CreateRoom.await_fetch, CreateRoom.await_json.
  destruct (daily token_request) as [err|tokenResponse]; [discriminate|].
  cbn [CreateRoom.bind].
  destruct (negb (ok tokenResponse));
    (destruct (json tokenResponse) as [t|err]; [|discriminate]);
    cbn [CreateRoom.bind];
    destruct (CreateRoom.read TypeError data "url") as [e|url] eqn:U;
    try discriminate; cbn [CreateRoom.bind];
    destruct (CreateRoom.read TypeError data "name") as [e|name] eqn:Nm;
    try discriminate; cbn [CreateRoom.bind];
    apply read_returned in U as (-> & _), Nm as (-> & _).
  - intros [= <-]. repeat split.
  - destruct (CreateRoom.read TypeError t "token"); [discriminate|].
    cbn [CreateRoom.bind]. intros [= <-]. repeat split.
Qed.

(** X23. The answer 200 means the room exists: it is given only after Daily
    answered the creation with a success and a JSON body, after the token
    call was made, and its [url] and [name] are the ones Daily returned,
    not the name the handler asked for. *)
Theorem create_room_success (method : jsstring)
    (res : Relay.NextApiResponse) :
  fst (handler method) = Some res ->
  Relay.res_status res = 200 ->
  exists response data,
    daily create_request = Resolves response
    /\ ok response = true /\ json response = Parsed data
    /\ snd (handler method) = [create_request; token_request]
    /\ get_prop (Relay.res_json res) "url" = get_prop data "url"
    /\ get_prop (Relay.res_json res) "name" = get_prop data "name".
Proof.
  intros F S.
  destruct (decide (method = str "POST")) as [M|M].
  2:{ destruct (handler_guarded method) as [G _].
      rewrite (G M) in F. injection F as <-. discriminate S. }
  destruct (Relay.unset apiKey) eqn:A.
  { destruct (handler_guarded method) as [_ G].
    destruct (G M (or_introl A)) as (_ & m & E).
    rewrite E in F. injection F as <-. discriminate S. }
  destruct (Relay.unset domain) eqn:D.
  { destruct (handler_guarded method) as [_ G].
    destruct (G M (or_intror D)) as (_ & m & E).
    rewrite E in F. injection F as <-. discriminate S. }
  destruct (create_room_try method M A D) as (C & R & T).
  rewrite C, try_block_calls.
  destruct (fst try_block) as [err|res'] eqn:B.
  { rewrite (T err eq_refl res F) in S. discriminate S. }
  rewrite (R res' eq_refl) in F. injection F as ->.
  unfold CreateRoom.try_block in B.
  destruct (daily create_request) as [err|response] eqn:Dc;
    [discriminate B|].
  unfold CreateRoom.await_json in B.
  destruct (ok response) eqn:O; cbn [negb] in B.
  - destruct (json response) as [data|err] eqn:J; [|discriminate B].
    cbn [fst] in B. exists response, data.
    destruct (mint_token_returned data res B) as (_ & U & N).
    repeat split; auto.
  - cbn [fst] in B.
    destruct (json response) as [errorData|err] eqn:J; [|discriminate B].
    cbn [CreateRoom.bind] in B.
    destruct (CreateRoom.read TypeError errorData "error");
      [discriminate B|].
    cbn [CreateRoom.bind] in B. injection B as <-.
    cbn in S. unfold ok in O. rewrite S in O. discriminate O.
Qed.

(** X24. When the room was created but the token was refused, the handler still
    answers 200 with the room, without a token; when the token call could
    not be made at all, the answer is 500 although the room exists. *)
Theorem create_room_token_failure (method : jsstring)
    (response : Response) (data : value) :
  method = str "POST" ->
  Relay.unset apiKey = false -> Relay.unset domain = false ->
  daily create_request = Resolves response ->
  ok response = true -> json response = Parsed data ->
  data <> VNull -> data <> VUndefined ->
  (forall tokenResponse errorData,
     daily token_request = Resolves tokenResponse ->
     ok tokenResponse = false -> json tokenResponse = Parsed errorData ->
     fst (handler method)
     = Some {| Relay.allow := None; Relay.res_status := 200;
               Relay.res_json :=
                 object [("url", get_prop data "url");
                         ("name", get_prop data "name")] |})
  /\ (forall err,
        daily token_request = Rejects err ->
        err <> VNull -> err <> VUndefined ->
        fst (handler method)
        = Some (Relay.error_response 500
                  (or_else (get_prop err "message")
                     (VString
                        (str "An error occurred while creating the room"))))).
Proof.
  intros -> A D C O J N1 N2.
  assert (Rd : forall k, CreateRoom.read TypeError data k
                         = CreateRoom.Returned (get_prop data k))
    by (intros k; destruct data; try reflexivity; contradiction).
  unfold CreateRoom.handler.
  change (negb (str_eqb (str "POST") (str "POST"))) with false.
  rewrite A, D. cbv iota. unfold CreateRoom.try_block.
  rewrite C, O. cbn [negb].
  unfold CreateRoom.mint_token, CreateRoom.await_fetch, CreateRoom.await_json.
  rewrite J. split.
  - intros tokenResponse errorData T OT JT. rewrite T. cbn [CreateRoom.bind].
    rewrite OT. cbn [negb]. rewrite JT.
    cbn [CreateRoom.bind]. rewrite !Rd. reflexivity.
  - intros err T E1 E2. rewrite T. cbn [CreateRoom.bind fst].
    destruct err; try reflexivity; contradiction.
Qed.

End CreateRoomFacts.

(** No API key on the server. *)
Lemma create_room_guards_witness :
  snd (CreateRoom.handler (fun _ _ => VUndefined) None (Some (str "demo"))
         (str "k3x9q0a") (fun _ => Rejects VUndefined) (str "POST")) = [].
Proof.
  apply (create_room_guards (fun _ _ => VUndefined) None (Some (str "demo"))
           (str "k3x9q0a") (fun _ => Rejects VUndefined) (str "POST")).
  right. left. reflexivity.
Defined.

(** Daily refuses the room: one call only. *)
Lemma create_room_calls_witness :
  snd (CreateRoom.handler (fun _ _ => VUndefined) (Some (str "key"))
         (Some (str "demo")) (str "k3x9q0a")
         (fun _ =>
            Resolves {| JS.status := 400;
                        json := Parsed (object [("error", VString (str "invalid"))]) |})
         (str "POST"))
  = [CreateRoom.create_request (Some (str "key")) (str "k3x9q0a")]
  \/ snd (CreateRoom.handler (fun _ _ => VUndefined) (Some (str "key"))
            (Some (str "demo")) (str "k3x9q0a")
            (fun _ =>
               Resolves {| JS.status := 400;
                           json := Parsed (object [("error", VString (str "invalid"))]) |})
            (str "POST"))
     = [CreateRoom.create_request (Some (str "key")) (str "k3x9q0a");
        CreateRoom.token_request (Some (str "key")) (str "k3x9q0a")].
Proof.
  apply (create_room_calls (fun _ _ => VUndefined) (Some (str "key"))
           (Some (str "demo")) (str "k3x9q0a")
           (fun _ =>
              Resolves {| JS.status := 400;
                          json := Parsed (object [("error", VString (str "invalid"))]) |})
           (str "POST")); reflexivity.
Defined.

(** Daily as it answers when all goes well. *)
Lemma create_room_success_witness :
  exists response data,
    (fun r : CreateRoom.DailyRequest =>
       Resolves
         {| JS.status := 200;
            json :=
              Parsed
                (object [("url", VString (str "https://demo.daily.co/room-k3x9q0a"));
                         ("name", VString (str "room-k3x9q0a"));
                         ("token", VString (str "tok"))]) |})
      (CreateRoom.create_request (Some (str "key")) (str "k3x9q0a"))
    = Resolves response
    /\ ok response = true /\ json response = Parsed data.
Proof.
  destruct (create_room_success (fun _ _ => VUndefined) (Some (str "key"))
              (Some (str "demo")) (str "k3x9q0a")
              (fun r : CreateRoom.DailyRequest =>
                 Resolves
                   {| JS.status := 200;
                      json :=
                        Parsed
                          (object [("url", VString (str "https://demo.daily.co/room-k3x9q0a"));
                                   ("name", VString (str "room-k3x9q0a"));
                                   ("token", VString (str "tok"))]) |})
              (str "POST")
              {| Relay.allow := None; Relay.res_status := 200;
                 Relay.res_json :=
                   object [("url", VString (str "https://demo.daily.co/room-k3x9q0a"));
                           ("name", VString (str "room-k3x9q0a"));
                           ("token", VString (str "tok"))] |})
    as (response & data & E & O & J & _).
  - reflexivity.
  - reflexivity.
  - now exists response, data.
Defined.

(** The room is created, the token is refused with 403. *)
Lemma create_room_token_failure_witness :
  fst (CreateRoom.handler (fun _ _ => VUndefined) (Some (str "key"))
         (Some (str "demo")) (str "k3x9q0a")
         (fun r =>
            if str_eqb (CreateRoom.daily_url r)
                 (str "https://api.daily.co/v1/rooms")
            then Resolves
                   {| JS.status := 200;
                      json := Parsed (object [("url", VString (str "u"));
                                              ("name", VString (str "n"))]) |}
            else Resolves
                   {| JS.status := 403;
                      json := Parsed (object [("error", VString (str "no"))]) |})
         (str "POST"))
  = Some {| Relay.allow := None; Relay.res_status := 200;
            Relay.res_json :=
              object [("url", VString (str "u")); ("name", VString (str "n"))] |}.
Proof.
  edestruct (create_room_token_failure (fun _ _ => VUndefined) (Some (str "key"))
            (Some (str "demo")) (str "k3x9q0a")
            (fun r =>
               if str_eqb (CreateRoom.daily_url r)
                    (str "https://api.daily.co/v1/rooms")
               then Resolves
                      {| JS.status := 200;
                         json := Parsed (object [("url", VString (str "u"));
                                                 ("name", VString (str "n"))]) |}
               else Resolves
                      {| JS.status := 403;
                         json := Parsed (object [("error", VString (str "no"))]) |})
            (str "POST")) as [H _];
    [reflexivity..|discriminate|discriminate|].
  eapply H; reflexivity.
Defined.

(** ** Further properties: the form that creates a room *)

(** X25. Whatever goes wrong with the creation of a room (no answer, an answer
    that is not JSON, an error status, a [null] body), the form is no
    longer busy afterwards and shows no link: [link] and [isCreated] are
    as before. *)
Theorem createRoom_failure_keeps_link (ToString : value -> jsstring)
    (TypeError : value -> string -> value) (origin : jsstring)
    (publicDomain : option jsstring) (outcome : FetchResult)
    (st : Home.FormState) :
  room_created outcome = false ->
  let st' :=
    Home.createRoom_settle ToString TypeError origin publicDomain outcome
      (Home.createRoom_begin st) in
  Home.isCreating st' = false
  /\ Home.isCreated st' = Home.isCreated st
  /\ Home.link st' = Home.link st
  /\ Home.userName st' = Home.userName st.
Proof.
  intros F. cbv zeta. unfold Home.createRoom_settle.
  cbn [Home.isCreating Home.isCreated Home.link Home.userName].
  split; [reflexivity|].
  assert (T : exists err,
             Home.createRoom_try ToString TypeError origin publicDomain outcome
             = CreateRoom.Threw err).
  { unfold Home.createRoom_try, CreateRoom.await_fetch, CreateRoom.await_json.
    destruct outcome as [err|response]; [now eexists|].
    cbn [CreateRoom.bind room_created] in *.
    destruct (json response) as [data|err]; [|now eexists].
    cbn [CreateRoom.bind].
    destruct (ok response); cbn [negb andb] in *.
    - destruct data; try discriminate F; now eexists.
    - destruct (CreateRoom.read TypeError data "error"); now eexists. }
  destruct T as [err ->].
  now destruct (CreateRoom.read TypeError err "message").
Qed.

(** Daily refused the room; the API answers 400. *)
Lemma createRoom_failure_keeps_link_witness :
  Home.isCreating
    (Home.createRoom_settle (fun _ => []) (fun _ _ => VUndefined)
       (str "https://app.example") None
       (Resolves {| JS.status := 400;
                    json := Parsed (object [("error", VString (str "invalid"))]) |})
       (Home.createRoom_begin
          {| Home.isCreating := false; Home.isCreated := false;
             Home.link := []; Home.error := VString [];
             Home.userName := str "ann" |})) = false.
Proof.
  apply (createRoom_failure_keeps_link (fun _ => []) (fun _ _ => VUndefined)
           (str "https://app.example") None
           (Resolves {| JS.status := 400;
                        json := Parsed (object [("error", VString (str "invalid"))]) |})
           {| Home.isCreating := false; Home.isCreated := false;
              Home.link := []; Home.error := VString [];
              Home.userName := str "ann" |}).
  reflexivity.
Defined.

(** X26. The link the form shows for a created room is
    [origin/domain/name], the domain being the public one or "misfits",
    followed by [?t=token] exactly when the answer has a token. *)
Theorem createRoom_link (ToString : value -> jsstring)
    (TypeError : value -> string -> value) (origin : jsstring)
    (publicDomain : option jsstring) (response : Response)
    (data : gmap string value) (name : jsstring) (st : Home.FormState) :
  ok response = true ->
  json response = Parsed (VObject data) ->
  data !! "name" = Some (VString name) ->
  let st' :=
    Home.createRoom_settle ToString TypeError origin publicDomain
      (Resolves response) (Home.createRoom_begin st) in
  let room :=
    origin ++ str "/"
    ++ match publicDomain with
       | Some (c :: d) => c :: d
       | _ => str "misfits"
       end
    ++ str "/" ++ name in
  Home.isCreated st' = true /\ Home.isCreating st' = false
  /\ Home.error st' = VString []
  /\ (forall token, data !! "token" = Some (VString token) -> token <> [] ->
                    Home.link st' = room ++ str "?t=" ++ token)
  /\ (truthy (get_prop (VObject data) "token") = false ->
      Home.link st' = room).
Proof.
  intros O J N. cbv zeta. unfold Home.createRoom_settle, Home.createRoom_try.
  cbn [CreateRoom.await_fetch CreateRoom.bind]. unfold CreateRoom.await_json.
  rewrite J, O. cbn [CreateRoom.bind negb CreateRoom.read get_prop].
  rewrite N.
  destruct publicDomain as [[|c d]|]; (repeat split;
    [intros token T Hne; rewrite T; destruct token; [contradiction|];
     reflexivity
    |intros F; unfold get_prop in F; now rewrite F]).
Qed.

(** The API's answer for a room with an owner token. *)
Lemma createRoom_link_witness :
  Home.isCreated
    (Home.createRoom_settle (fun _ => []) (fun _ _ => VUndefined)
       (str "https://app.example") (Some (str "demo"))
       (Resolves
          {| JS.status := 200;
             json :=
               Parsed (VObject (list_to_map
                 [("url", VString (str "https://demo.daily.co/room-k3x9q0a"));
                  ("name", VString (str "room-k3x9q0a"));
                  ("token", VString (str "tok"))])) |})
       (Home.createRoom_begin
          {| Home.isCreating := false; Home.isCreated := false;
             Home.link := []; Home.error := VString [];
             Home.userName := str "ann" |})) = true.
Proof.
  eapply (createRoom_link (fun _ => []) (fun _ _ => VUndefined)
            (str "https://app.example") (Some (str "demo")) _ _
            (str "room-k3x9q0a")); reflexivity.
Defined.

(** ** Further properties: the page and the relay together *)

Lemma lookup_set_optional_ne (k k' : string) (v : option value)
    (m : gmap string value) :
  k <> k' -> set_optional k' v m !! k = m !! k.
Proof.
  intros N. destruct v; cbn; [|reflexivity].
  now rewrite lookup_insert_ne by congruence.
Qed.

Lemma control_body_fields (domainSlug roomSlug : jsstring)
    (payload : Payload.MandyControlPayload) (name : jsstring) :
  let b := control_body domainSlug roomSlug payload name in
  get_prop b "domain" = VString domainSlug
  /\ get_prop b "room" = VString roomSlug
  /\ get_prop b "action" = VString (action_name (Payload.action payload))
  /\ get_prop b "requestedBy"
     = VString (default name (Payload.requestedBy payload)).
Proof.
  cbv zeta. unfold control_body, get_prop.
  repeat split;
    repeat first
      [ rewrite lookup_insert_eq
      | rewrite lookup_insert_ne by discriminate
      | rewrite lookup_set_optional_ne by discriminate ];
    reflexivity.
Qed.

(** The control handler on an object with a room address. *)
Lemma control_handler_object (serviceUrl : option jsstring)
    (backend : Relay.Forwarded -> FetchResult)
    (props : gmap string value) (q : value) :
  Relay.unset serviceUrl = false ->
  truthy (get_prop (VObject props) "domain") = true ->
  truthy (get_prop (VObject props) "room") = true ->
  let fwd :=
    {| Relay.fwd_url :=
         strip_trailing_slash (default [] serviceUrl) ++ str "/api/control";
       Relay.fwd_method := str "POST";
       Relay.fwd_query := [];
       Relay.fwd_body := Some (VObject props) |} in
  Relay.control_handler serviceUrl backend
    {| Relay.method := str "POST"; Relay.body := VObject props;
       Relay.query := q |}
  = (Relay.respond "Failed to update Mandy." (backend fwd), [fwd]).
Proof.
  intros U D R. cbv zeta. unfold Relay.control_handler.
  cbn [Relay.method Relay.body nullish].
  change (negb (str_eqb (str "POST") (str "POST"))) with false.
  rewrite U, D, R. cbn [negb orb Relay.rest_of]. cbv iota.
  pose proof (truthy_lookup _ _ D) as LD.
  pose proof (truthy_lookup _ _ R) as LR.
  assert (E : <["domain" := get_prop (VObject props) "domain"]>
                (<["room" := get_prop (VObject props) "room"]>
                   (delete "room" (delete "domain" props))) = props).
  { rewrite insert_delete_eq, insert_insert_ne by discriminate.
    rewrite insert_delete_eq, (insert_id props "domain") by exact LD.
    now rewrite insert_id by exact LR. }
  unfold Relay.base_url. now rewrite E.
Qed.

Lemma json_clone_control_body (domainSlug roomSlug : jsstring)
    (payload : Payload.MandyControlPayload) (name : jsstring) :
  exists props,
    json_clone (control_body domainSlug roomSlug payload name) = VObject props.
Proof. unfold control_body. eexists. apply json_clone_object. Qed.

(** What [control_round_trip] comes to when the page has a room and the
    relay a backend address. *)
Lemma control_round_trip_forwarded (ToString : value -> jsstring)
    (serviceUrl : option jsstring)
    (backend : Relay.Forwarded -> FetchResult)
    (domainSlug roomSlug : jsstring)
    (payload : Payload.MandyControlPayload) (st : RoomState) :
  domainSlug <> [] -> roomSlug <> [] ->
  Relay.unset serviceUrl = false ->
  let fwd :=
    {| Relay.fwd_url :=
         strip_trailing_slash (default [] serviceUrl) ++ str "/api/control";
       Relay.fwd_method := str "POST";
       Relay.fwd_query := [];
       Relay.fwd_body :=
         Some (json_clone
                 (control_body domainSlug roomSlug payload
                    (localUserName st))) |} in
  Wire.control_round_trip ToString serviceUrl backend domainSlug roomSlug
    payload st
  = Some
      (sendMandyControl_settle ToString
         (Wire.response_of
            (Relay.respond "Failed to update Mandy." (backend fwd)))
         (setMandyState
            (fun prev =>
               with_pendingReason prev
                 (Some (action_name (Payload.action payload)))) st),
       [fwd]).
Proof.
  intros Hd Hr U. cbv zeta.
  unfold Wire.control_round_trip, sendMandyControl_begin.
  destruct domainSlug as [|c d]; [contradiction|].
  destruct roomSlug as [|c' r]; [contradiction|].
  cbn [is_empty orb]. unfold Wire.serve. cbn [call_url].
  change (Wire.route (str "/api/mandy/control")) with (Some Relay.Control).
  cbn [Relay.handler]. unfold Wire.request_of.
  cbn [call_method call_body localUserName setMandyState].
  destruct (control_body_fields (c :: d) (c' :: r) payload (localUserName st))
    as (FD & FR & _).
  destruct (json_clone_control_body (c :: d) (c' :: r) payload
              (localUserName st)) as [props' E].
  assert (TD : truthy (get_prop (VObject props') "domain") = true)
    by (rewrite <- E, get_prop_json_clone, FD; reflexivity).
  assert (TR : truthy (get_prop (VObject props') "room") = true)
    by (rewrite <- E, get_prop_json_clone, FR; reflexivity).
  rewrite E.
  rewrite (control_handler_object serviceUrl backend props' _ U TD TR).
  reflexivity.
Qed.

(** X27. A command of the page reaches the backend as the page wrote it: one
    request to the backend's [/api/control], whose body is the page's
    body with the room address, the action and the requester (the one of
    the payload, or else the local user's name). *)
Theorem control_command_reaches_backend (ToString : value -> jsstring)
    (serviceUrl : option jsstring)
    (backend : Relay.Forwarded -> FetchResult)
    (domainSlug roomSlug : jsstring)
    (payload : Payload.MandyControlPayload) (st : RoomState) :
  domainSlug <> [] -> roomSlug <> [] ->
  Relay.unset serviceUrl = false ->
  exists st' fwd b,
    Wire.control_round_trip ToString serviceUrl backend domainSlug roomSlug
      payload st = Some (st', [fwd])
    /\ Relay.fwd_url fwd
       = strip_trailing_slash (default [] serviceUrl) ++ str "/api/control"
    /\ Relay.fwd_body fwd = Some b
    /\ b = json_clone
             (control_body domainSlug roomSlug payload (localUserName st))
    /\ get_prop b "domain" = VString domainSlug
    /\ get_prop b "room" = VString roomSlug
    /\ get_prop b "action" = VString (action_name (Payload.action payload))
    /\ get_prop b "requestedBy"
       = VString (default (localUserName st) (Payload.requestedBy payload)).
Proof.
  intros Hd Hr U.
  rewrite (control_round_trip_forwarded ToString serviceUrl backend
             domainSlug roomSlug payload st Hd Hr U).
  destruct (control_body_fields domainSlug roomSlug payload (localUserName st))
    as (FD & FR & FA & FQ).
  eexists _, _, _. split; [reflexivity|].
  cbn [Relay.fwd_url Relay.fwd_body].
  split; [reflexivity|]. split; [reflexivity|]. split; [reflexivity|].
  rewrite !get_prop_json_clone, FD, FR, FA, FQ.
  split; [reflexivity|]. split; [reflexivity|]. split; reflexivity.
Qed.

(** The stop command of a page whose user is "ann". *)
Lemma control_command_reaches_backend_witness :
  exists st' fwd b,
    Wire.control_round_trip (fun _ => []) (Some (str "http://localhost:8000"))
      (fun _ => Rejects VUndefined) (str "demo") (str "room-1")
      (requestMandyStop initial_state) initial_state = Some (st', [fwd])
    /\ Relay.fwd_body fwd = Some b
    /\ get_prop b "requestedBy" = VString (str "You").
Proof.
  destruct (control_command_reaches_backend (fun _ => [])
              (Some (str "http://localhost:8000"))
              (fun _ => Rejects VUndefined) (str "demo") (str "room-1")
              (requestMandyStop initial_state) initial_state)
    as (st' & fwd & b & E & _ & B & _ & _ & _ & _ & Q);
    [discriminate|discriminate|reflexivity|].
  exists st', fwd, b. split; [exact E|]. split; [exact B|exact Q].
Defined.

(** How the page takes an error answer of the relay. *)
Lemma settle_error_response (ToString : value -> jsstring) (code : nat)
    (m : jsstring) (st : RoomState) :
  Nat.leb 200 code && Nat.leb code 299 = false ->
  m <> [] ->
  let st' :=
    sendMandyControl_settle ToString
      (Wire.response_of (Relay.error_response code (VString m))) st in
  mandyError st' = VString m
  /\ mandyState st' = with_pendingReason (mandyState st) None.
Proof.
  intros C Hm. cbv zeta.
  unfold Wire.response_of, Relay.error_response, sendMandyControl_settle.
  cbn [Relay.res_status Relay.res_json json]. unfold ok. cbn [JS.status].
  rewrite C. cbn [negb].
  rewrite get_prop_json_clone.
  change (get_prop (object [("error", VString m)]) "error") with (VString m).
  cbn [json_clone]. unfold or_else at 1.
  destruct m as [|c m]; [contradiction|]. cbn [truthy].
  unfold new_Error, sendMandyControl_catch.
  change (get_prop (object [("message", VString (c :: m))]) "message")
    with (VString (c :: m)).
  split; reflexivity.
Qed.

(** X28. What the backend refuses, the user reads: the [detail] of an error
    answer of the backend becomes the page's error message, word for
    word, and the state stays as it was. *)
Theorem backend_error_reaches_banner (ToString : value -> jsstring)
    (serviceUrl : option jsstring)
    (backend : Relay.Forwarded -> FetchResult)
    (domainSlug roomSlug : jsstring)
    (payload : Payload.MandyControlPayload) (st : RoomState)
    (response : Response) (answer : value) (detail : jsstring) :
  domainSlug <> [] -> roomSlug <> [] ->
  Relay.unset serviceUrl = false ->
  (forall fwd, backend fwd = Resolves response) ->
  ok response = false ->
  json response = Parsed answer ->
  get_prop answer "detail" = VString detail ->
  detail <> [] ->
  exists st' sent,
    Wire.control_round_trip ToString serviceUrl backend domainSlug roomSlug
      payload st = Some (st', sent)
    /\ mandyError st' = VString detail
    /\ mandyState st' = with_pendingReason (mandyState st) None.
Proof.
  intros Hd Hr U B O J D Hne.
  rewrite (control_round_trip_forwarded ToString serviceUrl backend
             domainSlug roomSlug payload st Hd Hr U).
  eexists _, _. split; [reflexivity|].
  rewrite B. unfold Relay.respond. rewrite J, O. cbn [negb].
  unfold Relay.upstream_message. rewrite D.
  unfold ok in O.
  destruct (settle_error_response ToString (JS.status response) detail
              (setMandyState
                 (fun prev =>
                    with_pendingReason prev
                      (Some (action_name (Payload.action payload)))) st)
              O Hne) as [E S].
  split; [exact E|]. rewrite S. reflexivity.
Qed.

(** A change of mode refused because the controls are locked. *)
Lemma backend_error_reaches_banner_witness :
  exists st' sent,
    Wire.control_round_trip (fun _ => []) (Some (str "http://localhost:8000"))
      (fun _ =>
         Resolves
           {| JS.status := 409;
              json := Parsed (object [("detail", VString (str "Mode is locked"))]) |})
      (str "demo") (str "room-1") (requestMandyStop initial_state)
      initial_state = Some (st', sent)
    /\ mandyError st' = VString (str "Mode is locked")
    /\ mandyState st' = with_pendingReason (mandyState initial_state) None.
Proof.
  eapply (backend_error_reaches_banner (fun _ => [])
            (Some (str "http://localhost:8000"))
            (fun _ =>
               Resolves
                 {| JS.status := 409;
                    json := Parsed (object [("detail", VString (str "Mode is locked"))]) |})
            (str "demo") (str "room-1") (requestMandyStop initial_state)
            initial_state);
    try reflexivity; discriminate.
Defined.

(** X29. With no backend address on the server, a command of the page gets
    nowhere: nothing is sent on, the page's error message says that
    [MANDY_SERVICE_URL] is not configured, and the state stays. *)
Theorem unconfigured_relay_reaches_banner (ToString : value -> jsstring)
    (serviceUrl : option jsstring)
    (backend : Relay.Forwarded -> FetchResult)
    (domainSlug roomSlug : jsstring)
    (payload : Payload.MandyControlPayload) (st : RoomState) :
  domainSlug <> [] -> roomSlug <> [] ->
  Relay.unset serviceUrl = true ->
  exists st',
    Wire.control_round_trip ToString serviceUrl backend domainSlug roomSlug
      payload st = Some (st', [])
    /\ mandyError st'
       = VString (str "MANDY_SERVICE_URL is not configured on the server.")
    /\ mandyState st' = with_pendingReason (mandyState st) None.
Proof.
  intros Hd Hr U.
  unfold Wire.control_round_trip, sendMandyControl_begin.
  destruct domainSlug as [|c d]; [contradiction|].
  destruct roomSlug as [|c' r]; [contradiction|].
  cbn [is_empty orb]. unfold Wire.serve. cbn [call_url].
  change (Wire.route (str "/api/mandy/control")) with (Some Relay.Control).
  cbn [Relay.handler]. unfold Relay.control_handler, Wire.request_of.
  cbn [call_method Relay.method].
  change (negb (str_eqb (str "POST") (str "POST"))) with false.
  rewrite U. cbv iota.
  eexists. split; [reflexivity|].
  unfold Relay.not_configured.
  destruct (settle_error_response ToString 500
              (str "MANDY_SERVICE_URL is not configured on the server.")
              (setMandyState
                 (fun prev =>
                    with_pendingReason prev
                      (Some (action_name (Payload.action payload)))) st)
              eq_refl) as [E S]; [discriminate|].
  split; [exact E|]. rewrite S. reflexivity.
Qed.

(** A mute from a page whose server has no backend address. *)
Lemma unconfigured_relay_reaches_banner_witness :
  exists st',
    Wire.control_round_trip (fun _ => []) None (fun _ => Rejects VUndefined)
      (str "demo") (str "room-1") (requestMandyStop initial_state)
      initial_state = Some (st', [])
    /\ mandyError st'
       = VString (str "MANDY_SERVICE_URL is not configured on the server.")
    /\ mandyState st' = with_pendingReason (mandyState initial_state) None.
Proof.
  apply unconfigured_relay_reaches_banner; [discriminate|discriminate|].
  reflexivity.
Defined.

Lemma normalize_json_state (s : MandyState) (q : Q) :
  version s = Finite q ->
  normalizeMandyState (json_clone (state_value s)) = with_pendingReason s None.
Proof.
  intros V. rewrite <- normalize_state_value, !normalize_fields.
  rewrite !get_prop_json_clone.
  destruct s as [v m mu d lb ub ua st pr]. cbn [version] in V. subst v.
  cbn. now destruct lb, ub, ua.
Qed.

(** X30. The state the backend answers with is the state the page shows: a
    successful answer whose [state] is a state with a finite version makes
    that state the page's, clears the pending marker and the error. *)
Theorem backend_state_reaches_page (ToString : value -> jsstring)
    (serviceUrl : option jsstring)
    (backend : Relay.Forwarded -> FetchResult)
    (domainSlug roomSlug : jsstring)
    (payload : Payload.MandyControlPayload) (st : RoomState)
    (response : Response) (answer : value) (s : MandyState) (q : Q) :
  domainSlug <> [] -> roomSlug <> [] ->
  Relay.unset serviceUrl = false ->
  (forall fwd, backend fwd = Resolves response) ->
  ok response = true ->
  json response = Parsed answer ->
  get_prop answer "state" = state_value s ->
  version s = Finite q ->
  exists st' sent,
    Wire.control_round_trip ToString serviceUrl backend domainSlug roomSlug
      payload st = Some (st', sent)
    /\ mandyState st' = with_pendingReason s None
    /\ mandyError st' = VNull.
Proof.
  intros Hd Hr U B O J S V.
  rewrite (control_round_trip_forwarded ToString serviceUrl backend
             domainSlug roomSlug payload st Hd Hr U).
  eexists _, _. split; [reflexivity|].
  rewrite B. unfold Relay.respond. rewrite J, O. cbn [negb].
  unfold Wire.response_of, sendMandyControl_settle.
  cbn [Relay.res_status Relay.res_json json].
  change (ok {| JS.status := 200; json := Parsed (json_clone answer) |})
    with true.
  cbn [negb]. rewrite get_prop_json_clone, S.
  assert (T : truthy (json_clone (state_value s)) = true)
    by (unfold state_value, object; now rewrite json_clone_object).
  rewrite T. cbn [mandyState mandyError setMandyState setMandyError].
  split; [|reflexivity]. now apply normalize_json_state with q.
Qed.

(** The backend answers a mute with the new state, version 3. *)
Lemma backend_state_reaches_page_witness :
  exists st' sent,
    Wire.control_round_trip (fun _ => []) (Some (str "http://localhost:8000"))
      (fun _ =>
         Resolves
           {| JS.status := 200;
              json :=
                Parsed
                  (object
                     [("state",
                       state_value
                         {| version := of_Z 3; mode := active; muted := true;
                            directive := []; lockedBy := None;
                            updatedBy := Some (str "ann"); updatedAt := None;
                            status := online; pendingReason := None |})]) |})
      (str "demo") (str "room-1") (requestMandyStop initial_state)
      initial_state = Some (st', sent)
    /\ mandyState st'
       = with_pendingReason
           {| version := of_Z 3; mode := active; muted := true;
              directive := []; lockedBy := None;
              updatedBy := Some (str "ann"); updatedAt := None;
              status := online; pendingReason := None |} None
    /\ mandyError st' = VNull.
Proof.
  eapply (backend_state_reaches_page (fun _ => [])
            (Some (str "http://localhost:8000"))
            (fun _ =>
               Resolves
                 {| JS.status := 200;
                    json :=
                      Parsed
                        (object
                           [("state",
                             state_value
                               {| version := of_Z 3; mode := active;
                                  muted := true; directive := [];
                                  lockedBy := None;
                                  updatedBy := Some (str "ann");
                                  updatedAt := None; status := online;
                                  pendingReason := None |})]) |})
            (str "demo") (str "room-1") (requestMandyStop initial_state)
            initial_state _ _ _ (3 # 1));
    try reflexivity; discriminate.
Defined.

(** ** Further checks on concrete inputs *)

(** An invitation from a page without a token, end to end: the backend is
    asked to start with the room, a [null] token and the directive the
    page holds. *)
Example start_round_trip_body :
  snd <$> Wire.start_round_trip (fun _ => [])
            (Some (str "http://localhost:8000/"))
            (fun _ => Rejects VUndefined) (str "demo") (str "room-1") None
            initial_state
  = Some [{| Relay.fwd_url := str "http://localhost:8000/api/start";
             Relay.fwd_method := str "POST";
             Relay.fwd_query := [];
             Relay.fwd_body :=
               Some (object [("domain", VString (str "demo"));
                             ("room", VString (str "room-1"));
                             ("token", VNull);
                             ("directive", VString [])]) |}].
Proof. vm_compute. reflexivity. Qed.

(** "Create Another" after a room was made. *)
Example reset_after_creation :
  Home.resetForm
    {| Home.isCreating := false; Home.isCreated := true;
       Home.link := str "https://app.example/demo/room-k3x9q0a";
       Home.error := VString []; Home.userName := str "ann" |}
  = {| Home.isCreating := false; Home.isCreated := false; Home.link := [];
       Home.error := VString []; Home.userName := str "ann" |}.
Proof. reflexivity. Qed.

(** The room is made and the token minted: the answer has all three. *)
Example create_room_all_well :
  fst (CreateRoom.handler (fun _ _ => VUndefined) (Some (str "key"))
         (Some (str "demo")) (str "k3x9q0a")
         (fun r =>
            if str_eqb (CreateRoom.daily_url r)
                 (str "https://api.daily.co/v1/rooms")
            then Resolves
                   {| JS.status := 200;
                      json := Parsed (object [("url", VString (str "u"));
                                              ("name", VString (str "n"))]) |}
            else Resolves
                   {| JS.status := 200;
                      json := Parsed (object [("token", VString (str "t"))]) |})
         (str "POST"))
  = Some {| Relay.allow := None; Relay.res_status := 200;
            Relay.res_json :=
              object [("url", VString (str "u")); ("name", VString (str "n"));
                      ("token", VString (str "t"))] |}.
Proof. vm_compute. reflexivity. Qed.
